(** * The QBO attachment migration pipeline: normalizer, mapping verifier,
      upload reconciler

    A shallow embedding of [src/config.py], [src/mapping_verifier.py],
    [src/qbo_attach_demo.py] and [src/fake_qbo_api.py].

    A Python [str] that the normalizer works on is a sequence of Unicode
    code points, with the whitespace set and the upper-case mapping of
    CPython 3.11 (Unicode 14).

    The verifier and the reconciler are embedded over CSV rows: the
    dictionaries that [csv.DictReader] yields and [csv.DictWriter] accepts
    are finite maps from column names to cell texts, the Python set of
    idempotency keys is a finite set, and the CSV files form a finite map
    from paths to file contents.

    The reconciler is embedded a second time over the text of the files,
    with the parser of [csv.reader] and the formatting of [csv.writer], for
    the properties that depend on what a file holds character by character:
    a last line that lacks its line ending, a line that is too short to
    have all the cells of the header. *)

From Stdlib Require Import ZArith Ascii String.
From Stdlib Require Qcanon HexString.
From stdpp Require Import gmap strings list fin_maps pretty.

Local Open Scope string_scope.
Local Open Scope list_scope.

(** ** [src/config.py] *)

Module config.

(** The paths of the CSV files, relative to the repository root (the
    defaults of [DATA_DIR] and [LOG_DIR]). *)
Definition ATTACHMENTS_INVENTORY_CSV : string := "data/attachments_inventory.csv".
Definition MAPPING_EXPORT_CSV : string := "data/mapping_export.csv".
Definition MAPPING_VERIFICATION_LOG_CSV : string := "logs/mapping_verification_log.csv".
Definition MAPPING_VERIFICATION_SKIPS_CSV : string := "logs/mapping_verification_skips.csv".
Definition QBO_ATTACH_RUNLOG_CSV : string := "logs/qbo_attach_runlog.csv".
Definition QBO_ATTACH_ERRORS_CSV : string := "logs/qbo_attach_errors.csv".
Definition QBO_ATTACH_DUPS_CSV : string := "logs/qbo_attach_dups.csv".

(** A Python [str] is a sequence of Unicode code points; [text_of] gives
    the text of an ASCII literal. *)
Definition text : Type := list N.

Fixpoint text_of (s : string) : text :=
  match s with
  | EmptyString => []
  | String c s' => N_of_ascii c :: text_of s'
  end.

(** The characters that [str.strip()] removes, which are those for which
    [str.isspace()] holds (Unicode 14, CPython 3.11): the controls 9-13
    and 28-31, the space 32, U+0085, U+00A0, U+1680, U+2000-U+200A, U+2028,
    U+2029, U+202F, U+205F and U+3000. *)
Definition is_space (c : N) : bool :=
  ((9 <=? c) && (c <=? 13) || (28 <=? c) && (c <=? 32) || (c =? 133) || (c =? 160)
   || (c =? 5760) || (8192 <=? c) && (c <=? 8202) || (c =? 8232) || (c =? 8233)
   || (c =? 8239) || (c =? 8287) || (c =? 12288))%N.

(** [str.lstrip()]: drop the leading run of whitespace. *)
Fixpoint lstrip (s : text) : text :=
  match s with
  | [] => []
  | c :: s' => if is_space c then lstrip s' else s
  end.

(** [str.rstrip()]: drop the trailing run of whitespace. *)
Fixpoint rstrip (s : text) : text :=
  match s with
  | [] => []
  | c :: s' =>
      match rstrip s' with
      | [] => if is_space c then [] else [c]
      | r => c :: r
      end
  end.

(** [str.strip()]. *)
Definition strip (s : text) : text := rstrip (lstrip s).

(** [s.startswith(p)]. *)
Fixpoint startswith (s p : text) {struct p} : bool :=
  match p, s with
  | [], _ => true
  | _ :: _, [] => false
  | a :: p', b :: s' => (a =? b)%N && startswith s' p'
  end.

(** The slice [s[n:]]. *)
Definition slice_from (n : nat) (s : text) : text := drop n s.

(** The full upper-case mapping of [str.upper()] (Unicode 14, CPython
    3.11): every character that [upper()] changes, with the characters it
    becomes. *)
Definition upper_table : list (N * list N) :=
  [
    (97, [65]); (98, [66]); (99, [67]); (100, [68]);
    (101, [69]); (102, [70]); (103, [71]); (104, [72]);
    (105, [73]); (106, [74]); (107, [75]); (108, [76]);
    (109, [77]); (110, [78]); (111, [79]); (112, [80]);
    (113, [81]); (114, [82]); (115, [83]); (116, [84]);
    (117, [85]); (118, [86]); (119, [87]); (120, [88]);
    (121, [89]); (122, [90]); (181, [924]); (223, [83; 83]);
    (224, [192]); (225, [193]); (226, [194]); (227, [195]);
    (228, [196]); (229, [197]); (230, [198]); (231, [199]);
    (232, [200]); (233, [201]); (234, [202]); (235, [203]);
    (236, [204]); (237, [205]); (238, [206]); (239, [207]);
    (240, [208]); (241, [209]); (242, [210]); (243, [211]);
    (244, [212]); (245, [213]); (246, [214]); (248, [216]);
    (249, [217]); (250, [218]); (251, [219]); (252, [220]);
    (253, [221]); (254, [222]); (255, [376]); (257, [256]);
    (259, [258]); (261, [260]); (263, [262]); (265, [264]);
    (267, [266]); (269, [268]); (271, [270]); (273, [272]);
    (275, [274]); (277, [276]); (279, [278]); (281, [280]);
    (283, [282]); (285, [284]); (287, [286]); (289, [288]);
    (291, [290]); (293, [292]); (295, [294]); (297, [296]);
    (299, [298]); (301, [300]); (303, [302]); (305, [73]);
    (307, [306]); (309, [308]); (311, [310]); (314, [313]);
    (316, [315]); (318, [317]); (320, [319]); (322, [321]);
    (324, [323]); (326, [325]); (328, [327]); (329, [700; 78]);
    (331, [330]); (333, [332]); (335, [334]); (337, [336]);
    (339, [338]); (341, [340]); (343, [342]); (345, [344]);
    (347, [346]); (349, [348]); (351, [350]); (353, [352]);
    (355, [354]); (357, [356]); (359, [358]); (361, [360]);
    (363, [362]); (365, [364]); (367, [366]); (369, [368]);
    (371, [370]); (373, [372]); (375, [374]); (378, [377]);
    (380, [379]); (382, [381]); (383, [83]); (384, [579]);
    (387, [386]); (389, [388]); (392, [391]); (396, [395]);
    (402, [401]); (405, [502]); (409, [408]); (410, [573]);
    (414, [544]); (417, [416]); (419, [418]); (421, [420]);
    (424, [423]); (429, [428]); (432, [431]); (436, [435]);
    (438, [437]); (441, [440]); (445, [444]); (447, [503]);
    (453, [452]); (454, [452]); (456, [455]); (457, [455]);
    (459, [458]); (460, [458]); (462, [461]); (464, [463]);
    (466, [465]); (468, [467]); (470, [469]); (472, [471]);
    (474, [473]); (476, [475]); (477, [398]); (479, [478]);
    (481, [480]); (483, [482]); (485, [484]); (487, [486]);
    (489, [488]); (491, [490]); (493, [492]); (495, [494]);
    (496, [74; 780]); (498, [497]); (499, [497]); (501, [500]);
    (505, [504]); (507, [506]); (509, [508]); (511, [510]);
    (513, [512]); (515, [514]); (517, [516]); (519, [518]);
    (521, [520]); (523, [522]); (525, [524]); (527, [526]);
    (529, [528]); (531, [530]); (533, [532]); (535, [534]);
    (537, [536]); (539, [538]); (541, [540]); (543, [542]);
    (547, [546]); (549, [548]); (551, [550]); (553, [552]);
    (555, [554]); (557, [556]); (559, [558]); (561, [560]);
    (563, [562]); (572, [571]); (575, [11390]); (576, [11391]);
    (578, [577]); (583, [582]); (585, [584]); (587, [586]);
    (589, [588]); (591, [590]); (592, [11375]); (593, [11373]);
    (594, [11376]); (595, [385]); (596, [390]); (598, [393]);
    (599, [394]); (601, [399]); (603, [400]); (604, [42923]);
    (608, [403]); (609, [42924]); (611, [404]); (613, [42893]);
    (614, [42922]); (616, [407]); (617, [406]); (618, [42926]);
    (619, [11362]); (620, [42925]); (623, [412]); (625, [11374]);
    (626, [413]); (629, [415]); (637, [11364]); (640, [422]);
    (642, [42949]); (643, [425]); (647, [42929]); (648, [430]);
    (649, [580]); (650, [433]); (651, [434]); (652, [581]);
    (658, [439]); (669, [42930]); (670, [42928]); (837, [921]);
    (881, [880]); (883, [882]); (887, [886]); (891, [1021]);
    (892, [1022]); (893, [1023]); (912, [921; 776; 769]); (940, [902]);
    (941, [904]); (942, [905]); (943, [906]); (944, [933; 776; 769]);
    (945, [913]); (946, [914]); (947, [915]); (948, [916]);
    (949, [917]); (950, [918]); (951, [919]); (952, [920]);
    (953, [921]); (954, [922]); (955, [923]); (956, [924]);
    (957, [925]); (958, [926]); (959, [927]); (960, [928]);
    (961, [929]); (962, [931]); (963, [931]); (964, [932]);
    (965, [933]); (966, [934]); (967, [935]); (968, [936]);
    (969, [937]); (970, [938]); (971, [939]); (972, [908]);
    (973, [910]); (974, [911]); (976, [914]); (977, [920]);
    (981, [934]); (982, [928]); (983, [975]); (985, [984]);
    (987, [986]); (989, [988]); (991, [990]); (993, [992]);
    (995, [994]); (997, [996]); (999, [998]); (1001, [1000]);
    (1003, [1002]); (1005, [1004]); (1007, [1006]); (1008, [922]);
    (1009, [929]); (1010, [1017]); (1011, [895]); (1013, [917]);
    (1016, [1015]); (1019, [1018]); (1072, [1040]); (1073, [1041]);
    (1074, [1042]); (1075, [1043]); (1076, [1044]); (1077, [1045]);
    (1078, [1046]); (1079, [1047]); (1080, [1048]); (1081, [1049]);
    (1082, [1050]); (1083, [1051]); (1084, [1052]); (1085, [1053]);
    (1086, [1054]); (1087, [1055]); (1088, [1056]); (1089, [1057]);
    (1090, [1058]); (1091, [1059]); (1092, [1060]); (1093, [1061]);
    (1094, [1062]); (1095, [1063]); (1096, [1064]); (1097, [1065]);
    (1098, [1066]); (1099, [1067]); (1100, [1068]); (1101, [1069]);
    (1102, [1070]); (1103, [1071]); (1104, [1024]); (1105, [1025]);
    (1106, [1026]); (1107, [1027]); (1108, [1028]); (1109, [1029]);
    (1110, [1030]); (1111, [1031]); (1112, [1032]); (1113, [1033]);
    (1114, [1034]); (1115, [1035]); (1116, [1036]); (1117, [1037]);
    (1118, [1038]); (1119, [1039]); (1121, [1120]); (1123, [1122]);
    (1125, [1124]); (1127, [1126]); (1129, [1128]); (1131, [1130]);
    (1133, [1132]); (1135, [1134]); (1137, [1136]); (1139, [1138]);
    (1141, [1140]); (1143, [1142]); (1145, [1144]); (1147, [1146]);
    (1149, [1148]); (1151, [1150]); (1153, [1152]); (1163, [1162]);
    (1165, [1164]); (1167, [1166]); (1169, [1168]); (1171, [1170]);
    (1173, [1172]); (1175, [1174]); (1177, [1176]); (1179, [1178]);
    (1181, [1180]); (1183, [1182]); (1185, [1184]); (1187, [1186]);
    (1189, [1188]); (1191, [1190]); (1193, [1192]); (1195, [1194]);
    (1197, [1196]); (1199, [1198]); (1201, [1200]); (1203, [1202]);
    (1205, [1204]); (1207, [1206]); (1209, [1208]); (1211, [1210]);
    (1213, [1212]); (1215, [1214]); (1218, [1217]); (1220, [1219]);
    (1222, [1221]); (1224, [1223]); (1226, [1225]); (1228, [1227]);
    (1230, [1229]); (1231, [1216]); (1233, [1232]); (1235, [1234]);
    (1237, [1236]); (1239, [1238]); (1241, [1240]); (1243, [1242]);
    (1245, [1244]); (1247, [1246]); (1249, [1248]); (1251, [1250]);
    (1253, [1252]); (1255, [1254]); (1257, [1256]); (1259, [1258]);
    (1261, [1260]); (1263, [1262]); (1265, [1264]); (1267, [1266]);
    (1269, [1268]); (1271, [1270]); (1273, [1272]); (1275, [1274]);
    (1277, [1276]); (1279, [1278]); (1281, [1280]); (1283, [1282]);
    (1285, [1284]); (1287, [1286]); (1289, [1288]); (1291, [1290]);
    (1293, [1292]); (1295, [1294]); (1297, [1296]); (1299, [1298]);
    (1301, [1300]); (1303, [1302]); (1305, [1304]); (1307, [1306]);
    (1309, [1308]); (1311, [1310]); (1313, [1312]); (1315, [1314]);
    (1317, [1316]); (1319, [1318]); (1321, [1320]); (1323, [1322]);
    (1325, [1324]); (1327, [1326]); (1377, [1329]); (1378, [1330]);
    (1379, [1331]); (1380, [1332]); (1381, [1333]); (1382, [1334]);
    (1383, [1335]); (1384, [1336]); (1385, [1337]); (1386, [1338]);
    (1387, [1339]); (1388, [1340]); (1389, [1341]); (1390, [1342]);
    (1391, [1343]); (1392, [1344]); (1393, [1345]); (1394, [1346]);
    (1395, [1347]); (1396, [1348]); (1397, [1349]); (1398, [1350]);
    (1399, [1351]); (1400, [1352]); (1401, [1353]); (1402, [1354]);
    (1403, [1355]); (1404, [1356]); (1405, [1357]); (1406, [1358]);
    (1407, [1359]); (1408, [1360]); (1409, [1361]); (1410, [1362]);
    (1411, [1363]); (1412, [1364]); (1413, [1365]); (1414, [1366]);
    (1415, [1333; 1362]); (4304, [7312]); (4305, [7313]); (4306, [7314]);
    (4307, [7315]); (4308, [7316]); (4309, [7317]); (4310, [7318]);
    (4311, [7319]); (4312, [7320]); (4313, [7321]); (4314, [7322]);
    (4315, [7323]); (4316, [7324]); (4317, [7325]); (4318, [7326]);
    (4319, [7327]); (4320, [7328]); (4321, [7329]); (4322, [7330]);
    (4323, [7331]); (4324, [7332]); (4325, [7333]); (4326, [7334]);
    (4327, [7335]); (4328, [7336]); (4329, [7337]); (4330, [7338]);
    (4331, [7339]); (4332, [7340]); (4333, [7341]); (4334, [7342]);
    (4335, [7343]); (4336, [7344]); (4337, [7345]); (4338, [7346]);
    (4339, [7347]); (4340, [7348]); (4341, [7349]); (4342, [7350]);
    (4343, [7351]); (4344, [7352]); (4345, [7353]); (4346, [7354]);
    (4349, [7357]); (4350, [7358]); (4351, [7359]); (5112, [5104]);
    (5113, [5105]); (5114, [5106]); (5115, [5107]); (5116, [5108]);
    (5117, [5109]); (7296, [1042]); (7297, [1044]); (7298, [1054]);
    (7299, [1057]); (7300, [1058]); (7301, [1058]); (7302, [1066]);
    (7303, [1122]); (7304, [42570]); (7545, [42877]); (7549, [11363]);
    (7566, [42950]); (7681, [7680]); (7683, [7682]); (7685, [7684]);
    (7687, [7686]); (7689, [7688]); (7691, [7690]); (7693, [7692]);
    (7695, [7694]); (7697, [7696]); (7699, [7698]); (7701, [7700]);
    (7703, [7702]); (7705, [7704]); (7707, [7706]); (7709, [7708]);
    (7711, [7710]); (7713, [7712]); (7715, [7714]); (7717, [7716]);
    (7719, [7718]); (7721, [7720]); (7723, [7722]); (7725, [7724]);
    (7727, [7726]); (7729, [7728]); (7731, [7730]); (7733, [7732]);
    (7735, [7734]); (7737, [7736]); (7739, [7738]); (7741, [7740]);
    (7743, [7742]); (7745, [7744]); (7747, [7746]); (7749, [7748]);
    (7751, [7750]); (7753, [7752]); (7755, [7754]); (7757, [7756]);
    (7759, [7758]); (7761, [7760]); (7763, [7762]); (7765, [7764]);
    (7767, [7766]); (7769, [7768]); (7771, [7770]); (7773, [7772]);
    (7775, [7774]); (7777, [7776]); (7779, [7778]); (7781, [7780]);
    (7783, [7782]); (7785, [7784]); (7787, [7786]); (7789, [7788]);
    (7791, [7790]); (7793, [7792]); (7795, [7794]); (7797, [7796]);
    (7799, [7798]); (7801, [7800]); (7803, [7802]); (7805, [7804]);
    (7807, [7806]); (7809, [7808]); (7811, [7810]); (7813, [7812]);
    (7815, [7814]); (7817, [7816]); (7819, [7818]); (7821, [7820]);
    (7823, [7822]); (7825, [7824]); (7827, [7826]); (7829, [7828]);
    (7830, [72; 817]); (7831, [84; 776]); (7832, [87; 778]); (7833, [89; 778]);
    (7834, [65; 702]); (7835, [7776]); (7841, [7840]); (7843, [7842]);
    (7845, [7844]); (7847, [7846]); (7849, [7848]); (7851, [7850]);
    (7853, [7852]); (7855, [7854]); (7857, [7856]); (7859, [7858]);
    (7861, [7860]); (7863, [7862]); (7865, [7864]); (7867, [7866]);
    (7869, [7868]); (7871, [7870]); (7873, [7872]); (7875, [7874]);
    (7877, [7876]); (7879, [7878]); (7881, [7880]); (7883, [7882]);
    (7885, [7884]); (7887, [7886]); (7889, [7888]); (7891, [7890]);
    (7893, [7892]); (7895, [7894]); (7897, [7896]); (7899, [7898]);
    (7901, [7900]); (7903, [7902]); (7905, [7904]); (7907, [7906]);
    (7909, [7908]); (7911, [7910]); (7913, [7912]); (7915, [7914]);
    (7917, [7916]); (7919, [7918]); (7921, [7920]); (7923, [7922]);
    (7925, [7924]); (7927, [7926]); (7929, [7928]); (7931, [7930]);
    (7933, [7932]); (7935, [7934]); (7936, [7944]); (7937, [7945]);
    (7938, [7946]); (7939, [7947]); (7940, [7948]); (7941, [7949]);
    (7942, [7950]); (7943, [7951]); (7952, [7960]); (7953, [7961]);
    (7954, [7962]); (7955, [7963]); (7956, [7964]); (7957, [7965]);
    (7968, [7976]); (7969, [7977]); (7970, [7978]); (7971, [7979]);
    (7972, [7980]); (7973, [7981]); (7974, [7982]); (7975, [7983]);
    (7984, [7992]); (7985, [7993]); (7986, [7994]); (7987, [7995]);
    (7988, [7996]); (7989, [7997]); (7990, [7998]); (7991, [7999]);
    (8000, [8008]); (8001, [8009]); (8002, [8010]); (8003, [8011]);
    (8004, [8012]); (8005, [8013]); (8016, [933; 787]); (8017, [8025]);
    (8018, [933; 787; 768]); (8019, [8027]); (8020, [933; 787; 769]); (8021, [8029]);
    (8022, [933; 787; 834]); (8023, [8031]); (8032, [8040]); (8033, [8041]);
    (8034, [8042]); (8035, [8043]); (8036, [8044]); (8037, [8045]);
    (8038, [8046]); (8039, [8047]); (8048, [8122]); (8049, [8123]);
    (8050, [8136]); (8051, [8137]); (8052, [8138]); (8053, [8139]);
    (8054, [8154]); (8055, [8155]); (8056, [8184]); (8057, [8185]);
    (8058, [8170]); (8059, [8171]); (8060, [8186]); (8061, [8187]);
    (8064, [7944; 921]); (8065, [7945; 921]); (8066, [7946; 921]); (8067, [7947; 921]);
    (8068, [7948; 921]); (8069, [7949; 921]); (8070, [7950; 921]); (8071, [7951; 921]);
    (8072, [7944; 921]); (8073, [7945; 921]); (8074, [7946; 921]); (8075, [7947; 921]);
    (8076, [7948; 921]); (8077, [7949; 921]); (8078, [7950; 921]); (8079, [7951; 921]);
    (8080, [7976; 921]); (8081, [7977; 921]); (8082, [7978; 921]); (8083, [7979; 921]);
    (8084, [7980; 921]); (8085, [7981; 921]); (8086, [7982; 921]); (8087, [7983; 921]);
    (8088, [7976; 921]); (8089, [7977; 921]); (8090, [7978; 921]); (8091, [7979; 921]);
    (8092, [7980; 921]); (8093, [7981; 921]); (8094, [7982; 921]); (8095, [7983; 921]);
    (8096, [8040; 921]); (8097, [8041; 921]); (8098, [8042; 921]); (8099, [8043; 921]);
    (8100, [8044; 921]); (8101, [8045; 921]); (8102, [8046; 921]); (8103, [8047; 921]);
    (8104, [8040; 921]); (8105, [8041; 921]); (8106, [8042; 921]); (8107, [8043; 921]);
    (8108, [8044; 921]); (8109, [8045; 921]); (8110, [8046; 921]); (8111, [8047; 921]);
    (8112, [8120]); (8113, [8121]); (8114, [8122; 921]); (8115, [913; 921]);
    (8116, [902; 921]); (8118, [913; 834]); (8119, [913; 834; 921]); (8124, [913; 921]);
    (8126, [921]); (8130, [8138; 921]); (8131, [919; 921]); (8132, [905; 921]);
    (8134, [919; 834]); (8135, [919; 834; 921]); (8140, [919; 921]); (8144, [8152]);
    (8145, [8153]); (8146, [921; 776; 768]); (8147, [921; 776; 769]); (8150, [921; 834]);
    (8151, [921; 776; 834]); (8160, [8168]); (8161, [8169]); (8162, [933; 776; 768]);
    (8163, [933; 776; 769]); (8164, [929; 787]); (8165, [8172]); (8166, [933; 834]);
    (8167, [933; 776; 834]); (8178, [8186; 921]); (8179, [937; 921]); (8180, [911; 921]);
    (8182, [937; 834]); (8183, [937; 834; 921]); (8188, [937; 921]); (8526, [8498]);
    (8560, [8544]); (8561, [8545]); (8562, [8546]); (8563, [8547]);
    (8564, [8548]); (8565, [8549]); (8566, [8550]); (8567, [8551]);
    (8568, [8552]); (8569, [8553]); (8570, [8554]); (8571, [8555]);
    (8572, [8556]); (8573, [8557]); (8574, [8558]); (8575, [8559]);
    (8580, [8579]); (9424, [9398]); (9425, [9399]); (9426, [9400]);
    (9427, [9401]); (9428, [9402]); (9429, [9403]); (9430, [9404]);
    (9431, [9405]); (9432, [9406]); (9433, [9407]); (9434, [9408]);
    (9435, [9409]); (9436, [9410]); (9437, [9411]); (9438, [9412]);
    (9439, [9413]); (9440, [9414]); (9441, [9415]); (9442, [9416]);
    (9443, [9417]); (9444, [9418]); (9445, [9419]); (9446, [9420]);
    (9447, [9421]); (9448, [9422]); (9449, [9423]); (11312, [11264]);
    (11313, [11265]); (11314, [11266]); (11315, [11267]); (11316, [11268]);
    (11317, [11269]); (11318, [11270]); (11319, [11271]); (11320, [11272]);
    (11321, [11273]); (11322, [11274]); (11323, [11275]); (11324, [11276]);
    (11325, [11277]); (11326, [11278]); (11327, [11279]); (11328, [11280]);
    (11329, [11281]); (11330, [11282]); (11331, [11283]); (11332, [11284]);
    (11333, [11285]); (11334, [11286]); (11335, [11287]); (11336, [11288]);
    (11337, [11289]); (11338, [11290]); (11339, [11291]); (11340, [11292]);
    (11341, [11293]); (11342, [11294]); (11343, [11295]); (11344, [11296]);
    (11345, [11297]); (11346, [11298]); (11347, [11299]); (11348, [11300]);
    (11349, [11301]); (11350, [11302]); (11351, [11303]); (11352, [11304]);
    (11353, [11305]); (11354, [11306]); (11355, [11307]); (11356, [11308]);
    (11357, [11309]); (11358, [11310]); (11359, [11311]); (11361, [11360]);
    (11365, [570]); (11366, [574]); (11368, [11367]); (11370, [11369]);
    (11372, [11371]); (11379, [11378]); (11382, [11381]); (11393, [11392]);
    (11395, [11394]); (11397, [11396]); (11399, [11398]); (11401, [11400]);
    (11403, [11402]); (11405, [11404]); (11407, [11406]); (11409, [11408]);
    (11411, [11410]); (11413, [11412]); (11415, [11414]); (11417, [11416]);
    (11419, [11418]); (11421, [11420]); (11423, [11422]); (11425, [11424]);
    (11427, [11426]); (11429, [11428]); (11431, [11430]); (11433, [11432]);
    (11435, [11434]); (11437, [11436]); (11439, [11438]); (11441, [11440]);
    (11443, [11442]); (11445, [11444]); (11447, [11446]); (11449, [11448]);
    (11451, [11450]); (11453, [11452]); (11455, [11454]); (11457, [11456]);
    (11459, [11458]); (11461, [11460]); (11463, [11462]); (11465, [11464]);
    (11467, [11466]); (11469, [11468]); (11471, [11470]); (11473, [11472]);
    (11475, [11474]); (11477, [11476]); (11479, [11478]); (11481, [11480]);
    (11483, [11482]); (11485, [11484]); (11487, [11486]); (11489, [11488]);
    (11491, [11490]); (11500, [11499]); (11502, [11501]); (11507, [11506]);
    (11520, [4256]); (11521, [4257]); (11522, [4258]); (11523, [4259]);
    (11524, [4260]); (11525, [4261]); (11526, [4262]); (11527, [4263]);
    (11528, [4264]); (11529, [4265]); (11530, [4266]); (11531, [4267]);
    (11532, [4268]); (11533, [4269]); (11534, [4270]); (11535, [4271]);
    (11536, [4272]); (11537, [4273]); (11538, [4274]); (11539, [4275]);
    (11540, [4276]); (11541, [4277]); (11542, [4278]); (11543, [4279]);
    (11544, [4280]); (11545, [4281]); (11546, [4282]); (11547, [4283]);
    (11548, [4284]); (11549, [4285]); (11550, [4286]); (11551, [4287]);
    (11552, [4288]); (11553, [4289]); (11554, [4290]); (11555, [4291]);
    (11556, [4292]); (11557, [4293]); (11559, [4295]); (11565, [4301]);
    (42561, [42560]); (42563, [42562]); (42565, [42564]); (42567, [42566]);
    (42569, [42568]); (42571, [42570]); (42573, [42572]); (42575, [42574]);
    (42577, [42576]); (42579, [42578]); (42581, [42580]); (42583, [42582]);
    (42585, [42584]); (42587, [42586]); (42589, [42588]); (42591, [42590]);
    (42593, [42592]); (42595, [42594]); (42597, [42596]); (42599, [42598]);
    (42601, [42600]); (42603, [42602]); (42605, [42604]); (42625, [42624]);
    (42627, [42626]); (42629, [42628]); (42631, [42630]); (42633, [42632]);
    (42635, [42634]); (42637, [42636]); (42639, [42638]); (42641, [42640]);
    (42643, [42642]); (42645, [42644]); (42647, [42646]); (42649, [42648]);
    (42651, [42650]); (42787, [42786]); (42789, [42788]); (42791, [42790]);
    (42793, [42792]); (42795, [42794]); (42797, [42796]); (42799, [42798]);
    (42803, [42802]); (42805, [42804]); (42807, [42806]); (42809, [42808]);
    (42811, [42810]); (42813, [42812]); (42815, [42814]); (42817, [42816]);
    (42819, [42818]); (42821, [42820]); (42823, [42822]); (42825, [42824]);
    (42827, [42826]); (42829, [42828]); (42831, [42830]); (42833, [42832]);
    (42835, [42834]); (42837, [42836]); (42839, [42838]); (42841, [42840]);
    (42843, [42842]); (42845, [42844]); (42847, [42846]); (42849, [42848]);
    (42851, [42850]); (42853, [42852]); (42855, [42854]); (42857, [42856]);
    (42859, [42858]); (42861, [42860]); (42863, [42862]); (42874, [42873]);
    (42876, [42875]); (42879, [42878]); (42881, [42880]); (42883, [42882]);
    (42885, [42884]); (42887, [42886]); (42892, [42891]); (42897, [42896]);
    (42899, [42898]); (42900, [42948]); (42903, [42902]); (42905, [42904]);
    (42907, [42906]); (42909, [42908]); (42911, [42910]); (42913, [42912]);
    (42915, [42914]); (42917, [42916]); (42919, [42918]); (42921, [42920]);
    (42933, [42932]); (42935, [42934]); (42937, [42936]); (42939, [42938]);
    (42941, [42940]); (42943, [42942]); (42945, [42944]); (42947, [42946]);
    (42952, [42951]); (42954, [42953]); (42961, [42960]); (42967, [42966]);
    (42969, [42968]); (42998, [42997]); (43859, [42931]); (43888, [5024]);
    (43889, [5025]); (43890, [5026]); (43891, [5027]); (43892, [5028]);
    (43893, [5029]); (43894, [5030]); (43895, [5031]); (43896, [5032]);
    (43897, [5033]); (43898, [5034]); (43899, [5035]); (43900, [5036]);
    (43901, [5037]); (43902, [5038]); (43903, [5039]); (43904, [5040]);
    (43905, [5041]); (43906, [5042]); (43907, [5043]); (43908, [5044]);
    (43909, [5045]); (43910, [5046]); (43911, [5047]); (43912, [5048]);
    (43913, [5049]); (43914, [5050]); (43915, [5051]); (43916, [5052]);
    (43917, [5053]); (43918, [5054]); (43919, [5055]); (43920, [5056]);
    (43921, [5057]); (43922, [5058]); (43923, [5059]); (43924, [5060]);
    (43925, [5061]); (43926, [5062]); (43927, [5063]); (43928, [5064]);
    (43929, [5065]); (43930, [5066]); (43931, [5067]); (43932, [5068]);
    (43933, [5069]); (43934, [5070]); (43935, [5071]); (43936, [5072]);
    (43937, [5073]); (43938, [5074]); (43939, [5075]); (43940, [5076]);
    (43941, [5077]); (43942, [5078]); (43943, [5079]); (43944, [5080]);
    (43945, [5081]); (43946, [5082]); (43947, [5083]); (43948, [5084]);
    (43949, [5085]); (43950, [5086]); (43951, [5087]); (43952, [5088]);
    (43953, [5089]); (43954, [5090]); (43955, [5091]); (43956, [5092]);
    (43957, [5093]); (43958, [5094]); (43959, [5095]); (43960, [5096]);
    (43961, [5097]); (43962, [5098]); (43963, [5099]); (43964, [5100]);
    (43965, [5101]); (43966, [5102]); (43967, [5103]); (64256, [70; 70]);
    (64257, [70; 73]); (64258, [70; 76]); (64259, [70; 70; 73]); (64260, [70; 70; 76]);
    (64261, [83; 84]); (64262, [83; 84]); (64275, [1348; 1350]); (64276, [1348; 1333]);
    (64277, [1348; 1339]); (64278, [1358; 1350]); (64279, [1348; 1341]); (65345, [65313]);
    (65346, [65314]); (65347, [65315]); (65348, [65316]); (65349, [65317]);
    (65350, [65318]); (65351, [65319]); (65352, [65320]); (65353, [65321]);
    (65354, [65322]); (65355, [65323]); (65356, [65324]); (65357, [65325]);
    (65358, [65326]); (65359, [65327]); (65360, [65328]); (65361, [65329]);
    (65362, [65330]); (65363, [65331]); (65364, [65332]); (65365, [65333]);
    (65366, [65334]); (65367, [65335]); (65368, [65336]); (65369, [65337]);
    (65370, [65338]); (66600, [66560]); (66601, [66561]); (66602, [66562]);
    (66603, [66563]); (66604, [66564]); (66605, [66565]); (66606, [66566]);
    (66607, [66567]); (66608, [66568]); (66609, [66569]); (66610, [66570]);
    (66611, [66571]); (66612, [66572]); (66613, [66573]); (66614, [66574]);
    (66615, [66575]); (66616, [66576]); (66617, [66577]); (66618, [66578]);
    (66619, [66579]); (66620, [66580]); (66621, [66581]); (66622, [66582]);
    (66623, [66583]); (66624, [66584]); (66625, [66585]); (66626, [66586]);
    (66627, [66587]); (66628, [66588]); (66629, [66589]); (66630, [66590]);
    (66631, [66591]); (66632, [66592]); (66633, [66593]); (66634, [66594]);
    (66635, [66595]); (66636, [66596]); (66637, [66597]); (66638, [66598]);
    (66639, [66599]); (66776, [66736]); (66777, [66737]); (66778, [66738]);
    (66779, [66739]); (66780, [66740]); (66781, [66741]); (66782, [66742]);
    (66783, [66743]); (66784, [66744]); (66785, [66745]); (66786, [66746]);
    (66787, [66747]); (66788, [66748]); (66789, [66749]); (66790, [66750]);
    (66791, [66751]); (66792, [66752]); (66793, [66753]); (66794, [66754]);
    (66795, [66755]); (66796, [66756]); (66797, [66757]); (66798, [66758]);
    (66799, [66759]); (66800, [66760]); (66801, [66761]); (66802, [66762]);
    (66803, [66763]); (66804, [66764]); (66805, [66765]); (66806, [66766]);
    (66807, [66767]); (66808, [66768]); (66809, [66769]); (66810, [66770]);
    (66811, [66771]); (66967, [66928]); (66968, [66929]); (66969, [66930]);
    (66970, [66931]); (66971, [66932]); (66972, [66933]); (66973, [66934]);
    (66974, [66935]); (66975, [66936]); (66976, [66937]); (66977, [66938]);
    (66979, [66940]); (66980, [66941]); (66981, [66942]); (66982, [66943]);
    (66983, [66944]); (66984, [66945]); (66985, [66946]); (66986, [66947]);
    (66987, [66948]); (66988, [66949]); (66989, [66950]); (66990, [66951]);
    (66991, [66952]); (66992, [66953]); (66993, [66954]); (66995, [66956]);
    (66996, [66957]); (66997, [66958]); (66998, [66959]); (66999, [66960]);
    (67000, [66961]); (67001, [66962]); (67003, [66964]); (67004, [66965]);
    (68800, [68736]); (68801, [68737]); (68802, [68738]); (68803, [68739]);
    (68804, [68740]); (68805, [68741]); (68806, [68742]); (68807, [68743]);
    (68808, [68744]); (68809, [68745]); (68810, [68746]); (68811, [68747]);
    (68812, [68748]); (68813, [68749]); (68814, [68750]); (68815, [68751]);
    (68816, [68752]); (68817, [68753]); (68818, [68754]); (68819, [68755]);
    (68820, [68756]); (68821, [68757]); (68822, [68758]); (68823, [68759]);
    (68824, [68760]); (68825, [68761]); (68826, [68762]); (68827, [68763]);
    (68828, [68764]); (68829, [68765]); (68830, [68766]); (68831, [68767]);
    (68832, [68768]); (68833, [68769]); (68834, [68770]); (68835, [68771]);
    (68836, [68772]); (68837, [68773]); (68838, [68774]); (68839, [68775]);
    (68840, [68776]); (68841, [68777]); (68842, [68778]); (68843, [68779]);
    (68844, [68780]); (68845, [68781]); (68846, [68782]); (68847, [68783]);
    (68848, [68784]); (68849, [68785]); (68850, [68786]); (71872, [71840]);
    (71873, [71841]); (71874, [71842]); (71875, [71843]); (71876, [71844]);
    (71877, [71845]); (71878, [71846]); (71879, [71847]); (71880, [71848]);
    (71881, [71849]); (71882, [71850]); (71883, [71851]); (71884, [71852]);
    (71885, [71853]); (71886, [71854]); (71887, [71855]); (71888, [71856]);
    (71889, [71857]); (71890, [71858]); (71891, [71859]); (71892, [71860]);
    (71893, [71861]); (71894, [71862]); (71895, [71863]); (71896, [71864]);
    (71897, [71865]); (71898, [71866]); (71899, [71867]); (71900, [71868]);
    (71901, [71869]); (71902, [71870]); (71903, [71871]); (93792, [93760]);
    (93793, [93761]); (93794, [93762]); (93795, [93763]); (93796, [93764]);
    (93797, [93765]); (93798, [93766]); (93799, [93767]); (93800, [93768]);
    (93801, [93769]); (93802, [93770]); (93803, [93771]); (93804, [93772]);
    (93805, [93773]); (93806, [93774]); (93807, [93775]); (93808, [93776]);
    (93809, [93777]); (93810, [93778]); (93811, [93779]); (93812, [93780]);
    (93813, [93781]); (93814, [93782]); (93815, [93783]); (93816, [93784]);
    (93817, [93785]); (93818, [93786]); (93819, [93787]); (93820, [93788]);
    (93821, [93789]); (93822, [93790]); (93823, [93791]); (125218, [125184]);
    (125219, [125185]); (125220, [125186]); (125221, [125187]); (125222, [125188]);
    (125223, [125189]); (125224, [125190]); (125225, [125191]); (125226, [125192]);
    (125227, [125193]); (125228, [125194]); (125229, [125195]); (125230, [125196]);
    (125231, [125197]); (125232, [125198]); (125233, [125199]); (125234, [125200]);
    (125235, [125201]); (125236, [125202]); (125237, [125203]); (125238, [125204]);
    (125239, [125205]); (125240, [125206]); (125241, [125207]); (125242, [125208]);
    (125243, [125209]); (125244, [125210]); (125245, [125211]); (125246, [125212]);
    (125247, [125213]); (125248, [125214]); (125249, [125215]); (125250, [125216]);
    (125251, [125217])
  ]%N.

Fixpoint lookup_upper (c : N) (table : list (N * list N)) : option (list N) :=
  match table with
  | [] => None
  | (c', u) :: table' => if (c =? c')%N then Some u else lookup_upper c table'
  end.

(** The full upper-case mapping of one character: its entry in the table,
    and the character itself when it has none. *)
Definition upper_char (c : N) : list N := default [c] (lookup_upper c upper_table).

(** [str.upper()]: the characters are mapped one by one, whatever stands
    around them. *)
Fixpoint upper (s : text) : text :=
  match s with
  | [] => []
  | c :: s' => upper_char c ++ upper s'
  end.

(** [normalize_legacy_id(raw_id)]; [None] is Python's [None]. *)
Definition normalize_legacy_id (raw_id : option text) : text :=
  match raw_id with
  | None => text_of ""
  | Some raw_id =>
      let raw := strip raw_id in
      let raw := if startswith raw (text_of "80") then slice_from 2 raw else raw in
      upper raw
  end.

End config.

(** ** The Python runtime: exceptions and state *)

Module py.

(** The exceptions the pipeline can raise. *)
Inductive exn : Type :=
| FileNotFoundError (path : string)
| KeyError (key : string)
| ValueError (msg : string)
| RuntimeError (msg : string).

(** A computation over a state [S] that returns a value or raises; the
    state reached is kept in both cases, as the effects already performed
    when an exception propagates are not undone. *)
Definition M (S A : Type) : Type := S -> (exn + A) * S.

Definition ret {S A} (a : A) : M S A := fun s => (inr a, s).

Definition raise {S A} (e : exn) : M S A := fun s => (inl e, s).

Definition bind {S A B} (c : M S A) (k : A -> M S B) : M S B :=
  fun s =>
    match c s with
    | (inl e, s') => (inl e, s')
    | (inr a, s') => k a s'
    end.

(** A [for x in xs:] loop whose body updates the local variables [acc]. *)
Fixpoint for_each {S A B} (body : A -> B -> M S A) (acc : A) (xs : list B) : M S A :=
  match xs with
  | [] => ret acc
  | x :: xs' => bind (body acc x) (fun acc' => for_each body acc' xs')
  end.

End py.

Declare Scope py_scope.
Delimit Scope py_scope with py.
Notation "'let*' x := c 'in' k" := (py.bind c (fun x => k))
  (at level 10, x name, c at level 100, k at level 200) : py_scope.
Notation "'do' c 'then' k" := (py.bind c (fun _ => k))
  (at level 10, c at level 100, k at level 200) : py_scope.

(** ** CSV files as [csv.DictReader] and [csv.DictWriter] see them *)

Module csv.

(** A row: the dictionary from column names to cell texts. *)
Abbreviation row := (gmap string string).

(** An existing CSV file: its header line and, for each data line, the
    dictionary [DictReader] yields for it (every line is taken to hold one
    cell per column). *)
Record csv_file : Type := CsvFile { fieldnames : list string; rows : list row }.

(** The files of the pipeline by path; a path that is not bound does not
    exist. *)
Abbreviation files := (gmap string csv_file).

(** [row.get(k, d)]. *)
Definition get (r : row) (k d : string) : string := default d (r !! k).

(** [row[k]]. *)
Definition getitem {S} (r : row) (k : string) : py.M S string :=
  match r !! k with
  | Some v => py.ret v
  | None => py.raise (py.KeyError k)
  end.

(** [path.exists()]. *)
Definition path_exists (path : string) (fs : files) : bool :=
  bool_decide (is_Some (fs !! path)).

(** [path.open("r")] followed by [csv.DictReader(f)]. *)
Definition open_reader (path : string) : py.M files (list row) :=
  fun fs =>
    match fs !! path with
    | Some f => (inr (rows f), fs)
    | None => (inl (py.FileNotFoundError path), fs)
    end.

(** [path.open("w")]: the file is created, or emptied when it exists. *)
Definition open_w (path : string) : py.M files unit :=
  fun fs => (inr tt, <[path := CsvFile [] []]> fs).

(** [path.open("a")]: the file is created when it does not exist, and
    left as it is otherwise. *)
Definition open_a (path : string) : py.M files unit :=
  fun fs =>
    (inr tt, match fs !! path with
             | Some _ => fs
             | None => <[path := CsvFile [] []]> fs
             end).

(** [csv.DictWriter(f, fieldnames=...)] on the file opened at [w_path]. *)
Record DictWriter : Type := { w_path : string; w_fieldnames : list string }.

(** [writer.writeheader()], on a file that was just created or emptied. *)
Definition writeheader (w : DictWriter) : py.M files unit :=
  fun fs =>
    (inr tt, alter (fun f => CsvFile (w_fieldnames w) (rows f)) (w_path w) fs).

(** The line [DictWriter] writes for [rowdict], as the dictionary it is
    read back as under the field names of the writer: every field name
    bound to [rowdict.get(name, "")]. *)
Definition line_of (names : list string) (rowdict : row) : row :=
  list_to_map ((fun k => (k, get rowdict k "")) <$> names).

(** [writer.writerow(rowdict)]: a key that is not a field name raises
    [ValueError] (the default [extrasaction="raise"]); otherwise the line
    is appended to the file. *)
Definition writerow (w : DictWriter) (rowdict : row) : py.M files unit :=
  fun fs =>
    if bool_decide (dom rowdict ⊆ list_to_set (w_fieldnames w)) then
      (inr tt,
       alter (fun f => CsvFile (fieldnames f) (rows f ++ [line_of (w_fieldnames w) rowdict]))
             (w_path w) fs)
    else (inl (py.ValueError "dict contains fields not in fieldnames"), fs).

End csv.

(** ** [src/mapping_verifier.py] *)

Module mapping_verifier.
Import config csv.
Local Open Scope py_scope.

(** [_load_mapping()]: the index of the mapping export by join key; a
    later row replaces an earlier one with the same key. *)
Definition _load_mapping : py.M files (gmap (string * string) row) :=
  let* reader := open_reader MAPPING_EXPORT_CSV in
  py.for_each
    (fun (mapping : gmap (string * string) row) (row : row) =>
       let* k1 := getitem row "legacy_txnid_norm" in
       let* k2 := getitem row "legacy_entity_type" in
       py.ret (<[(k1, k2) := row]> mapping))
    ∅ reader.

Definition fieldnames : list string :=
  [ "legacy_txnid_norm"; "legacy_entity_type"; "raw_legacy_id"; "file_name";
    "file_path"; "qbo_entity_type"; "qbo_entity_id"; "status"; "reason" ].

Definition skip_fieldnames : list string :=
  [ "legacy_txnid_norm"; "legacy_entity_type"; "file_name"; "reason" ].

(** The body of the loop over the inventory rows; the local variables it
    updates are [(ok_count, missing_count)]. *)
Definition verify_row (mapping : gmap (string * string) row) (log_writer : DictWriter)
  (counts : nat * nat) (row : row) : py.M files (nat * nat) :=
  let '(ok_count, missing_count) := counts in
  let* k1 := getitem row "legacy_txnid_norm" in
  let* k2 := getitem row "legacy_entity_type" in
  let mapping_row := mapping !! (k1, k2) in
  let out := row in
  match mapping_row with
  | Some mapping_row =>
      let out := <["qbo_entity_type" := get mapping_row "qbo_entity_type" ""]> out in
      let out := <["qbo_entity_id" := get mapping_row "qbo_entity_id" ""]> out in
      let out := <["status" := "ok"]> out in
      let out := <["reason" := ""]> out in
      do writerow log_writer out then
      py.ret (S ok_count, missing_count)
  | None =>
      let out := <["qbo_entity_type" := ""]> out in
      let out := <["qbo_entity_id" := ""]> out in
      let out := <["status" := "missing_mapping"]> out in
      let out := <["reason" := "no mapping for (legacy_txnid_norm, legacy_entity_type)"]> out in
      do writerow log_writer out then
      py.ret (ok_count, S missing_count)
  end.

(** [main()]; the value returned is the pair of counts of the summary it
    prints. *)
Definition main : py.M files (nat * nat) :=
  let* mapping := _load_mapping in
  let* src_reader := open_reader ATTACHMENTS_INVENTORY_CSV in
  do open_w MAPPING_VERIFICATION_LOG_CSV then
  let log_writer :=
    {| w_path := MAPPING_VERIFICATION_LOG_CSV; w_fieldnames := fieldnames |} in
  do writeheader log_writer then
  let* counts := py.for_each (verify_row mapping log_writer) (0, 0) src_reader in
  do open_w MAPPING_VERIFICATION_SKIPS_CSV then
  let skip_writer :=
    {| w_path := MAPPING_VERIFICATION_SKIPS_CSV; w_fieldnames := skip_fieldnames |} in
  do writeheader skip_writer then
  py.ret counts.

End mapping_verifier.

(** ** [src/auth_qbo_demo.py] *)

Module auth_qbo_demo.

Record FakeQboSession : Type := { name : string }.

(** [get_qbo_session()]: the placeholder session and the dummy realm id. *)
Definition get_qbo_session : FakeQboSession * string :=
  ({| name := "fake-qbo-session" |}, "1234567890").

End auth_qbo_demo.

(** ** [src/fake_qbo_api.py]: the response of the upload operation *)

Module fake_qbo_api.

Record FakeQboResponse : Type := {
  status_code : Z;
  intuit_tid : option string;
  error : option string;
  duration_ms : Z
}.

End fake_qbo_api.

(** ** [src/qbo_attach_demo.py] *)

Module qbo_attach_demo.
Import config csv fake_qbo_api.
Local Open Scope py_scope.

(** What a run of the uploader can change: the CSV files, the outside
    world (the clock, the attachment files on disk, the random source of
    the upload operation), and the trace of the calls made to the upload
    operation, each with its arguments
    [(entity_type, entity_id, file_path)]. *)
Record state (World : Type) : Type := State {
  fs : files;
  world : World;
  calls : list (string * string * string)
}.
Arguments State {World} _ _ _.
Arguments fs {World} _.
Arguments world {World} _.
Arguments calls {World} _.

(** The local variables of [main] that the loop updates. *)
Record locals : Type := Locals {
  prior_successes : gset (string * string);
  total : nat;
  uploaded : nat;
  skipped : nat;
  failed : nat
}.

Definition run_fields : list string :=
  [ "ts"; "legacy_txnid_norm"; "legacy_entity_type"; "raw_legacy_id";
    "qbo_entity_type"; "qbo_entity_id"; "file_name"; "file_path";
    "status_code"; "error"; "intuit_tid"; "outcome" ].

(** [record.update({...})]. *)
Definition update (record : row) (items : list (string * string)) : row :=
  foldl (fun d kv => <[kv.1 := kv.2]> d) record items.

(** The loop of [_load_prior_successes] over the rows of the run log. *)
Definition scan_successes (reader : list row) : gset (string * string) :=
  foldl
    (fun (successes : gset (string * string)) (row : row) =>
       if bool_decide (row !! "outcome" = Some "success") then
         let key := (get row "qbo_entity_id" "", get row "file_name" "") in
         successes ∪ {[ key ]}
       else successes)
    ∅ reader.

(** [_load_prior_successes()]. *)
Definition _load_prior_successes : py.M files (gset (string * string)) :=
  fun files =>
    if negb (path_exists QBO_ATTACH_RUNLOG_CSV files) then (inr ∅, files)
    else
      (let* reader := open_reader QBO_ATTACH_RUNLOG_CSV in
       py.ret (scan_successes reader)) files.

(** [_open_writer(path, fieldnames)]. *)
Definition _open_writer (path : string) (fieldnames : list string) : py.M files DictWriter :=
  fun files =>
    let file_exists := path_exists path files in
    (let writer := {| w_path := path; w_fieldnames := fieldnames |} in
     do open_a path then
     do (if negb file_exists then writeheader writer else py.ret tt) then
     py.ret writer) files.

Section uploader.
Context {World : Type}.

(** [_now_iso()] reads the clock. *)
Variable _now_iso : World -> string * World.

(** [fake_qbo_api.attach_file(entity_type, entity_id, file_path)]: the
    external upload operation. *)
Variable attach_file : string -> string -> string -> World -> FakeQboResponse * World.

(** A file operation, run on the files of the state. *)
Definition on_files {A} (c : py.M files A) : py.M (state World) A :=
  fun st =>
    let '(r, files') := c (fs st) in
    (r, State files' (world st) (calls st)).

Definition now : py.M (state World) string :=
  fun st =>
    let '(ts, w) := _now_iso (world st) in
    (inr ts, State (fs st) w (calls st)).

(** A call to the upload operation, [file_path] being the text handed to
    [Path]; the call is added to the trace. *)
Definition upload (entity_type entity_id file_path : string)
  : py.M (state World) FakeQboResponse :=
  fun st =>
    let '(resp, w) := attach_file entity_type entity_id file_path (world st) in
    (inr resp, State (fs st) w (calls st ++ [(entity_type, entity_id, file_path)])).

(** The body of the loop of [main] over the rows of the verification
    log. *)
Definition process_row (run_writer err_writer dup_writer : DictWriter)
  (loc : locals) (row : row) : py.M (state World) locals :=
  if bool_decide (row !! "status" ≠ Some "ok") then py.ret loc
  else
    let total := S (total loc) in
    let qbo_entity_id := get row "qbo_entity_id" "" in
    let qbo_entity_type := get row "qbo_entity_type" "" in
    let file_name := get row "file_name" "" in
    let file_path := get row "file_path" "" in
    let key := (qbo_entity_id, file_name) in
    let* ts := now in
    let base_record : gmap string string :=
      update ∅
        [ ("ts", ts);
          ("legacy_txnid_norm", get row "legacy_txnid_norm" "");
          ("legacy_entity_type", get row "legacy_entity_type" "");
          ("raw_legacy_id", get row "raw_legacy_id" "");
          ("qbo_entity_type", qbo_entity_type);
          ("qbo_entity_id", qbo_entity_id);
          ("file_name", file_name);
          ("file_path", file_path) ] in
    if bool_decide (key ∈ prior_successes loc) then
      let record :=
        update base_record
          [ ("status_code", ""); ("error", ""); ("intuit_tid", "");
            ("outcome", "skipped_already_uploaded") ] in
      do on_files (writerow run_writer record) then
      do on_files (writerow dup_writer record) then
      py.ret (Locals (prior_successes loc) total (uploaded loc) (S (skipped loc)) (failed loc))
    else
      let* resp := upload qbo_entity_type qbo_entity_id file_path in
      let '(outcome, uploaded, failed) :=
        if (status_code resp =? 200)%Z then ("success", S (uploaded loc), failed loc)
        else if (status_code resp =? 404)%Z then ("file_missing", uploaded loc, S (failed loc))
        else ("error", uploaded loc, S (failed loc)) in
      let record :=
        update base_record
          [ ("status_code", pretty (status_code resp));
            ("error", default "" (error resp));
            ("intuit_tid", default "" (intuit_tid resp));
            ("outcome", outcome) ] in
      do on_files (writerow run_writer record) then
      if bool_decide (outcome ≠ "success") then
        do on_files (writerow err_writer record) then
        py.ret (Locals (prior_successes loc) total uploaded (skipped loc) failed)
      else
        py.ret (Locals (prior_successes loc ∪ {[ key ]}) total uploaded (skipped loc) failed).

(** [main()]; the value returned is the local variables at the end of
    the loop, whose four counters are the summary it prints. *)
Definition main : py.M (state World) locals :=
  fun st =>
    let '(session, realm_id) := auth_qbo_demo.get_qbo_session in
    if negb (path_exists MAPPING_VERIFICATION_LOG_CSV (fs st)) then
      (inl (py.RuntimeError
              (MAPPING_VERIFICATION_LOG_CSV +:+ " not found; run mapping_verifier first")),
       st)
    else
      (let* prior_successes := on_files _load_prior_successes in
       let* run_writer := on_files (_open_writer QBO_ATTACH_RUNLOG_CSV run_fields) in
       let* err_writer := on_files (_open_writer QBO_ATTACH_ERRORS_CSV run_fields) in
       let* dup_writer := on_files (_open_writer QBO_ATTACH_DUPS_CSV run_fields) in
       let* reader := on_files (open_reader MAPPING_VERIFICATION_LOG_CSV) in
       py.for_each (process_row run_writer err_writer dup_writer)
         (Locals prior_successes 0 0 0 0) reader) st.

End uploader.

End qbo_attach_demo.

(** ** Vocabulary of the statements about the normalizer *)

Module normalizer_spec.
Import config.

(** Every character of [s] is whitespace. *)
Fixpoint all_space (s : text) : bool :=
  match s with
  | [] => true
  | c :: s' => is_space c && all_space s'
  end.

(** [s] begins with a whitespace character. *)
Definition starts_with_space (s : text) : bool :=
  match s with
  | [] => false
  | c :: _ => is_space c
  end.

(** [s] ends with a whitespace character. *)
Fixpoint ends_with_space (s : text) : bool :=
  match s with
  | [] => false
  | [c] => is_space c
  | _ :: s' => ends_with_space s'
  end.

(** [t] is [s] with its surrounding whitespace trimmed: [s] is [t] between
    two runs of whitespace, and [t] neither begins nor ends with
    whitespace. *)
Definition trimmed_of (s t : text) : Prop :=
  exists l r : text,
    s = l ++ t ++ r /\ all_space l = true /\ all_space r = true /\
    starts_with_space t = false /\ ends_with_space t = false.

(** The checks on an entry [(c, u)] of the upper-case table that the
    properties of the normalizer rest on: [c] is not whitespace; [u] is not
    empty and has at most three characters, none of them whitespace, none
    the digit [8] or [0], and none with an entry of its own. *)
Definition entry_ok (e : N * list N) : bool :=
  negb (is_space e.1) &&
  negb (bool_decide (e.2 = [])) && (length e.2 <=? 3)%nat &&
  forallb (fun x => negb (is_space x) && negb (x =? 56)%N && negb (x =? 48)%N &&
                    bool_decide (lookup_upper x upper_table = None)) e.2.

End normalizer_spec.

(** ** Vocabulary of the statements about the mapping verifier *)

Module verifier_spec.
Import csv.

(** The join key [(legacy_txnid_norm, legacy_entity_type)] of a row. *)
Definition join_key (r : row) : string * string :=
  (get r "legacy_txnid_norm" "", get r "legacy_entity_type" "").

(** A row of the mapping export carries the two columns of the join key. *)
Definition mapping_row_ok (m : row) : Prop :=
  is_Some (m !! "legacy_txnid_norm") /\ is_Some (m !! "legacy_entity_type").

(** A row of the inventory carries the two columns of the join key and no
    column that the verification log does not have. *)
Definition attachment_row_ok (a : row) : Prop :=
  is_Some (a !! "legacy_txnid_norm") /\ is_Some (a !! "legacy_entity_type") /\
  dom a ⊆ list_to_set mapping_verifier.fieldnames.

(** The key of [a] is in the key set of [M]. *)
Definition in_key_set (M : list row) (a : row) : Prop :=
  exists m, m ∈ M /\ join_key m = join_key a.

(** [m] is the mapping row that matches [a]: the last row of [M] with the
    key of [a]. *)
Definition matching_row (M : list row) (a m : row) : Prop :=
  exists M1 M2 : list row, M = M1 ++ m :: M2 /\ join_key m = join_key a /\
                Forall (fun m' => join_key m' <> join_key a) M2.

Definition attachment_columns : list string :=
  [ "legacy_txnid_norm"; "legacy_entity_type"; "raw_legacy_id"; "file_name"; "file_path" ].

Definition missing_reason : string :=
  "no mapping for (legacy_txnid_norm, legacy_entity_type)".

(** [v] is the VerifiedRecord of the attachment [a] under the mapping
    rows [M]. *)
Definition verified (M : list row) (a v : row) : Prop :=
  dom v = list_to_set mapping_verifier.fieldnames /\
  (forall k, k ∈ attachment_columns -> v !! k = Some (get a k "")) /\
  (v !! "status" = Some "ok" <-> in_key_set M a) /\
  ((exists m, matching_row M a m /\
              v !! "status" = Some "ok" /\
              v !! "qbo_entity_type" = Some (get m "qbo_entity_type" "") /\
              v !! "qbo_entity_id" = Some (get m "qbo_entity_id" "") /\
              v !! "reason" = Some "") \/
   (~ in_key_set M a /\
    v !! "status" = Some "missing_mapping" /\
    v !! "qbo_entity_type" = Some "" /\
    v !! "qbo_entity_id" = Some "" /\
    v !! "reason" = Some missing_reason)).

(** The index [_load_mapping] builds from the rows [M]. *)
Definition index_of (M : list row) : gmap (string * string) row :=
  foldl (fun (mapping : gmap (string * string) row) (r : row) => <[join_key r := r]> mapping) ∅ M.

(** The line the verifier writes for the attachment [a], by the entry
    [mapping_row] of the index at the key of [a]. *)
Definition verified_line (mapping_row : option row) (a : row) : row :=
  line_of mapping_verifier.fieldnames
    match mapping_row with
    | Some m =>
        <["reason" := ""]> (<["status" := "ok"]>
          (<["qbo_entity_id" := get m "qbo_entity_id" ""]>
            (<["qbo_entity_type" := get m "qbo_entity_type" ""]> a)))
    | None =>
        <["reason" := missing_reason]> (<["status" := "missing_mapping"]>
          (<["qbo_entity_id" := ""]> (<["qbo_entity_type" := ""]> a)))
    end.

(** The writer of the verification log. *)
Definition log_writer : DictWriter :=
  {| w_path := config.MAPPING_VERIFICATION_LOG_CSV;
     w_fieldnames := mapping_verifier.fieldnames |}.

(** A skips file that holds its header line and no data line. *)
Definition skips_header_only : csv_file := CsvFile mapping_verifier.skip_fieldnames [].

(** The number of rows of [V] whose status is [st]. *)
Definition count_status (st : string) (V : list row) : nat :=
  length (filter (fun v : row => v !! "status" = Some st) V).

End verifier_spec.

(** ** Vocabulary of the statements about the upload reconciler *)

Module reconciler_spec.
Import config csv fake_qbo_api qbo_attach_demo.

(** The idempotency key [(qbo_entity_id, file_name)] of a row. *)
Definition key_of (r : row) : string * string :=
  (get r "qbo_entity_id" "", get r "file_name" "").

(** A row of the verification log is a candidate when its status is
    ["ok"]. *)
Definition candidate (r : row) : Prop := r !! "status" = Some "ok".

Definition is_success (rec : row) : Prop := rec !! "outcome" = Some "success".

Definition is_skip (rec : row) : Prop :=
  rec !! "outcome" = Some "skipped_already_uploaded".

(** The rows [ledger] hold an attempt record with outcome ["success"] for
    the key [k]. *)
Definition has_success (ledger : list row) (k : string * string) : Prop :=
  exists rec, rec ∈ ledger /\ is_success rec /\ key_of rec = k.

(** The data rows of the file at [path]; a file that does not exist has
    none. *)
Definition rows_at (path : string) (fs : files) : list row :=
  from_option rows [] (fs !! path).

(** The ledger: the data rows of the run log. *)
Definition ledger_of (fs : files) : list row := rows_at QBO_ATTACH_RUNLOG_CSV fs.

(** The three writers [main] opens. *)
Definition run_writer : DictWriter :=
  {| w_path := QBO_ATTACH_RUNLOG_CSV; w_fieldnames := run_fields |}.
Definition err_writer : DictWriter :=
  {| w_path := QBO_ATTACH_ERRORS_CSV; w_fieldnames := run_fields |}.
Definition dup_writer : DictWriter :=
  {| w_path := QBO_ATTACH_DUPS_CSV; w_fieldnames := run_fields |}.

(** The file at [path] after [_open_writer]: created with its header when
    it did not exist. *)
Definition ensure (path : string) (fs : files) : files :=
  match fs !! path with
  | Some _ => fs
  | None => <[path := CsvFile run_fields []]> fs
  end.

(** The files once [main] has opened its three writers. *)
Definition opened (fs : files) : files :=
  ensure QBO_ATTACH_DUPS_CSV (ensure QBO_ATTACH_ERRORS_CSV (ensure QBO_ATTACH_RUNLOG_CSV fs)).

(** The file [f] with the lines [app] appended. *)
Definition with_appended (app : list row) (f : csv_file) : csv_file :=
  CsvFile (fieldnames f) (rows f ++ app).

(** The outcome of a response, by its status code. *)
Definition outcome_of_code (code : Z) : string :=
  if (code =? 200)%Z then "success"
  else if (code =? 404)%Z then "file_missing"
  else "error".

(** The fields of an attempt record that come from the candidate row. *)
Definition verified_fields : list string :=
  [ "legacy_txnid_norm"; "legacy_entity_type"; "raw_legacy_id";
    "qbo_entity_type"; "qbo_entity_id"; "file_name"; "file_path" ].

Definition base_record (ts : string) (r : row) : row :=
  update ∅
    [ ("ts", ts);
      ("legacy_txnid_norm", get r "legacy_txnid_norm" "");
      ("legacy_entity_type", get r "legacy_entity_type" "");
      ("raw_legacy_id", get r "raw_legacy_id" "");
      ("qbo_entity_type", get r "qbo_entity_type" "");
      ("qbo_entity_id", get r "qbo_entity_id" "");
      ("file_name", get r "file_name" "");
      ("file_path", get r "file_path" "") ].

(** The line written for a candidate that is skipped at time [ts]. *)
Definition skip_record (ts : string) (r : row) : row :=
  line_of run_fields
    (update (base_record ts r)
       [ ("status_code", ""); ("error", ""); ("intuit_tid", "");
         ("outcome", "skipped_already_uploaded") ]).

(** The line written for a candidate uploaded at time [ts] with the
    response [resp]. *)
Definition attempt_record (ts : string) (r : row) (resp : FakeQboResponse) : row :=
  line_of run_fields
    (update (base_record ts r)
       [ ("status_code", pretty (status_code resp));
         ("error", default "" (error resp));
         ("intuit_tid", default "" (intuit_tid resp));
         ("outcome", outcome_of_code (status_code resp)) ]).

(** The arguments of the upload call for the candidate [r]. *)
Definition upload_args (r : row) : string * string * string :=
  (get r "qbo_entity_type" "", get r "qbo_entity_id" "", get r "file_path" "").

(** The three output files exist. *)
Definition ready (fs : files) : Prop :=
  is_Some (fs !! QBO_ATTACH_RUNLOG_CSV) /\ is_Some (fs !! QBO_ATTACH_ERRORS_CSV) /\
  is_Some (fs !! QBO_ATTACH_DUPS_CSV).

(** The in-memory idempotency set holds exactly the keys with a success
    record in the ledger as it stands. *)
Definition consistent (prior : gset (string * string)) (fs : files) : Prop :=
  forall k, k ∈ prior <-> has_success (ledger_of fs) k.

(** [fs'] is [fs] with [run_app], [err_app] and [dup_app] appended to the
    run log, the errors log and the duplicates log, and nothing else
    changed. *)
Definition appended (fs fs' : files) (run_app err_app dup_app : list row) : Prop :=
  fs' !! QBO_ATTACH_RUNLOG_CSV = with_appended run_app <$> fs !! QBO_ATTACH_RUNLOG_CSV /\
  fs' !! QBO_ATTACH_ERRORS_CSV = with_appended err_app <$> fs !! QBO_ATTACH_ERRORS_CSV /\
  fs' !! QBO_ATTACH_DUPS_CSV = with_appended dup_app <$> fs !! QBO_ATTACH_DUPS_CSV /\
  forall p, p <> QBO_ATTACH_RUNLOG_CSV -> p <> QBO_ATTACH_ERRORS_CSV ->
            p <> QBO_ATTACH_DUPS_CSV -> fs' !! p = fs !! p.

(** What the errors log and the duplicates log receive of the records
    [run_app] a run appends to the ledger: the errors log the records of
    the uploads that did not succeed, the duplicates log the records of
    the skipped candidates. *)
Definition partitioned (run_app err_app dup_app : list row) : Prop :=
  err_app = filter (fun rec => ~ is_skip rec /\ ~ is_success rec) run_app /\
  dup_app = filter is_skip run_app.

(** The file at [path] is extended by the lines [app] from [fs] to [fs']:
    its data rows are those it had followed by [app], and a file that
    existed keeps its header. *)
Definition extended (path : string) (fs fs' : files) (app : list row) : Prop :=
  rows_at path fs' = rows_at path fs ++ app /\
  forall f, fs !! path = Some f -> fs' !! path = Some (with_appended app f).

(** [rec] is a record for the candidate [c]: it carries the fields of [c],
    those of the key of [c] among them. *)
Definition record_for (c rec : row) : Prop :=
  forall k, k ∈ verified_fields -> rec !! k = Some (get c k "").

(** A run over the rows [rows] appends one record per candidate, in order,
    and makes one call to the upload operation per record that is not a
    skip. *)
Definition accounted (rows run_app : list row) (calls_app : list (string * string * string))
  : Prop :=
  Forall2 record_for (filter candidate rows) run_app /\
  length calls_app = length (filter (fun rec => ~ is_skip rec) run_app).

Section run.
Context {World : Type}.
Variable _now_iso : World -> string * World.
Variable attach_file : string -> string -> string -> World -> FakeQboResponse * World.

(** The state in which the loop of [main] starts, for a run started in
    [st0]. *)
Definition loop_start (st0 : state World) : locals * state World :=
  (Locals (scan_successes (ledger_of (fs st0))) 0 0 0 0,
   State (opened (fs st0)) (world st0) (calls st0)).

(** The run started in [st0] has processed the rows [pre] of the
    verification log and is about to process the next one, with local
    variables [loc] in state [st]. *)
Definition arrives (st0 : state World) (pre : list row)
  (loc : locals) (st : state World) : Prop :=
  py.for_each (process_row _now_iso attach_file run_writer err_writer dup_writer)
    (loop_start st0).1 pre (loop_start st0).2
  = (inr loc, st).

End run.

End reconciler_spec.

(** ** Sample data *)

Module examples.
Import config csv fake_qbo_api qbo_attach_demo.

(** A ledger row with the three columns the idempotency set reads. *)
Definition ledger_row (qbo_entity_id file_name outcome : string) : row :=
  <["qbo_entity_id" := qbo_entity_id]>
    (<["file_name" := file_name]> (<["outcome" := outcome]> ∅)).

(** A row of the verification log. *)
Definition verified_row (qbo_entity_id file_name file_path status : string) : row :=
  <["qbo_entity_type" := "Bill"]>
    (<["qbo_entity_id" := qbo_entity_id]>
       (<["file_name" := file_name]>
          (<["file_path" := file_path]> (<["status" := status]> ∅)))).

(** A row of the mapping export and a row of the inventory. *)
Definition mapping_row (txnid entity_type qbo_entity_id : string) : row :=
  <["legacy_txnid_norm" := txnid]>
    (<["legacy_entity_type" := entity_type]>
       (<["qbo_entity_type" := entity_type]> (<["qbo_entity_id" := qbo_entity_id]> ∅))).

Definition attachment_row (txnid entity_type raw file_name file_path : string) : row :=
  <["legacy_txnid_norm" := txnid]>
    (<["legacy_entity_type" := entity_type]>
       (<["raw_legacy_id" := raw]>
          (<["file_name" := file_name]> (<["file_path" := file_path]> ∅)))).

(** A world that is a clock tick count, and an upload operation that
    answers every call with the status code [code]. *)
Definition clock (w : nat) : string * nat := ("t" +:+ pretty w, S w).

Definition always (code : Z) (entity_type entity_id file_path : string) (w : nat)
  : FakeQboResponse * nat :=
  ({| status_code := code;
      intuit_tid := if (code =? 200)%Z then Some "1-0-000000" else None;
      error := if (code =? 200)%Z then None else Some "failed";
      duration_ms := 0 |}, w).

(** The files of the test of the verifier: one mapped and one unmapped
    attachment, and a skips file left by an earlier run. *)
Definition verifier_files : files :=
  <[MAPPING_EXPORT_CSV :=
      CsvFile [ "legacy_txnid_norm"; "legacy_entity_type"; "qbo_entity_type"; "qbo_entity_id" ]
        [ mapping_row "ABC123" "Bill" "1001" ]]>
    (<[ATTACHMENTS_INVENTORY_CSV :=
         CsvFile [ "legacy_txnid_norm"; "legacy_entity_type"; "raw_legacy_id";
                   "file_name"; "file_path" ]
           [ attachment_row "ABC123" "Bill" "80ABC123" "invoice_ABC123.txt"
               "/tmp/invoice_ABC123.txt";
             attachment_row "MISSING1" "Bill" "80MISSING1" "invoice_missing.txt"
               "/tmp/invoice_missing.txt" ]]>
       (<[MAPPING_VERIFICATION_SKIPS_CSV :=
            CsvFile mapping_verifier.skip_fieldnames
              [ <["legacy_txnid_norm" := "OLD"]> (<["reason" := "stale"]> ∅) ]]> ∅)).

(** A state of the uploader: a verification log with two candidates for
    the same key and one for another, and a ledger in which the first key
    has a success and the second only a failure. *)
Definition uploader_state : state nat :=
  State
    (<[MAPPING_VERIFICATION_LOG_CSV :=
         CsvFile mapping_verifier.fieldnames
           [ verified_row "1001" "invoice_ABC123.txt" "/tmp/invoice_ABC123.txt" "ok";
             verified_row "1002" "invoice_DEF456.txt" "/tmp/invoice_DEF456.txt" "ok" ]]>
       (<[QBO_ATTACH_RUNLOG_CSV :=
            CsvFile run_fields
              [ ledger_row "1001" "invoice_ABC123.txt" "success";
                ledger_row "1002" "invoice_DEF456.txt" "error" ]]> ∅))
    0 [].

(** The same, with the candidate whose key has only a failure first. *)
Definition retry_state : state nat :=
  State
    (<[MAPPING_VERIFICATION_LOG_CSV :=
         CsvFile mapping_verifier.fieldnames
           [ verified_row "1002" "invoice_DEF456.txt" "/tmp/invoice_DEF456.txt" "ok";
             verified_row "1001" "invoice_ABC123.txt" "/tmp/invoice_ABC123.txt" "ok" ]]>
       (<[QBO_ATTACH_RUNLOG_CSV :=
            CsvFile run_fields
              [ ledger_row "1001" "invoice_ABC123.txt" "success";
                ledger_row "1002" "invoice_DEF456.txt" "error" ]]> ∅))
    0 [].

(** A state with none of the files. *)
Definition empty_state : state nat := State ∅ 0 [].

End examples.

(** ** Vocabulary of the statements about the errors of the verifier *)

Module verifier_errors.
Import csv verifier_spec.

(** The exception [_load_mapping] raises at the mapping row [m], if any:
    [KeyError] with the first key column that [m] lacks. *)
Definition mapping_row_error (m : row) : option py.exn :=
  match m !! "legacy_txnid_norm", m !! "legacy_entity_type" with
  | None, _ => Some (py.KeyError "legacy_txnid_norm")
  | Some _, None => Some (py.KeyError "legacy_entity_type")
  | Some _, Some _ => None
  end.

(** The exception the loop of the verifier raises at the inventory row
    [a], if any: [KeyError] with the first key column that [a] lacks, and
    otherwise [ValueError] when [a] has a column that the log has not. *)
Definition attachment_row_error (a : row) : option py.exn :=
  match a !! "legacy_txnid_norm", a !! "legacy_entity_type" with
  | None, _ => Some (py.KeyError "legacy_txnid_norm")
  | Some _, None => Some (py.KeyError "legacy_entity_type")
  | Some _, Some _ =>
      if bool_decide (dom a ⊆ list_to_set mapping_verifier.fieldnames) then None
      else Some (py.ValueError "dict contains fields not in fieldnames")
  end.

(** The first row of [l] with an error, with the rows before it and its
    error. *)
Fixpoint first_error (err : row -> option py.exn) (l : list row)
  : option (list row * row * py.exn) :=
  match l with
  | [] => None
  | x :: l' =>
      match err x with
      | Some e => Some ([], x, e)
      | None =>
          match first_error err l' with
          | Some (pre, y, e) => Some (x :: pre, y, e)
          | None => None
          end
      end
  end.

(** The lines the verifier writes for the attachments [A] under the
    mapping rows [M]. *)
Definition verified_lines (M A : list row) : list row :=
  (fun a => verified_line (index_of M !! join_key a) a) <$> A.

End verifier_errors.

(** ** Vocabulary of the statements about whole runs of the reconciler *)

Module reconciler_runs.
Import csv reconciler_spec.

(** The keys of the success records of a ledger, one per record, in
    order. *)
Definition success_keys (ledger : list row) : list (string * string) :=
  key_of <$> filter is_success ledger.

End reconciler_runs.

(** ** [src/fake_qbo_api.py]: the upload operation *)

Module fake_qbo_api_ops.
Import fake_qbo_api.

(** The float that Python reads the literal [0.1] as, the default of
    [fail_rate]; floats are modelled by the rational numbers they stand
    for, on which [<] is exact. *)
Definition default_fail_rate : Qcanon.Qc :=
  Qcanon.Q2Qc (QArith_base.Qmake 3602879701896397 36028797018963968).

(** [f"{n:x}"]: the sign and the hexadecimal digits, in lower case. *)
Definition format_x (n : Z) : string :=
  match n with
  | Z0 => "0"
  | Zpos p => HexString.Raw.of_pos p ""
  | Zneg p => "-" +:+ HexString.Raw.of_pos p ""
  end.

Fixpoint zeros (n : nat) : string :=
  match n with
  | O => ""
  | S n' => String "0" (zeros n')
  end.

(** [f"{n:06d}"]: the sign, then the digits padded with zeros on the left
    to six characters in all. *)
Definition format_06d (n : Z) : string :=
  if (n <? 0)%Z then
    let digits := pretty (Z.to_N (- n)) in
    "-" +:+ zeros (5 - String.length digits)%nat +:+ digits
  else
    let digits := pretty (Z.to_N n) in
    zeros (6 - String.length digits)%nat +:+ digits.

Section environment.
Context {World Time : Type}.

(** What a call reads from outside: the clock [time.perf_counter()], with
    [elapsed_ms start t] for [int((t - start) * 1000)]; the test
    [Path(file_path).is_file()]; the generators [random.random()] and
    [random.randint(a, b)]; the clock [time.time_ns()]; and the texts
    [str(Path(file_path))] and [Path(file_path).name]. *)
Variable perf_counter : World -> Time * World.
Variable elapsed_ms : Time -> Time -> Z.
Variable is_file : string -> World -> bool * World.
Variable random : World -> Qcanon.Qc * World.
Variable randint : Z -> Z -> World -> Z * World.
Variable time_ns : World -> Z * World.
Variable path_str : string -> string.
Variable path_name : string -> string.

(** [_generate_fake_tid()]. *)
Definition _generate_fake_tid (w : World) : string * World :=
  let '(now_ns, w) := time_ns w in
  let '(rand, w) := randint 0 999999 w in
  ("1-" +:+ format_x now_ns +:+ "-" +:+ format_06d rand, w).

(** [attach_file(entity_type, entity_id, file_path, fail_rate)]. *)
Definition attach_file (entity_type entity_id file_path : string) (fail_rate : Qcanon.Qc)
  (w : World) : FakeQboResponse * World :=
  let '(start, w) := perf_counter w in
  let '(found, w) := is_file file_path w in
  if negb found then
    let '(t, w) := perf_counter w in
    ({| status_code := 404;
        intuit_tid := None;
        error := Some ("file not found: " +:+ path_str file_path);
        duration_ms := elapsed_ms start t |}, w)
  else
    let '(x, w) := random w in
    if bool_decide (Qcanon.Qclt x fail_rate) then
      let '(t, w) := perf_counter w in
      ({| status_code := 500;
          intuit_tid := None;
          error := Some ("synthetic API failure attaching " +:+ path_name file_path
                         +:+ " to " +:+ entity_type +:+ " " +:+ entity_id);
          duration_ms := elapsed_ms start t |}, w)
    else
      let '(tid, w) := _generate_fake_tid w in
      let '(t, w) := perf_counter w in
      ({| status_code := 200;
          intuit_tid := Some tid;
          error := None;
          duration_ms := elapsed_ms start t |}, w).

(** The call the uploader makes: [fail_rate] is left to its default. *)
Definition attach_file_default (entity_type entity_id file_path : string)
  : World -> FakeQboResponse * World :=
  attach_file entity_type entity_id file_path default_fail_rate.

End environment.

End fake_qbo_api_ops.

(** ** Vocabulary of the statements about the reconciler on the upload
       operation of the repository *)

Module reconciler_api_spec.
Import csv.

(** The four shapes of a row of the ledger that the reconciler writes
    when the upload operation is [fake_qbo_api.attach_file]. *)
Definition record_shape (rec : row) : Prop :=
  exists outcome code err tid : string,
    rec !! "outcome" = Some outcome /\ rec !! "status_code" = Some code /\
    rec !! "error" = Some err /\ rec !! "intuit_tid" = Some tid /\
    ((outcome = "skipped_already_uploaded" /\ code = "" /\ err = "" /\ tid = "") \/
     (outcome = "success" /\ code = "200" /\ err = "" /\ tid <> "") \/
     (outcome = "file_missing" /\ code = "404" /\ err <> "" /\ tid = "") \/
     (outcome = "error" /\ code = "500" /\ err <> "" /\ tid = "")).

End reconciler_api_spec.

(** ** A sample environment of the upload operation *)

Module examples_api.
Import fake_qbo_api_ops.

(** A world that is a tick count, in which the only file is
    ["/tmp/invoice_ABC123.txt"] and every draw of the random source is
    [draw]. *)
Definition perf_counter (w : nat) : Z * nat := (Z.of_nat w, S w).
Definition elapsed_ms (start t : Z) : Z := ((t - start) * 1000)%Z.
Definition is_file (file_path : string) (w : nat) : bool * nat :=
  (bool_decide (file_path = "/tmp/invoice_ABC123.txt"), w).
Definition random (draw : Qcanon.Qc) (w : nat) : Qcanon.Qc * nat := (draw, w).
Definition randint (a b : Z) (w : nat) : Z * nat := (a, w).
Definition time_ns (w : nat) : Z * nat := (Z.of_nat (255 + w), w).
Definition half : Qcanon.Qc := Qcanon.Q2Qc (QArith_base.Qmake 1 2).

(** The upload operation in this world, at the default fail rate. *)
Definition upload : string -> string -> string -> nat -> fake_qbo_api.FakeQboResponse * nat :=
  attach_file_default perf_counter elapsed_ms is_file (random half) randint time_ns id id.

End examples_api.

(** ** CSV files as text: [open], [csv.reader], [csv.writer] *)

Module csv_text.

(** The text of a file, character by character, and the files by path; a
    path that is not bound does not exist.  Texts are the UTF-8 form of
    what Python holds; the characters that matter to the [csv] module are
    single bytes in it. *)
Abbreviation chars := (list ascii).
Abbreviation tfiles := (gmap string chars).

Definition LF : ascii := "010"%char.
Definition CR : ascii := "013"%char.
Definition COMMA : ascii := ","%char.
Definition QUOTE : ascii := "034"%char.

(** The lines that iterating over a file opened with [newline=""] yields:
    a line ends after ["\n"], after ["\r\n"] or after a ["\r"] that no
    ["\n"] follows, and keeps its ending; the last line may have none.
    [cur] holds the characters of the line read so far. *)
Fixpoint lines_from (cur : chars) (s : chars) : list chars :=
  match s with
  | [] => if bool_decide (cur = []) then [] else [cur]
  | c :: s' =>
      if bool_decide (c = LF) then (cur ++ [LF]) :: lines_from [] s'
      else if bool_decide (c = CR) then
        match s' with
        | c' :: s'' =>
            if bool_decide (c' = LF) then (cur ++ [CR; LF]) :: lines_from [] s''
            else (cur ++ [CR]) :: lines_from [] s'
        | [] => (cur ++ [CR]) :: lines_from [] s'
        end
      else lines_from (cur ++ [c]) s'
  end.

Definition lines (s : chars) : list chars := lines_from [] s.

(** The parser of [csv.reader] ([Modules/_csv.c]), for the dialect the
    pipeline uses: the comma as delimiter, the double quote as quote
    character, doubled quotes, no escape character, not strict. *)
Inductive ParserState : Type :=
| START_RECORD | START_FIELD | IN_FIELD | IN_QUOTED_FIELD | QUOTE_IN_QUOTED_FIELD | EAT_CRNL.

Global Instance ParserState_eq_dec : EqDecision ParserState.
Proof. solve_decision. Defined.

(** The reader between two characters: its state, the field it is
    collecting and the fields of the record collected so far. *)
Record Reader : Type := {
  state : ParserState;
  field : chars;
  fields : list string
}.

(** What [parse_process_char] is given: a character of the line, or the
    mark [EOL] after its last one. *)
Inductive input : Type := Chr (c : ascii) | EOL.

Definition parse_reset : Reader := {| state := START_RECORD; field := []; fields := [] |}.

Definition parse_save_field (self : Reader) : Reader :=
  {| state := state self; field := [];
     fields := fields self ++ [string_of_list_ascii (field self)] |}.

Definition parse_add_char (self : Reader) (c : ascii) : Reader :=
  {| state := state self; field := field self ++ [c]; fields := fields self |}.

Definition set_state (self : Reader) (st : ParserState) : Reader :=
  {| state := st; field := field self; fields := fields self |}.

Definition is_newline (c : input) : bool :=
  match c with
  | Chr c => bool_decide (c = LF) || bool_decide (c = CR)
  | EOL => false
  end.

(** The case [START_FIELD] of [parse_process_char], which [START_RECORD]
    falls through to. *)
Definition start_field (self : Reader) (c : input) : Reader :=
  match c with
  | EOL => set_state (parse_save_field self) START_RECORD
  | Chr ch =>
      if is_newline c then set_state (parse_save_field self) EAT_CRNL
      else if bool_decide (ch = QUOTE) then set_state self IN_QUOTED_FIELD
      else if bool_decide (ch = COMMA) then set_state (parse_save_field self) START_FIELD
      else set_state (parse_add_char self ch) IN_FIELD
  end.

(** [parse_process_char(self, c)]; [None] is the error [csv.Error]
    ("new-line character seen in unquoted field"). *)
Definition parse_process_char (self : Reader) (c : input) : option Reader :=
  match state self with
  | START_RECORD =>
      match c with
      | EOL => Some self
      | Chr _ =>
          if is_newline c then Some (set_state self EAT_CRNL)
          else Some (start_field self c)
      end
  | START_FIELD => Some (start_field self c)
  | IN_FIELD =>
      match c with
      | EOL => Some (set_state (parse_save_field self) START_RECORD)
      | Chr ch =>
          if is_newline c then Some (set_state (parse_save_field self) EAT_CRNL)
          else if bool_decide (ch = COMMA) then
            Some (set_state (parse_save_field self) START_FIELD)
          else Some (parse_add_char self ch)
      end
  | IN_QUOTED_FIELD =>
      match c with
      | EOL => Some self
      | Chr ch =>
          if bool_decide (ch = QUOTE) then Some (set_state self QUOTE_IN_QUOTED_FIELD)
          else Some (parse_add_char self ch)
      end
  | QUOTE_IN_QUOTED_FIELD =>
      match c with
      | EOL => Some (set_state (parse_save_field self) START_RECORD)
      | Chr ch =>
          if bool_decide (ch = QUOTE) then Some (set_state (parse_add_char self ch) IN_QUOTED_FIELD)
          else if bool_decide (ch = COMMA) then
            Some (set_state (parse_save_field self) START_FIELD)
          else if is_newline c then Some (set_state (parse_save_field self) EAT_CRNL)
          else Some (set_state (parse_add_char self ch) IN_FIELD)
      end
  | EAT_CRNL =>
      match c with
      | EOL => Some (set_state self START_RECORD)
      | Chr _ => if is_newline c then Some self else None
      end
  end.

(** The characters of one line, then [EOL]. *)
Fixpoint parse_line (self : Reader) (line : chars) : option Reader :=
  match line with
  | [] => parse_process_char self EOL
  | c :: line' =>
      match parse_process_char self (Chr c) with
      | Some self' => parse_line self' line'
      | None => None
      end
  end.

(** The records that iterating over [csv.reader(f)] yields, from the
    lines that are left and the reader [self]: a record is complete when a
    line ends in the state [START_RECORD], and the reader is then reset; at
    the end of the input a record that was begun is yielded as it stands.
    [None] is [csv.Error]. *)
Fixpoint read_records (self : Reader) (ls : list chars) : option (list (list string)) :=
  match ls with
  | [] =>
      if bool_decide (field self <> []) || bool_decide (state self = IN_QUOTED_FIELD)
      then Some [fields (parse_save_field self)]
      else Some []
  | line :: ls' =>
      match parse_line self line with
      | None => None
      | Some self' =>
          if bool_decide (state self' = START_RECORD) then
            match read_records parse_reset ls' with
            | Some records => Some (fields self' :: records)
            | None => None
            end
          else read_records self' ls'
      end
  end.

(** [list(csv.reader(f))] for a file with the text [s]. *)
Definition reader (s : chars) : option (list (list string)) :=
  read_records parse_reset (lines s).

(** A row as [csv.DictReader] yields it: a cell of a line that is shorter
    than the header reads as [None].  The cells of a line that is longer
    than the header, which go under the key [None], are left out: no code
    of the pipeline reads them through [row.get]. *)
Abbreviation drow := (gmap string (option string)).

(** [dict(zip(fieldnames, row))], then [restval] for the field names that
    the row is too short for. *)
Definition dict_of (fieldnames row : list string) : drow :=
  foldl (fun (d : drow) (key : string) => <[key := None]> d)
    (foldl (fun (d : drow) (kv : string * string) => <[kv.1 := Some kv.2]> d) ∅
       (zip fieldnames row))
    (drop (length row) fieldnames).

(** [list(csv.DictReader(f))]: the first record is the header, and the
    records with no field, which blank lines give, are passed over. *)
Definition DictReader (s : chars) : option (list drow) :=
  match reader s with
  | None => None
  | Some [] => Some []
  | Some (fieldnames :: records) =>
      Some (dict_of fieldnames <$> filter (fun row => row <> []) records)
  end.

(** [row.get(key, default)]. *)
Definition get (row : drow) (key : string) (default : option string) : option string :=
  match row !! key with
  | Some v => v
  | None => default
  end.

(** A field as [csv.writer] writes it: between quotes, with its quotes
    doubled, when it holds a delimiter, a quote or a character of the line
    terminator. *)
Definition special (c : ascii) : bool :=
  bool_decide (c = COMMA) || bool_decide (c = QUOTE) || bool_decide (c = CR)
  || bool_decide (c = LF).

Fixpoint escape (f : chars) : chars :=
  match f with
  | [] => []
  | c :: f' => if bool_decide (c = QUOTE) then QUOTE :: QUOTE :: escape f' else c :: escape f'
  end.

Definition format_field (f : string) : chars :=
  let f := list_ascii_of_string f in
  if existsb special f then QUOTE :: escape f ++ [QUOTE] else f.

Fixpoint join_fields (fs : list string) : chars :=
  match fs with
  | [] => []
  | [f] => format_field f
  | f :: fs' => format_field f ++ COMMA :: join_fields fs'
  end.

(** The line [writer.writerow(row)] writes: the fields between
    delimiters, a single empty field as two quotes, then ["\r\n"]. *)
Definition format_row (row : list string) : chars :=
  (if bool_decide (row = [ "" ]) then [QUOTE; QUOTE] else join_fields row) ++ [CR; LF].

(** [path.exists()], and the text of a file, empty when there is none. *)
Definition path_exists (path : string) (fs : tfiles) : bool :=
  bool_decide (is_Some (fs !! path)).

Definition text_at (path : string) (fs : tfiles) : chars := default [] (fs !! path).

(** [path.open("a")] creates the file when there is none; [f.write(s)] on
    a file opened so puts [s] after what the file holds. *)
Definition open_a (path : string) (fs : tfiles) : tfiles :=
  match fs !! path with
  | Some _ => fs
  | None => <[path := []]> fs
  end.

Definition write (path : string) (s : chars) (fs : tfiles) : tfiles :=
  <[path := text_at path fs ++ s]> fs.

(** [csv.DictWriter(f, fieldnames=...)] on the file opened at [w_path]. *)
Record DictWriter : Type := { w_path : string; w_fieldnames : list string }.

(** The cells of [rowdict] in the order of the field names, [""] for a
    field name that it lacks and for the value [None]. *)
Definition cells_of (fieldnames : list string) (rowdict : drow) : list string :=
  (fun key => default "" (get rowdict key (Some ""))) <$> fieldnames.

(** [writer.writerow(rowdict)]; [None] is the [ValueError] for a key that
    is not a field name. *)
Definition writerow (w : DictWriter) (rowdict : drow) (fs : tfiles) : option tfiles :=
  if bool_decide (dom rowdict ⊆ list_to_set (w_fieldnames w)) then
    Some (write (w_path w) (format_row (cells_of (w_fieldnames w) rowdict)) fs)
  else None.

(** [writer.writeheader()]. *)
Definition writeheader (w : DictWriter) (fs : tfiles) : tfiles :=
  write (w_path w) (format_row (w_fieldnames w)) fs.

End csv_text.

(** ** [src/qbo_attach_demo.py], over the text of the files *)

Module qbo_attach_demo_text.
Import config csv_text fake_qbo_api.

(** The exceptions a run can raise: [RuntimeError] and [ValueError] as
    above, [TypeError] from [Path(None)], and [csv.Error]. *)
Inductive exn : Type :=
| RuntimeError (msg : string)
| TypeError (msg : string)
| ValueError (msg : string)
| CsvError (msg : string).

Definition M (S A : Type) : Type := S -> (exn + A) * S.

Definition ret {S A} (a : A) : M S A := fun s => (inr a, s).

Definition raise {S A} (e : exn) : M S A := fun s => (inl e, s).

Definition bind {S A B} (c : M S A) (k : A -> M S B) : M S B :=
  fun s =>
    match c s with
    | (inl e, s') => (inl e, s')
    | (inr a, s') => k a s'
    end.

Fixpoint for_each {S A B} (body : A -> B -> M S A) (acc : A) (xs : list B) : M S A :=
  match xs with
  | [] => ret acc
  | x :: xs' => bind (body acc x) (fun acc' => for_each body acc' xs')
  end.

(** What a run can change: the text of the files, the outside world, and
    the trace of the calls made to the upload operation. *)
Record state (World : Type) : Type := State {
  fs : tfiles;
  world : World;
  calls : list (option string * option string * string)
}.
Arguments State {World} _ _ _.
Arguments fs {World} _.
Arguments world {World} _.
Arguments calls {World} _.

(** The local variables of [main] that the loop updates; a part of a key
    is [None] when the row it comes from is too short to have the cell. *)
Record locals : Type := Locals {
  prior_successes : gset (option string * option string);
  total : nat;
  uploaded : nat;
  skipped : nat;
  failed : nat
}.

Definition run_fields : list string :=
  [ "ts"; "legacy_txnid_norm"; "legacy_entity_type"; "raw_legacy_id";
    "qbo_entity_type"; "qbo_entity_id"; "file_name"; "file_path";
    "status_code"; "error"; "intuit_tid"; "outcome" ].

(** [record.update({...})]. *)
Definition update (record : drow) (items : list (string * option string)) : drow :=
  foldl (fun d kv => <[kv.1 := kv.2]> d) record items.

(** The loop of [_load_prior_successes] over the rows of the run log. *)
Definition scan_successes (reader : list drow) : gset (option string * option string) :=
  foldl
    (fun (successes : gset (option string * option string)) (row : drow) =>
       if bool_decide (get row "outcome" None = Some "success") then
         let key := (get row "qbo_entity_id" (Some ""), get row "file_name" (Some "")) in
         successes ∪ {[ key ]}
       else successes)
    ∅ reader.

(** [csv.DictReader(f)] on the file at [path], read to its end. *)
Definition read_rows (path : string) : M tfiles (list drow) :=
  fun files =>
    match DictReader (text_at path files) with
    | Some reader => (inr reader, files)
    | None => (inl (CsvError "new-line character seen in unquoted field"), files)
    end.

(** [_load_prior_successes()]. *)
Definition _load_prior_successes : M tfiles (gset (option string * option string)) :=
  fun files =>
    if negb (path_exists QBO_ATTACH_RUNLOG_CSV files) then (inr ∅, files)
    else
      bind (read_rows QBO_ATTACH_RUNLOG_CSV) (fun reader => ret (scan_successes reader)) files.

(** [_open_writer(path, fieldnames)]. *)
Definition _open_writer (path : string) (fieldnames : list string) : M tfiles DictWriter :=
  fun files =>
    let file_exists := path_exists path files in
    let files := open_a path files in
    let writer := {| w_path := path; w_fieldnames := fieldnames |} in
    let files := if negb file_exists then writeheader writer files else files in
    (inr writer, files).

Section uploader.
Context {World : Type}.

(** [_now_iso()] reads the clock. *)
Variable _now_iso : World -> string * World.

(** [fake_qbo_api.attach_file(entity_type, entity_id, file_path)]: the
    external upload operation; the entity type and the entity id are [None]
    when the row is too short to have them. *)
Variable attach_file :
  option string -> option string -> string -> World -> FakeQboResponse * World.

Definition on_files {A} (c : M tfiles A) : M (state World) A :=
  fun st =>
    let '(r, files') := c (fs st) in
    (r, State files' (world st) (calls st)).

Definition now : M (state World) string :=
  fun st =>
    let '(ts, w) := _now_iso (world st) in
    (inr ts, State (fs st) w (calls st)).

(** [Path(file_path)]. *)
Definition Path (file_path : option string) : M (state World) string :=
  match file_path with
  | Some p => ret p
  | None => raise (TypeError "expected str, bytes or os.PathLike object, not NoneType")
  end.

Definition upload (entity_type entity_id : option string) (file_path : string)
  : M (state World) FakeQboResponse :=
  fun st =>
    let '(resp, w) := attach_file entity_type entity_id file_path (world st) in
    (inr resp, State (fs st) w (calls st ++ [(entity_type, entity_id, file_path)])).

(** [writer.writerow(record)]. *)
Definition write_record (w : DictWriter) (record : drow) : M (state World) unit :=
  on_files (fun files =>
    match writerow w record files with
    | Some files' => (inr tt, files')
    | None => (inl (ValueError "dict contains fields not in fieldnames"), files)
    end).

(** The body of the loop of [main] over the rows of the verification
    log. *)
Definition process_row (run_writer err_writer dup_writer : DictWriter)
  (loc : locals) (row : drow) : M (state World) locals :=
  if bool_decide (get row "status" None <> Some "ok") then ret loc
  else
    let total := S (total loc) in
    let qbo_entity_id := get row "qbo_entity_id" (Some "") in
    let qbo_entity_type := get row "qbo_entity_type" (Some "") in
    let file_name := get row "file_name" (Some "") in
    let file_path := get row "file_path" (Some "") in
    let key := (qbo_entity_id, file_name) in
    bind now (fun ts =>
    let base_record : drow :=
      update ∅
        [ ("ts", Some ts);
          ("legacy_txnid_norm", get row "legacy_txnid_norm" (Some ""));
          ("legacy_entity_type", get row "legacy_entity_type" (Some ""));
          ("raw_legacy_id", get row "raw_legacy_id" (Some ""));
          ("qbo_entity_type", qbo_entity_type);
          ("qbo_entity_id", qbo_entity_id);
          ("file_name", file_name);
          ("file_path", file_path) ] in
    if bool_decide (key ∈ prior_successes loc) then
      let record :=
        update base_record
          [ ("status_code", Some ""); ("error", Some ""); ("intuit_tid", Some "");
            ("outcome", Some "skipped_already_uploaded") ] in
      bind (write_record run_writer record) (fun _ =>
      bind (write_record dup_writer record) (fun _ =>
      ret (Locals (prior_successes loc) total (uploaded loc) (S (skipped loc)) (failed loc))))
    else
      bind (Path file_path) (fun path =>
      bind (upload qbo_entity_type qbo_entity_id path) (fun resp =>
      let '(outcome, uploaded, failed) :=
        if (status_code resp =? 200)%Z then ("success", S (uploaded loc), failed loc)
        else if (status_code resp =? 404)%Z then ("file_missing", uploaded loc, S (failed loc))
        else ("error", uploaded loc, S (failed loc)) in
      let record :=
        update base_record
          [ ("status_code", Some (pretty (status_code resp)));
            ("error", Some (default "" (error resp)));
            ("intuit_tid", Some (default "" (intuit_tid resp)));
            ("outcome", Some outcome) ] in
      bind (write_record run_writer record) (fun _ =>
      if bool_decide (outcome <> "success") then
        bind (write_record err_writer record) (fun _ =>
        ret (Locals (prior_successes loc) total uploaded (skipped loc) failed))
      else
        ret (Locals (prior_successes loc ∪ {[ key ]}) total uploaded (skipped loc) failed))))).

(** [main()]; the value returned is the local variables at the end of
    the loop. *)
Definition main : M (state World) locals :=
  fun st =>
    let '(session, realm_id) := auth_qbo_demo.get_qbo_session in
    if negb (path_exists MAPPING_VERIFICATION_LOG_CSV (fs st)) then
      (inl (RuntimeError
              (MAPPING_VERIFICATION_LOG_CSV +:+ " not found; run mapping_verifier first")),
       st)
    else
      bind (on_files _load_prior_successes) (fun prior_successes =>
      bind (on_files (_open_writer QBO_ATTACH_RUNLOG_CSV run_fields)) (fun run_writer =>
      bind (on_files (_open_writer QBO_ATTACH_ERRORS_CSV run_fields)) (fun err_writer =>
      bind (on_files (_open_writer QBO_ATTACH_DUPS_CSV run_fields)) (fun dup_writer =>
      bind (on_files (read_rows MAPPING_VERIFICATION_LOG_CSV)) (fun reader =>
      for_each (process_row run_writer err_writer dup_writer)
        (Locals prior_successes 0 0 0 0) reader))))) st.

End uploader.

End qbo_attach_demo_text.

(** ** Vocabulary of the statements about the text of the logs *)

Module text_spec.
Import config csv_text qbo_attach_demo_text.

(** The records that the lines [ls] complete, from the reader [self], and
    the reader after the last of them; [None] is [csv.Error]. *)
Fixpoint feed (self : Reader) (ls : list chars) : option (list (list string) * Reader) :=
  match ls with
  | [] => Some ([], self)
  | line :: ls' =>
      match parse_line self line with
      | None => None
      | Some self' =>
          if bool_decide (csv_text.state self' = START_RECORD) then
            match feed parse_reset ls' with
            | Some (records, r) => Some (fields self' :: records, r)
            | None => None
            end
          else feed self' ls'
      end
  end.

(** A text is complete when it is empty or ends with a line feed, and its
    last line ends a record: nothing that is written after it joins a row
    that it holds. *)
Definition complete (s : chars) : Prop :=
  (s = [] \/ exists s0, s = s0 ++ [LF]) /\
  exists records, feed parse_reset (lines s) = Some (records, parse_reset).

(** A character that ends no line. *)
Definition plain (c : ascii) : Prop := c <> CR /\ c <> LF.

(** A line as [lines] yields it: characters that end no line, then a line
    ending, or none. *)
Definition line_ok (l : chars) : Prop :=
  exists body ending : chars,
    l = body ++ ending /\ Forall plain body /\
    (ending = [] \/ ending = [LF] \/ ending = [CR] \/ ending = [CR; LF]).

(** The three logs of the reconciler. *)
Definition logs : list string :=
  [ QBO_ATTACH_RUNLOG_CSV; QBO_ATTACH_ERRORS_CSV; QBO_ATTACH_DUPS_CSV ].

(** The files [fs'] are the files [fs] with text put after the text of
    some of the logs, a log that did not exist counting as empty; every
    other file is as it was. *)
Definition grown (fs fs' : tfiles) : Prop :=
  forall p : string,
    (p ∈ logs -> exists suffix : chars, text_at p fs' = text_at p fs ++ suffix) /\
    (p ∉ logs -> fs' !! p = fs !! p).

(** Every run of the computation [c], whether it returns or raises, only
    puts text after the logs. *)
Definition appends_only {World A : Type} (c : M (state World) A) : Prop :=
  forall (st : state World) (r : exn + A) (st' : state World),
    c st = (r, st') -> grown (fs st) (fs st').

End text_spec.

(** ** Vocabulary of the statements about runs over the text of the files *)

Module text_runs.
Import config csv_text fake_qbo_api qbo_attach_demo_text.

(** A row of the verification log is a candidate when its status is
    ["ok"]. *)
Definition candidate (row : drow) : Prop := get row "status" None = Some "ok".

(** The idempotency key of a row of the verification log. *)
Definition key_of (row : drow) : option string * option string :=
  (get row "qbo_entity_id" (Some ""), get row "file_name" (Some "")).

Definition base_record (ts : string) (row : drow) : drow :=
  update ∅
    [ ("ts", Some ts);
      ("legacy_txnid_norm", get row "legacy_txnid_norm" (Some ""));
      ("legacy_entity_type", get row "legacy_entity_type" (Some ""));
      ("raw_legacy_id", get row "raw_legacy_id" (Some ""));
      ("qbo_entity_type", get row "qbo_entity_type" (Some ""));
      ("qbo_entity_id", get row "qbo_entity_id" (Some ""));
      ("file_name", get row "file_name" (Some ""));
      ("file_path", get row "file_path" (Some "")) ].

(** The record of a candidate that is skipped at time [ts]. *)
Definition skip_record (ts : string) (row : drow) : drow :=
  update (base_record ts row)
    [ ("status_code", Some ""); ("error", Some ""); ("intuit_tid", Some "");
      ("outcome", Some "skipped_already_uploaded") ].

Definition outcome_of_code (code : Z) : string :=
  if (code =? 200)%Z then "success"
  else if (code =? 404)%Z then "file_missing"
  else "error".

(** The record of a candidate uploaded at time [ts] with the response
    [resp]. *)
Definition attempt_record (ts : string) (row : drow) (resp : FakeQboResponse) : drow :=
  update (base_record ts row)
    [ ("status_code", Some (pretty (status_code resp)));
      ("error", Some (default "" (error resp)));
      ("intuit_tid", Some (default "" (intuit_tid resp)));
      ("outcome", Some (outcome_of_code (status_code resp))) ].

(** The line that a writer of the reconciler writes for a record. *)
Definition line_of (record : drow) : chars := format_row (cells_of run_fields record).

Definition run_writer : DictWriter :=
  {| w_path := QBO_ATTACH_RUNLOG_CSV; w_fieldnames := run_fields |}.
Definition err_writer : DictWriter :=
  {| w_path := QBO_ATTACH_ERRORS_CSV; w_fieldnames := run_fields |}.
Definition dup_writer : DictWriter :=
  {| w_path := QBO_ATTACH_DUPS_CSV; w_fieldnames := run_fields |}.

(** The files after [_open_writer(path, run_fields)]: a log that does not
    exist is created with its header line. *)
Definition ensure (path : string) (files : tfiles) : tfiles :=
  if path_exists path files then files
  else write path (format_row run_fields) (<[path := []]> files).

(** The files after the three logs were opened. *)
Definition opened (files : tfiles) : tfiles :=
  ensure QBO_ATTACH_DUPS_CSV (ensure QBO_ATTACH_ERRORS_CSV (ensure QBO_ATTACH_RUNLOG_CSV files)).

(** The rows that [csv.DictReader] yields for the file at [path]; none
    when there is no such file. *)
Definition rows_at (path : string) (files : tfiles) : list drow :=
  default [] (DictReader (text_at path files)).

(** The idempotency set that [_load_prior_successes] returns. *)
Definition prior_of (files : tfiles) : gset (option string * option string) :=
  if path_exists QBO_ATTACH_RUNLOG_CSV files
  then scan_successes (rows_at QBO_ATTACH_RUNLOG_CSV files)
  else ∅.

(** The local variables and the state with which the loop of [main]
    starts, for a run started in [st0]. *)
Definition loop_start {World : Type} (st0 : state World) : locals * state World :=
  (Locals (prior_of (fs st0)) 0 0 0 0,
   State (opened (fs st0)) (world st0) (calls st0)).


End text_runs.

(** ** Sample files, as text *)

Module examples_text.
Import config csv_text qbo_attach_demo_text.

(** The text of a CSV file with the lines [rows], as [csv.writer] writes
    them. *)
Definition csv_of (rows : list (list string)) : chars := concat (format_row <$> rows).

(** An upload operation that answers every call with the status code
    [code]. *)
Definition always (code : Z) (entity_type entity_id : option string) (file_path : string)
  : nat -> fake_qbo_api.FakeQboResponse * nat :=
  examples.always code (default "None" entity_type) (default "None" entity_id) file_path.

Definition verification_log : chars :=
  csv_of
    [ mapping_verifier.fieldnames;
      [ "ABC123"; "Bill"; "80ABC123"; "invoice_ABC123.txt"; "/tmp/invoice_ABC123.txt";
        "Bill"; "1001"; "ok"; "" ];
      [ "DEF456"; "Bill"; "80DEF456"; "invoice, DEF456.txt"; "/tmp/invoice, DEF456.txt";
        "Bill"; "1002"; "ok"; "" ];
      [ "MISSING"; "Bill"; "80MISSING"; "invoice_MISSING.txt"; "/tmp/invoice_MISSING.txt";
        ""; ""; "missing_mapping"; "no mapping for (legacy_txnid_norm, legacy_entity_type)" ] ].

Definition ledger : chars :=
  csv_of
    [ run_fields;
      [ "t"; "ABC123"; "Bill"; "80ABC123"; "Bill"; "1001"; "invoice_ABC123.txt";
        "/tmp/invoice_ABC123.txt"; "200"; ""; "1-0-000000"; "success" ] ].

(** A state whose run log is complete, and one whose run log lacks the
    line ending of its last line. *)
Definition complete_state : state nat :=
  State (<[MAPPING_VERIFICATION_LOG_CSV := verification_log]>
           (<[QBO_ATTACH_RUNLOG_CSV := ledger]> ∅)) 0 [].

Definition unterminated_state : state nat :=
  State (<[MAPPING_VERIFICATION_LOG_CSV := verification_log]>
           (<[QBO_ATTACH_RUNLOG_CSV := take (length ledger - 2) ledger]> ∅)) 0 [].

(** A state whose verification log has a candidate on a line that is too
    short to have a file path. *)
Definition short_row_state : state nat :=
  State (<[MAPPING_VERIFICATION_LOG_CSV :=
             csv_of [ [ "status"; "qbo_entity_id"; "file_name"; "file_path" ];
                      [ "ok"; "1003"; "invoice_X.txt" ] ]]> ∅) 0 [].

End examples_text.

(** * Properties of the normalizer *)

Section normalizer_facts.
Import config normalizer_spec.

(** ** The upper-case table *)

Lemma upper_table_ok : forallb entry_ok upper_table = true.
Proof. vm_compute. reflexivity. Qed.

Lemma lookup_upper_elem (c : N) (table : list (N * list N)) (u : list N) :
  lookup_upper c table = Some u -> (c, u) ∈ table.
Proof.
  induction table as [|[c' u'] table IH]; [done|]. cbn [lookup_upper].
  destruct (N.eqb_spec c c') as [->|_].
  - intros [= ->]. left.
  - intros H. right. by apply IH.
Qed.

Lemma upper_char_cases (c : N) :
  (lookup_upper c upper_table = None /\ upper_char c = [c]) \/
  (exists u, upper_char c = u /\ entry_ok (c, u) = true).
Proof.
  unfold upper_char. destruct (lookup_upper c upper_table) as [u|] eqn:Hc; [right|by left].
  exists u. split; [done|].
  pose proof upper_table_ok as Hok. rewrite forallb_forall in Hok.
  apply Hok, list_elem_of_In. by apply lookup_upper_elem.
Qed.

Lemma entry_ok_inv (c : N) (u : list N) :
  entry_ok (c, u) = true ->
  is_space c = false /\ u <> [] /\ length u <= 3 /\
  Forall (fun x => is_space x = false /\ x <> 56%N /\ x <> 48%N /\ upper_char x = [x]) u.
Proof.
  unfold entry_ok. cbn [fst snd]. rewrite !andb_true_iff, !negb_true_iff.
  intros [[[Hc Hu] Hlen] Hall].
  split; [done|]. split; [by apply bool_decide_eq_false in Hu|].
  split; [by apply Nat.leb_le|].
  apply Forall_forall. intros x Hx. rewrite forallb_forall in Hall.
  specialize (Hall x (proj1 (list_elem_of_In _ _) Hx)).
  rewrite !andb_true_iff, !negb_true_iff in Hall. destruct Hall as [[[Hs H8] H0] Hn].
  apply bool_decide_eq_true in Hn.
  split; [done|]. split; [by apply N.eqb_neq|]. split; [by apply N.eqb_neq|].
  unfold upper_char. by rewrite Hn.
Qed.

(** Whitespace has no upper-case form of its own. *)
Lemma upper_char_space (c : N) : is_space c = true -> upper_char c = [c].
Proof.
  intros Hc. destruct (upper_char_cases c) as [[_ H]|(u & _ & Hok)]; [done|].
  apply entry_ok_inv in Hok as [Hs _]. congruence.
Qed.

(** The upper-case form of a character that is not whitespace holds
    between one and three characters, none of them whitespace. *)
Lemma upper_char_nonspace (c : N) :
  is_space c = false ->
  upper_char c <> [] /\ length (upper_char c) <= 3 /\
  Forall (fun x => is_space x = false) (upper_char c).
Proof.
  intros Hc. destruct (upper_char_cases c) as [[_ ->]|(u & -> & Hok)].
  - split; [done|]. split; [cbn; lia|]. by repeat constructor.
  - apply entry_ok_inv in Hok as (_ & Hu & Hlen & Hall).
    split; [done|]. split; [done|]. eapply Forall_impl; [exact Hall|]. by intros x [? _].
Qed.

Lemma upper_char_length (c : N) : 1 <= length (upper_char c) <= 3.
Proof.
  destruct (upper_char_cases c) as [[_ ->]|(u & -> & Hok)]; [cbn; lia|].
  apply entry_ok_inv in Hok as (_ & Hu & Hlen & _). destruct u; [done|]. cbn in *. lia.
Qed.

(** The characters of an upper-case form are their own upper-case form. *)
Lemma upper_char_stable (c x : N) : x ∈ upper_char c -> upper_char x = [x].
Proof.
  destruct (upper_char_cases c) as [[Hn ->]|(u & -> & Hok)].
  - intros ->%list_elem_of_singleton. unfold upper_char. by rewrite Hn.
  - apply entry_ok_inv in Hok as (_ & _ & _ & Hall). rewrite Forall_forall in Hall.
    intros Hx. by apply Hall.
Qed.

(** The digits [8] and [0] come from themselves only. *)
Lemma upper_char_digit (c x : N) :
  x ∈ upper_char c -> x = 56%N \/ x = 48%N -> upper_char c = [c] /\ c = x.
Proof.
  destruct (upper_char_cases c) as [[Hn ->]|(u & -> & Hok)].
  - by intros ->%list_elem_of_singleton.
  - apply entry_ok_inv in Hok as (_ & _ & _ & Hall). rewrite Forall_forall in Hall.
    intros Hx Hd. destruct (Hall x Hx) as (_ & H8 & H0 & _). by destruct Hd.
Qed.

Lemma upper_char_8 : upper_char 56 = [56%N].
Proof. reflexivity. Qed.

Lemma upper_char_0 : upper_char 48 = [48%N].
Proof. reflexivity. Qed.

(** ** Upper-casing a text *)

Lemma upper_app (u v : text) : upper (u ++ v) = upper u ++ upper v.
Proof. induction u as [|c u IH]; [done|]. cbn [upper app]. by rewrite IH, app_assoc. Qed.

Lemma upper_fixed (u : text) : Forall (fun x => upper_char x = [x]) u -> upper u = u.
Proof. induction 1 as [|x u Hx _ IH]; [done|]. cbn [upper]. by rewrite Hx, IH. Qed.

Lemma upper_stable (s : text) : Forall (fun x => upper_char x = [x]) (upper s).
Proof.
  induction s as [|c s IH]; [constructor|]. cbn [upper]. apply Forall_app. split; [|done].
  apply Forall_forall. intros x. apply upper_char_stable.
Qed.

Lemma upper_idem (s : text) : upper (upper s) = upper s.
Proof. apply upper_fixed, upper_stable. Qed.

Lemma upper_all_space (r : text) : all_space r = true -> upper r = r.
Proof.
  induction r as [|c r IH]; [done|]. cbn [all_space upper].
  intros [Hc Hr]%andb_true_iff. by rewrite (upper_char_space c Hc), IH.
Qed.

Lemma upper_length (s : text) : length s <= length (upper s) <= 3 * length s.
Proof.
  induction s as [|c s IH]; [cbn; lia|]. cbn [upper length]. rewrite length_app.
  pose proof (upper_char_length c). lia.
Qed.

(** ** Trimming *)

Lemma lstrip_split (s : text) :
  exists l, s = l ++ lstrip s /\ all_space l = true /\ starts_with_space (lstrip s) = false.
Proof.
  induction s as [|c s IH]; [by exists []|]. cbn [lstrip].
  destruct (is_space c) eqn:Hc.
  - destruct IH as (l & Hs & Hl & Hst). exists (c :: l).
    cbn [all_space app]. rewrite Hc, Hl, <- Hs. done.
  - exists []. done.
Qed.

Lemma lstrip_fixed (s : text) : starts_with_space s = false -> lstrip s = s.
Proof. destruct s as [|c s]; [done|]. cbn. by intros ->. Qed.

Lemma lstrip_all_space (l s : text) : all_space l = true -> lstrip (l ++ s) = lstrip s.
Proof.
  induction l as [|c l IH]; [done|]. cbn [all_space app lstrip].
  intros [-> Hl]%andb_true_iff. by apply IH.
Qed.

Lemma rstrip_cons_nonspace (c : N) (s : text) :
  is_space c = false -> rstrip (c :: s) = c :: rstrip s.
Proof. intros Hc. cbn [rstrip]. destruct (rstrip s); [by rewrite Hc | done]. Qed.

Lemma rstrip_all_space (r : text) : all_space r = true -> rstrip r = [].
Proof.
  induction r as [|c r IH]; [done|]. cbn [all_space rstrip].
  intros [Hc Hr]%andb_true_iff. by rewrite (IH Hr), Hc.
Qed.

Lemma rstrip_app_space (s r : text) : all_space r = true -> rstrip (s ++ r) = rstrip s.
Proof.
  intros Hr. induction s as [|c s IH]; [by apply rstrip_all_space|].
  cbn [app rstrip]. by rewrite IH.
Qed.

Lemma rstrip_fixed (s : text) : ends_with_space s = false -> rstrip s = s.
Proof.
  induction s as [|c s IH]; [done|]. destruct s as [|c' s].
  - cbn. by intros ->.
  - intros H. cbn [rstrip] in *. rewrite IH by exact H. done.
Qed.

Lemma rstrip_split (s : text) :
  exists r, s = rstrip s ++ r /\ all_space r = true /\ ends_with_space (rstrip s) = false.
Proof.
  induction s as [|c s IH]; [by exists []|].
  destruct IH as (r & Hs & Hr & He). cbn [rstrip].
  destruct (rstrip s) as [|c' t] eqn:Ht.
  - cbn [app] in Hs. subst r. destruct (is_space c) eqn:Hc.
    + exists (c :: s). cbn [all_space app]. by rewrite Hc, Hr.
    + exists s. cbn [ends_with_space app]. by rewrite Hc.
  - exists r. rewrite Hs at 1. done.
Qed.

Lemma rstrip_idem (s : text) : rstrip (rstrip s) = rstrip s.
Proof. destruct (rstrip_split s) as (r & _ & _ & He). by apply rstrip_fixed. Qed.

Lemma rstrip_keeps_start (s : text) :
  starts_with_space s = false -> starts_with_space (rstrip s) = false.
Proof.
  destruct s as [|c s]; [done|]. cbn [starts_with_space]. intros Hc.
  by rewrite (rstrip_cons_nonspace c s Hc).
Qed.

Lemma strip_trimmed (s : text) : trimmed_of s (strip s).
Proof.
  destruct (lstrip_split s) as (l & Hs & Hl & Hst).
  destruct (rstrip_split (lstrip s)) as (r & Hls & Hr & He).
  exists l, r. unfold strip. rewrite <- Hls, <- Hs.
  split; [done|]. split; [done|]. split; [done|]. split; [|done].
  by apply rstrip_keeps_start.
Qed.

Lemma strip_fixed (s : text) :
  starts_with_space s = false -> ends_with_space s = false -> strip s = s.
Proof. intros Hs He. unfold strip. by rewrite (lstrip_fixed s Hs), (rstrip_fixed s He). Qed.

Lemma strip_pad (l s r : text) :
  all_space l = true -> all_space r = true -> strip (l ++ s ++ r) = strip s.
Proof.
  intros Hl Hr. unfold strip. rewrite (lstrip_all_space l _ Hl).
  destruct (lstrip_split s) as (l' & Hs & Hl' & Hst).
  destruct (lstrip s) as [|c t] eqn:Ht.
  - (* [s] is whitespace only *)
    rewrite app_nil_r in Hs. subst l'.
    assert (Hall : all_space (s ++ r) = true).
    { clear -Hl' Hr. induction s as [|c s IH]; [done|]. cbn [all_space app] in *.
      apply andb_true_iff in Hl' as [-> Hs]. by apply IH. }
    destruct (lstrip_split (s ++ r)) as (l2 & Hs2 & _ & Hst2).
    destruct (lstrip (s ++ r)) as [|c t] eqn:Ht2; [done|].
    exfalso. cbn in Hst2. rewrite Hs2 in Hall. clear -Hall Hst2.
    induction l2 as [|x l2 IH]; cbn [all_space app] in Hall.
    + apply andb_true_iff in Hall as [? _]. congruence.
    + apply andb_true_iff in Hall as [_ ?]. by apply IH.
  - cbn in Hst. rewrite Hs at 1. rewrite <- app_assoc, (lstrip_all_space l' _ Hl').
    cbn [app lstrip]. rewrite Hst. by rewrite app_comm_cons, rstrip_app_space.
Qed.

(** ** The prefix *)

Lemma startswith_80 (t : text) :
  startswith t (text_of "80") = true ->
  exists u, t = text_of "80" ++ u /\ slice_from 2 t = u.
Proof.
  destruct t as [|a [|b u]]; cbn; try done.
  - by rewrite andb_false_r.
  - intros [->%N.eqb_eq [->%N.eqb_eq _]%andb_true_iff]%andb_true_iff. by exists u.
Qed.

Lemma startswith_not_80 (t : text) :
  startswith t (text_of "80") = false -> ~ exists u, t = text_of "80" ++ u.
Proof. intros H [u ->]. discriminate. Qed.

Lemma startswith_80_app (u : text) : startswith (text_of "80" ++ u) (text_of "80") = true.
Proof. reflexivity. Qed.

(** ** Trimming and the prefix under upper-casing *)

Lemma upper_starts_with_space (s : text) :
  starts_with_space (upper s) = starts_with_space s.
Proof.
  destruct s as [|c s]; [done|]. cbn [upper starts_with_space].
  destruct (is_space c) eqn:Hc.
  - rewrite (upper_char_space c Hc). exact Hc.
  - destruct (upper_char_nonspace c Hc) as (Hne & _ & Hall).
    destruct (upper_char c) as [|x u]; [done|]. by inversion Hall.
Qed.

Lemma lstrip_upper (s : text) : lstrip (upper s) = upper (lstrip s).
Proof.
  induction s as [|c s IH]; [done|]. cbn [lstrip]. destruct (is_space c) eqn:Hc.
  - cbn [upper]. rewrite (upper_char_space c Hc). cbn [app lstrip]. by rewrite Hc.
  - apply lstrip_fixed. rewrite upper_starts_with_space. exact Hc.
Qed.

Lemma ends_with_space_snoc (s : text) (c : N) : ends_with_space (s ++ [c]) = is_space c.
Proof.
  induction s as [|x s IH]; [done|]. cbn [app].
  destruct (s ++ [c]) as [|y l] eqn:Hs; [by destruct s|]. exact IH.
Qed.

Lemma ends_with_space_app (s u : text) :
  u <> [] -> ends_with_space (s ++ u) = ends_with_space u.
Proof.
  intros Hu. destruct u as [|x u _] using rev_ind; [done|].
  by rewrite app_assoc, !ends_with_space_snoc.
Qed.

Lemma upper_ends_with_space (s : text) :
  ends_with_space s = false -> ends_with_space (upper s) = false.
Proof.
  destruct s as [|c s _] using rev_ind; [done|].
  rewrite ends_with_space_snoc. intros Hc. rewrite upper_app. cbn [upper].
  rewrite app_nil_r.
  destruct (upper_char_nonspace c Hc) as (Hne & _ & Hall).
  rewrite ends_with_space_app by done.
  destruct (upper_char c) as [|x u _] using rev_ind; [done|].
  rewrite ends_with_space_snoc. apply Forall_app in Hall as [_ Hx]. by inversion Hx.
Qed.

Lemma rstrip_upper (s : text) : rstrip (upper s) = upper (rstrip s).
Proof.
  destruct (rstrip_split s) as (r & Hs & Hr & He).
  rewrite Hs at 1. rewrite upper_app, (upper_all_space r Hr), rstrip_app_space by done.
  apply rstrip_fixed. by apply upper_ends_with_space.
Qed.

Lemma strip_upper (s : text) : strip (upper s) = upper (strip s).
Proof. unfold strip. by rewrite lstrip_upper, rstrip_upper. Qed.

(** A text begins with ["80"] exactly when its upper-case form does, and
    the rest of the one is then the upper-case form of the rest of the
    other. *)
Lemma startswith_upper_80 (t : text) :
  startswith (upper t) (text_of "80") = startswith t (text_of "80").
Proof.
  destruct (startswith t (text_of "80")) eqn:Ht.
  - destruct (startswith_80 t Ht) as (u & -> & _). reflexivity.
  - destruct (startswith (upper t) (text_of "80")) eqn:Hu; [|done]. exfalso.
    destruct (startswith_80 _ Hu) as (v & Hv & _).
    destruct t as [|a t]; [done|]. cbn [upper] in Hv.
    assert (Ha : 56%N ∈ upper_char a).
    { pose proof (upper_char_length a). destruct (upper_char a) as [|x xs]; [cbn in *; lia|].
      injection Hv as -> _. left. }
    destruct (upper_char_digit a _ Ha) as [Hua ->]; [by left|].
    rewrite Hua in Hv. injection Hv as Hv.
    destruct t as [|b t]; [done|]. cbn [upper] in Hv.
    assert (Hb : 48%N ∈ upper_char b).
    { pose proof (upper_char_length b). destruct (upper_char b) as [|x xs]; [cbn in *; lia|].
      injection Hv as -> _. left. }
    destruct (upper_char_digit b _ Hb) as [_ ->]; [by right|].
    discriminate.
Qed.

Lemma slice_from_upper_80 (u : text) :
  slice_from 2 (upper (text_of "80" ++ u)) = upper u.
Proof. reflexivity. Qed.

Lemma normalize_of_upper (s : text) :
  normalize_legacy_id (Some (upper s)) = normalize_legacy_id (Some s).
Proof.
  unfold normalize_legacy_id. rewrite strip_upper, startswith_upper_80.
  destruct (startswith (strip s) (text_of "80")) eqn:Ht.
  - destruct (startswith_80 _ Ht) as (u & -> & _).
    rewrite slice_from_upper_80. change (slice_from 2 (text_of "80" ++ u)) with u.
    apply upper_idem.
  - apply upper_idem.
Qed.

Lemma normalize_no_trailing_space (s : text) :
  ends_with_space (normalize_legacy_id (Some s)) = false.
Proof.
  unfold normalize_legacy_id. apply upper_ends_with_space.
  destruct (strip_trimmed s) as (l & r & _ & _ & _ & _ & He).
  destruct (startswith (strip s) (text_of "80")) eqn:Ht; [|done].
  destruct (startswith_80 _ Ht) as (u & Hu & ->). rewrite Hu in He.
  destruct u as [|x u]; [done|]. by rewrite (ends_with_space_app (text_of "80") (x :: u)) in He.
Qed.

(** C7. The normalizer is a total function: [None] yields the empty
    string, and for every string [s] the result is the upper-case form of
    [t] with one leading ["80"] dropped when [t] has it, where [t] is [s]
    with its surrounding whitespace trimmed; upper-casing maps the
    characters one by one, each to the characters that [str.upper()] gives
    for it.  The three examples of the contract evaluate as stated. *)
Theorem normalize_legacy_id_contract :
  normalize_legacy_id None = text_of "" /\
  (forall s : text, exists t : text,
      trimmed_of s t /\
      ((exists u, t = text_of "80" ++ u /\ normalize_legacy_id (Some s) = upper u) \/
       ((~ exists u, t = text_of "80" ++ u) /\ normalize_legacy_id (Some s) = upper t))) /\
  (forall (c : N) (u : text), upper (c :: u) = upper_char c ++ upper u) /\
  normalize_legacy_id (Some (text_of "80ABC123")) = text_of "ABC123" /\
  normalize_legacy_id (Some (text_of "abc123")) = text_of "ABC123" /\
  normalize_legacy_id None = text_of "" /\
  normalize_legacy_id (Some (text_of "   80xyz789  ")) = text_of "XYZ789".
Proof.
  split; [reflexivity|]. split; [|split; [reflexivity|]].
  - intros s. exists (strip s). split; [apply strip_trimmed|].
    unfold normalize_legacy_id.
    destruct (startswith (strip s) (text_of "80")) eqn:Ht.
    + left. destruct (startswith_80 _ Ht) as (u & Hu & ->). by exists u.
    + right. split; [by apply startswith_not_80 | done].
  - repeat split; vm_compute; reflexivity.
Qed.

(** C3, as the code has it.  The normalizer drops one ["80"] prefix and
    trims before it drops, so a second pass changes nothing exactly when
    the first result shows neither a leading whitespace character nor a
    leading ["80"]: for every string [s] whose normal form begins with
    neither, normalizing the normal form returns it unchanged. *)
Theorem normalize_legacy_id_idempotent_on_stable (s : text) :
  starts_with_space (normalize_legacy_id (Some s)) = false ->
  startswith (normalize_legacy_id (Some s)) (text_of "80") = false ->
  normalize_legacy_id (Some (normalize_legacy_id (Some s))) = normalize_legacy_id (Some s).
Proof.
  intros Hsp H80.
  pose proof (normalize_no_trailing_space s) as He.
  assert (Hup : upper (normalize_legacy_id (Some s)) = normalize_legacy_id (Some s)).
  { unfold normalize_legacy_id. apply upper_idem. }
  set (n := normalize_legacy_id (Some s)) in *.
  change (normalize_legacy_id (Some n))
    with (upper (if startswith (strip n) (text_of "80") then slice_from 2 (strip n)
                 else strip n)).
  by rewrite (strip_fixed n Hsp He), H80.
Qed.

Lemma lstrip_length (s : text) : length (lstrip s) <= length s.
Proof. induction s as [|c s IH]; cbn; [|destruct (is_space c); cbn]; lia. Qed.

Lemma lstrip_length_space (s : text) :
  starts_with_space s = true -> length (lstrip s) < length s.
Proof.
  destruct s as [|c s]; [done|]. cbn. intros ->. pose proof (lstrip_length s). lia.
Qed.

Lemma rstrip_length (s : text) : length (rstrip s) <= length s.
Proof.
  destruct (rstrip_split s) as (r & Hs & _). rewrite Hs at 2. rewrite length_app. lia.
Qed.

Lemma strip_Forall (P : N -> Prop) (s : text) : Forall P s -> Forall P (strip s).
Proof.
  destruct (strip_trimmed s) as (l & r & Hs & _). rewrite Hs at 1.
  intros [_ [H _]%Forall_app]%Forall_app. exact H.
Qed.

(** The converse: a normal form that begins with whitespace or with
    ["80"] is shortened by a second pass. *)
Lemma normalize_legacy_id_second_pass_shortens (s : text) :
  starts_with_space (normalize_legacy_id (Some s)) = true \/
  startswith (normalize_legacy_id (Some s)) (text_of "80") = true ->
  length (normalize_legacy_id (Some (normalize_legacy_id (Some s))))
  < length (normalize_legacy_id (Some s)).
Proof.
  assert (Hst : Forall (fun x => upper_char x = [x]) (normalize_legacy_id (Some s)))
    by apply upper_stable.
  set (n := normalize_legacy_id (Some s)) in *. intros H.
  assert (Hstrip : Forall (fun x => upper_char x = [x]) (strip n))
    by (by apply strip_Forall).
  change (normalize_legacy_id (Some n))
    with (upper (if startswith (strip n) (text_of "80") then slice_from 2 (strip n)
                 else strip n)).
  assert (Hlen : length (strip n) <= length n).
  { unfold strip. pose proof (rstrip_length (lstrip n)). pose proof (lstrip_length n). lia. }
  destruct (startswith (strip n) (text_of "80")) eqn:H80.
  - destruct (startswith_80 _ H80) as (u & Hu & ->). rewrite Hu in Hstrip, Hlen.
    rewrite upper_fixed by (by apply Forall_app in Hstrip as [_ ?]).
    assert (length (text_of "80" ++ u) = S (S (length u))) by reflexivity. lia.
  - rewrite (upper_fixed _ Hstrip). destruct (starts_with_space n) eqn:Hsp.
    + unfold strip. pose proof (rstrip_length (lstrip n)).
      pose proof (lstrip_length_space n Hsp). lia.
    + destruct H as [H|H]; [done|]. exfalso.
      rewrite (strip_fixed n Hsp (normalize_no_trailing_space s)) in H80. congruence.
Qed.

End normalizer_facts.

(** C3, as stated, fails: ["8080abc"] normalizes to ["80ABC"], which
    normalizes to ["ABC"]. *)
Lemma normalize_legacy_id_not_idempotent :
  config.normalize_legacy_id (Some (config.text_of "8080abc")) = config.text_of "80ABC" /\
  config.normalize_legacy_id (Some (config.text_of "80ABC")) = config.text_of "ABC" /\
  config.normalize_legacy_id
    (Some (config.normalize_legacy_id (Some (config.text_of "8080abc"))))
  <> config.normalize_legacy_id (Some (config.text_of "8080abc")).
Proof. vm_compute. repeat split. discriminate. Qed.

Lemma normalize_legacy_id_idempotent_on_stable_witness :
  let s := config.text_of "  80abc123 " in
  normalizer_spec.starts_with_space (config.normalize_legacy_id (Some s)) = false /\
  config.startswith (config.normalize_legacy_id (Some s)) (config.text_of "80") = false /\
  config.normalize_legacy_id (Some (config.normalize_legacy_id (Some s)))
  = config.normalize_legacy_id (Some s).
Proof.
  intros s. split; [vm_compute; reflexivity|]. split; [vm_compute; reflexivity|].
  apply (normalize_legacy_id_idempotent_on_stable s); vm_compute; reflexivity.
Defined.

(** * Properties of the Python runtime and of the CSV layer *)

Section runtime_facts.
Context {S A B : Type}.

Lemma bind_inr (c : py.M S A) (k : A -> py.M S B) (s s' : S) (a : A) :
  c s = (inr a, s') -> py.bind c k s = k a s'.
Proof. unfold py.bind. intros ->. reflexivity. Qed.

Lemma bind_inl (c : py.M S A) (k : A -> py.M S B) (s s' : S) (e : py.exn) :
  c s = (inl e, s') -> py.bind c k s = (inl e, s').
Proof. unfold py.bind. intros ->. reflexivity. Qed.

End runtime_facts.

(** The keys of a dictionary built by assignments are field names. *)
Ltac solve_dom :=
  cbn [qbo_attach_demo.update foldl fst snd];
  rewrite ?dom_insert, ?dom_empty;
  repeat (apply union_subseteq; split);
  first [ assumption
        | apply empty_subseteq
        | apply singleton_subseteq_l, elem_of_list_to_set; compute_done ].

Section csv_facts.
Import csv.

Lemma lookup_line_of (names : list string) (d : row) (k : string) :
  line_of names d !! k = if decide (k ∈ names) then Some (get d k "") else None.
Proof.
  unfold line_of. induction names as [|n names IH].
  - apply lookup_empty.
  - rewrite fmap_cons, list_to_map_cons. cbn [fst snd].
    destruct (decide (n = k)) as [->|Hne].
    + rewrite lookup_insert_eq. rewrite decide_True; [done | left].
    + rewrite lookup_insert_ne by done. rewrite IH.
      destruct (decide (k ∈ names)) as [Hin|Hnin].
      * rewrite decide_True; [done | by right].
      * rewrite decide_False; [done|]. intros [->|?]%elem_of_cons; done.
Qed.

Lemma dom_line_of (names : list string) (d : row) :
  dom (line_of names d) = list_to_set names.
Proof.
  apply set_eq. intros k. rewrite elem_of_dom, lookup_line_of, elem_of_list_to_set.
  destruct (decide (k ∈ names)); split; intros H; try done.
Qed.

Lemma getitem_Some {St} (r : row) (k v : string) (s : St) :
  r !! k = Some v -> getitem r k s = (inr v, s).
Proof. unfold getitem. intros ->. reflexivity. Qed.

Lemma get_Some (r : row) (k d v : string) : r !! k = Some v -> get r k d = v.
Proof. unfold get. intros ->. reflexivity. Qed.

End csv_facts.

(** * Properties of the mapping verifier *)

Section verifier_facts.
Import config csv mapping_verifier verifier_spec.

Lemma alter_Some {K V : Type} `{Countable K} (f : V -> V) (m : gmap K V) (i : K) (x : V) :
  m !! i = Some x -> alter f i m = <[i := f x]> m.
Proof.
  intros Hi. apply map_eq. intros j. destruct (decide (i = j)) as [<-|Hne].
  - by rewrite lookup_alter_eq, lookup_insert_eq, Hi.
  - by rewrite lookup_alter_ne, lookup_insert_ne.
Qed.

(** *** The index *)

Lemma join_key_ok (r : row) :
  mapping_row_ok r ->
  exists k1 k2, r !! "legacy_txnid_norm" = Some k1 /\ r !! "legacy_entity_type" = Some k2 /\
                join_key r = (k1, k2).
Proof.
  intros [[k1 H1] [k2 H2]]. exists k1, k2. unfold join_key, get. by rewrite H1, H2.
Qed.

Lemma load_mapping_loop (M : list row) (acc : gmap (string * string) row) (fs : files) :
  Forall mapping_row_ok M ->
  py.for_each
    (fun (mapping : gmap (string * string) row) (row : row) =>
       py.bind (getitem row "legacy_txnid_norm") (fun k1 =>
       py.bind (getitem row "legacy_entity_type") (fun k2 =>
       py.ret (<[(k1, k2) := row]> mapping))))
    acc M fs
  = (inr (foldl (fun (mapping : gmap (string * string) row) (r : row) =>
                   <[join_key r := r]> mapping) acc M), fs).
Proof.
  intros HM. revert acc. induction HM as [|r M Hr HM IH]; intros acc; [reflexivity|].
  destruct (join_key_ok r Hr) as (k1 & k2 & H1 & H2 & Hk).
  cbn [py.for_each foldl].
  erewrite bind_inr; [apply IH|].
  erewrite bind_inr by (by apply getitem_Some).
  erewrite bind_inr by (by apply getitem_Some).
  by rewrite Hk.
Qed.

Lemma load_mapping_ok (fs : files) (names : list string) (M : list row) :
  fs !! MAPPING_EXPORT_CSV = Some (CsvFile names M) ->
  Forall mapping_row_ok M ->
  _load_mapping fs = (inr (index_of M), fs).
Proof.
  intros Hf HM. unfold _load_mapping.
  erewrite bind_inr; [by apply load_mapping_loop|].
  unfold open_reader. by rewrite Hf.
Qed.

Lemma index_of_snoc (M : list row) (r : row) :
  index_of (M ++ [r]) = <[join_key r := r]> (index_of M).
Proof. unfold index_of. by rewrite foldl_app. Qed.

(** The entry of the index at the key of [a] is the last row of [M] with
    that key, and there is none when no row of [M] has it. *)
Lemma index_of_lookup (M : list row) (a : row) :
  (exists m, matching_row M a m /\ index_of M !! join_key a = Some m) \/
  (~ in_key_set M a /\ index_of M !! join_key a = None).
Proof.
  induction M as [|r M IH] using rev_ind.
  - right. split; [|done]. intros (m & Hm & _). inversion Hm.
  - rewrite index_of_snoc. destruct (decide (join_key r = join_key a)) as [Heq|Hne].
    + left. exists r. split; [|by rewrite Heq, lookup_insert_eq].
      exists M, []. auto.
    + rewrite lookup_insert_ne by done.
      destruct IH as [(m & (M1 & M2 & -> & Hk & Hlast) & Hm)|[Hnot Hnone]].
      * left. exists m. split; [|done].
        exists M1, (M2 ++ [r]). rewrite <- app_assoc. split; [done|]. split; [done|].
        apply Forall_app. auto.
      * right. split; [|done]. intros (m & Hm & Hk).
        apply elem_of_app in Hm as [Hm|Hm%list_elem_of_singleton].
        -- apply Hnot. by exists m.
        -- by subst.
Qed.

Lemma matching_row_in_key_set (M : list row) (a m : row) :
  matching_row M a m -> in_key_set M a.
Proof.
  intros (M1 & M2 & -> & Hk & _). exists m. split; [|done].
  apply elem_of_app. right. left.
Qed.

(** *** One row of the inventory *)

Lemma writerow_ok (w : DictWriter) (d : row) (fs : files) (f : csv_file) :
  dom d ⊆ list_to_set (w_fieldnames w) ->
  fs !! w_path w = Some f ->
  writerow w d fs
  = (inr tt, <[w_path w := CsvFile (csv.fieldnames f) (rows f ++ [line_of (w_fieldnames w) d])]> fs).
Proof.
  intros Hd Hf. unfold writerow. rewrite bool_decide_eq_true_2 by done.
  by rewrite (alter_Some _ _ _ _ Hf).
Qed.

Lemma verify_row_ok (index : gmap (string * string) row) (a : row)
  (ok_count missing_count : nat) (fs : files) (names : list string) (V : list row) :
  attachment_row_ok a ->
  fs !! MAPPING_VERIFICATION_LOG_CSV = Some (CsvFile names V) ->
  verify_row index log_writer (ok_count, missing_count) a fs
  = (inr (if index !! join_key a is Some _ then (S ok_count, missing_count)
          else (ok_count, S missing_count)),
     <[MAPPING_VERIFICATION_LOG_CSV :=
         CsvFile names (V ++ [verified_line (index !! join_key a) a])]> fs).
Proof.
  intros (H1 & H2 & Hdom) Hlog.
  destruct (join_key_ok a (conj H1 H2)) as (k1 & k2 & Hk1 & Hk2 & Hk).
  unfold verify_row.
  erewrite bind_inr by (by apply getitem_Some).
  erewrite bind_inr by (by apply getitem_Some).
  rewrite Hk. destruct (index !! (k1, k2)) as [m|].
  - unfold py.bind.
    rewrite writerow_ok with (f := CsvFile names V); [reflexivity| |exact Hlog].
    cbn [w_fieldnames log_writer]. solve_dom.
  - unfold py.bind.
    rewrite writerow_ok with (f := CsvFile names V); [reflexivity| |exact Hlog].
    cbn [w_fieldnames log_writer]. solve_dom.
Qed.

Lemma verified_line_status (o : option row) (a : row) :
  verified_line o a !! "status" = Some (if o is Some _ then "ok" else "missing_mapping").
Proof.
  unfold verified_line. rewrite lookup_line_of, decide_True by compute_done.
  unfold get. destruct o; by simplify_map_eq.
Qed.

Lemma count_status_cons (st : string) (v : row) (V : list row) :
  count_status st (v :: V)
  = (if decide (v !! "status" = Some st) then 1 else 0) + count_status st V.
Proof.
  unfold count_status. rewrite filter_cons. by destruct (decide _).
Qed.

(** *** The loop over the inventory *)

Lemma verify_loop (index : gmap (string * string) row) (A : list row) :
  Forall attachment_row_ok A ->
  forall (ok_count missing_count : nat) (fs : files) (names : list string) (V0 : list row),
    fs !! MAPPING_VERIFICATION_LOG_CSV = Some (CsvFile names V0) ->
    let V := (fun a => verified_line (index !! join_key a) a) <$> A in
    py.for_each (verify_row index log_writer) (ok_count, missing_count) A fs
    = (inr (ok_count + count_status "ok" V, missing_count + count_status "missing_mapping" V),
       <[MAPPING_VERIFICATION_LOG_CSV := CsvFile names (V0 ++ V)]> fs).
Proof.
  induction 1 as [|a A Ha HA IH]; intros ok_count missing_count fs names V0 Hlog V.
  - subst V. cbn. rewrite app_nil_r, insert_id by done.
    unfold py.ret. do 3 f_equal; unfold count_status; cbn; lia.
  - subst V. cbn [py.for_each].
    erewrite bind_inr by (by eapply verify_row_ok).
    rewrite fmap_cons, !count_status_cons, verified_line_status.
    destruct (index !! join_key a) as [m|] eqn:Hm.
    + erewrite IH by apply lookup_insert_eq.
      rewrite insert_insert_eq, <- app_assoc.
      rewrite decide_True, decide_False by done. do 3 f_equal; lia.
    + erewrite IH by apply lookup_insert_eq.
      rewrite insert_insert_eq, <- app_assoc.
      rewrite decide_False, decide_True by done. do 3 f_equal; lia.
Qed.

(** *** A whole run *)

Lemma main_ok (fs : files) (map_names inv_names : list string) (M A : list row) :
  fs !! MAPPING_EXPORT_CSV = Some (CsvFile map_names M) ->
  fs !! ATTACHMENTS_INVENTORY_CSV = Some (CsvFile inv_names A) ->
  Forall mapping_row_ok M ->
  Forall attachment_row_ok A ->
  let V := (fun a => verified_line (index_of M !! join_key a) a) <$> A in
  main fs
  = (inr (count_status "ok" V, count_status "missing_mapping" V),
     <[MAPPING_VERIFICATION_SKIPS_CSV := skips_header_only]>
       (<[MAPPING_VERIFICATION_LOG_CSV := CsvFile fieldnames V]> fs)).
Proof.
  intros HM HA HMok HAok V. unfold main.
  erewrite bind_inr by (by eapply load_mapping_ok).
  erewrite bind_inr by (unfold open_reader; by rewrite HA).
  erewrite bind_inr by reflexivity.
  erewrite bind_inr by reflexivity.
  rewrite alter_Some with (x := CsvFile [] []) by apply lookup_insert_eq.
  rewrite insert_insert_eq. cbn [rows w_fieldnames w_path].
  erewrite bind_inr by (by apply verify_loop; [|apply lookup_insert_eq]).
  rewrite insert_insert_eq.
  erewrite bind_inr by reflexivity.
  erewrite bind_inr by reflexivity.
  rewrite alter_Some with (x := CsvFile [] []) by apply lookup_insert_eq.
  by rewrite insert_insert_eq.
Qed.

Lemma verified_line_verified (M : list row) (a : row) :
  verified M a (verified_line (index_of M !! join_key a) a).
Proof.
  assert (Hcols : forall o k, k ∈ attachment_columns ->
                              verified_line o a !! k = Some (get a k "")).
  { intros o k Hk. unfold verified_line, attachment_columns in *.
    rewrite lookup_line_of.
    repeat (apply elem_of_cons in Hk as [->|Hk]); [..|inversion Hk];
      (rewrite decide_True by compute_done); unfold get; destruct o; by simplify_map_eq. }
  assert (Hfield : forall o k, k ∈ fieldnames ->
                               verified_line o a !! k
                               = Some (get match o with
                                           | Some m =>
                                               <["reason" := ""]> (<["status" := "ok"]>
                                                 (<["qbo_entity_id" := get m "qbo_entity_id" ""]>
                                                   (<["qbo_entity_type" := get m "qbo_entity_type" ""]> a)))
                                           | None =>
                                               <["reason" := missing_reason]>
                                                 (<["status" := "missing_mapping"]>
                                                   (<["qbo_entity_id" := ""]>
                                                     (<["qbo_entity_type" := ""]> a)))
                                           end k "")).
  { intros o k Hk. unfold verified_line. by rewrite lookup_line_of, decide_True. }
  split; [apply dom_line_of|]. split; [apply Hcols|].
  destruct (index_of_lookup M a) as [(m & Hmatch & ->)|[Hnot ->]].
  - pose proof (matching_row_in_key_set _ _ _ Hmatch) as Hin.
    split; [by rewrite verified_line_status|].
    left. exists m. split; [done|]. rewrite verified_line_status.
    rewrite !Hfield by compute_done. unfold get. by simplify_map_eq.
  - split; [rewrite verified_line_status; split; [done | by intros ?]|].
    right. split; [done|]. rewrite verified_line_status.
    rewrite !Hfield by compute_done. unfold get. by simplify_map_eq.
Qed.

Lemma verified_count (M : list row) (A V : list row) :
  Forall2 (verified M) A V ->
  count_status "ok" V + count_status "missing_mapping" V = length A.
Proof.
  induction 1 as [|a v A V Hv _ IH]; [reflexivity|].
  rewrite !count_status_cons. cbn [length].
  destruct Hv as (_ & _ & _ & [(m & _ & -> & _)|(_ & -> & _)]).
  - rewrite decide_True, decide_False by done. lia.
  - rewrite decide_False, decide_True by done. lia.
Qed.

(** C5. For every mapping export [M] and inventory [A] (rows that carry
    the join-key columns, inventory rows with no column foreign to the
    log), the verifier completes and writes to the verification log
    exactly one VerifiedRecord per attachment, in order: its status is
    ["ok"] iff the key of the attachment is in the key set of [M], in which
    case the two target fields are those of the matching mapping row, and
    otherwise its status is ["missing_mapping"] with empty target fields
    and the fixed reason; the counts of the two statuses, which are the
    counts the run reports, add up to the number of attachments. *)
Theorem verifier_join (fs : files) (map_names inv_names : list string) (M A : list row) :
  fs !! MAPPING_EXPORT_CSV = Some (CsvFile map_names M) ->
  fs !! ATTACHMENTS_INVENTORY_CSV = Some (CsvFile inv_names A) ->
  Forall mapping_row_ok M ->
  Forall attachment_row_ok A ->
  exists (V : list row) (fs' : files),
    main fs = (inr (count_status "ok" V, count_status "missing_mapping" V), fs') /\
    fs' !! MAPPING_VERIFICATION_LOG_CSV = Some (CsvFile fieldnames V) /\
    Forall2 (verified M) A V /\
    count_status "ok" V + count_status "missing_mapping" V = length A.
Proof.
  intros HM HA HMok HAok.
  pose proof (main_ok fs map_names inv_names M A HM HA HMok HAok) as Hmain.
  cbv zeta in Hmain. eexists _, _. split; [exact Hmain|].
  assert (HV : Forall2 (verified M) A
                 ((fun a => verified_line (index_of M !! join_key a) a) <$> A)).
  { clear. induction A as [|a A IH]; constructor; auto using verified_line_verified. }
  split; [|split; [exact HV | by eapply verified_count]].
  rewrite lookup_insert_ne by done. apply lookup_insert_eq.
Qed.

(** Whatever the files hold, a run that completes leaves a skips file
    with its header line and no data line. *)
Lemma main_completed_skips (fs fs' : files) (counts : nat * nat) :
  main fs = (inr counts, fs') ->
  fs' !! MAPPING_VERIFICATION_SKIPS_CSV = Some skips_header_only.
Proof.
  unfold main, py.bind.
  destruct (_load_mapping fs) as [[e|mapping] fs1]; [discriminate|].
  destruct (open_reader ATTACHMENTS_INVENTORY_CSV fs1) as [[e|src] fs2]; [discriminate|].
  cbn [open_w writeheader w_path w_fieldnames].
  destruct (py.for_each _ _ _ _) as [[e|counts'] fs3]; [discriminate|].
  intros [= _ <-].
  rewrite alter_Some with (x := CsvFile [] []) by apply lookup_insert_eq.
  by rewrite insert_insert_eq, lookup_insert_eq.
Qed.

(** A run that finds no mapping export raises at once and leaves the
    files, the skips file among them, as they were. *)
Lemma main_missing_mapping_export (fs : files) :
  fs !! MAPPING_EXPORT_CSV = None ->
  main fs = (inl (py.FileNotFoundError MAPPING_EXPORT_CSV), fs).
Proof.
  intros Hm. unfold main, _load_mapping, py.bind, open_reader. by rewrite Hm.
Qed.

End verifier_facts.

(** * Properties of the upload reconciler *)

Section reconciler_facts.
Import config csv fake_qbo_api qbo_attach_demo reconciler_spec.
Context {World : Type}.
Variable _now_iso : World -> string * World.
Variable attach_file : string -> string -> string -> World -> FakeQboResponse * World.

Abbreviation process_row :=
  (qbo_attach_demo.process_row _now_iso attach_file run_writer err_writer dup_writer).
Abbreviation main := (qbo_attach_demo.main _now_iso attach_file).
Abbreviation arrives := (reconciler_spec.arrives _now_iso attach_file).

(** *** One row of the verification log *)

Lemma on_files_writerow (w : DictWriter) (d : row) (st : state World) (f : csv_file) :
  dom d ⊆ list_to_set (w_fieldnames w) ->
  fs st !! w_path w = Some f ->
  on_files (writerow w d) st
  = (inr tt, State (<[w_path w := with_appended [line_of (w_fieldnames w) d] f]> (fs st))
               (world st) (calls st)).
Proof.
  intros Hd Hf. unfold on_files. by rewrite (writerow_ok w d (fs st) f Hd Hf).
Qed.

Lemma process_row_other (loc : locals) (r : row) (st : state World) :
  ~ candidate r -> process_row loc r st = (inr loc, st).
Proof.
  intros Hr. unfold qbo_attach_demo.process_row.
  by rewrite bool_decide_eq_true_2.
Qed.

Lemma process_row_skip (loc : locals) (r : row) (st : state World)
  (ts : string) (w : World) (fr fd : csv_file) :
  candidate r ->
  key_of r ∈ prior_successes loc ->
  _now_iso (world st) = (ts, w) ->
  fs st !! QBO_ATTACH_RUNLOG_CSV = Some fr ->
  fs st !! QBO_ATTACH_DUPS_CSV = Some fd ->
  process_row loc r st
  = (inr (Locals (prior_successes loc) (S (total loc)) (uploaded loc)
            (S (skipped loc)) (failed loc)),
     State (<[QBO_ATTACH_DUPS_CSV := with_appended [skip_record ts r] fd]>
              (<[QBO_ATTACH_RUNLOG_CSV := with_appended [skip_record ts r] fr]> (fs st)))
       w (calls st)).
Proof.
  intros Hr Hk Hts Hfr Hfd. unfold qbo_attach_demo.process_row.
  rewrite bool_decide_eq_false_2 by (intros H; by apply H).
  unfold py.bind at 1. unfold now. rewrite Hts.
  rewrite bool_decide_eq_true_2 by exact Hk.
  erewrite bind_inr; cycle 1.
  { apply on_files_writerow with (f := fr); [solve_dom | exact Hfr]. }
  erewrite bind_inr; cycle 1.
  { apply on_files_writerow with (f := fd); [solve_dom|].
    cbn [fs w_path dup_writer run_writer]. by rewrite lookup_insert_ne. }
  reflexivity.
Qed.

Lemma process_row_upload (loc : locals) (r : row) (st : state World)
  (ts : string) (w w' : World) (resp : FakeQboResponse) (fr fe : csv_file) :
  candidate r ->
  key_of r ∉ prior_successes loc ->
  _now_iso (world st) = (ts, w) ->
  attach_file (get r "qbo_entity_type" "") (get r "qbo_entity_id" "")
    (get r "file_path" "") w = (resp, w') ->
  fs st !! QBO_ATTACH_RUNLOG_CSV = Some fr ->
  fs st !! QBO_ATTACH_ERRORS_CSV = Some fe ->
  let rec := attempt_record ts r resp in
  process_row loc r st
  = (inr (if (status_code resp =? 200)%Z
          then Locals (prior_successes loc ∪ {[ key_of r ]}) (S (total loc))
                 (S (uploaded loc)) (skipped loc) (failed loc)
          else Locals (prior_successes loc) (S (total loc))
                 (uploaded loc) (skipped loc) (S (failed loc))),
     State (if (status_code resp =? 200)%Z
            then <[QBO_ATTACH_RUNLOG_CSV := with_appended [rec] fr]> (fs st)
            else <[QBO_ATTACH_ERRORS_CSV := with_appended [rec] fe]>
                   (<[QBO_ATTACH_RUNLOG_CSV := with_appended [rec] fr]> (fs st)))
       w' (calls st ++ [upload_args r])).
Proof.
  intros Hr Hk Hts Hresp Hfr Hfe rec. subst rec.
  unfold qbo_attach_demo.process_row.
  rewrite bool_decide_eq_false_2 by (intros H; by apply H).
  unfold py.bind at 1. unfold now. rewrite Hts.
  rewrite bool_decide_eq_false_2 by exact Hk.
  unfold py.bind at 1. unfold upload. cbn [world fs calls]. rewrite Hresp.
  unfold attempt_record, outcome_of_code, upload_args.
  destruct (status_code resp =? 200)%Z; [|destruct (status_code resp =? 404)%Z].
  - erewrite bind_inr; cycle 1.
    { apply on_files_writerow with (f := fr); [solve_dom | exact Hfr]. }
    reflexivity.
  - erewrite bind_inr; cycle 1.
    { apply on_files_writerow with (f := fr); [solve_dom | exact Hfr]. }
    rewrite bool_decide_eq_true_2 by done.
    erewrite bind_inr; cycle 1.
    { apply on_files_writerow with (f := fe); [solve_dom|].
      cbn [fs w_path err_writer run_writer]. by rewrite lookup_insert_ne. }
    reflexivity.
  - erewrite bind_inr; cycle 1.
    { apply on_files_writerow with (f := fr); [solve_dom | exact Hfr]. }
    rewrite bool_decide_eq_true_2 by done.
    erewrite bind_inr; cycle 1.
    { apply on_files_writerow with (f := fe); [solve_dom|].
      cbn [fs w_path err_writer run_writer]. by rewrite lookup_insert_ne. }
    reflexivity.
Qed.

(** *** The records *)

Ltac record_lookup :=
  unfold skip_record, attempt_record, base_record;
  rewrite lookup_line_of; rewrite decide_True by compute_done;
  cbn [qbo_attach_demo.update foldl fst snd]; unfold get; by simplify_map_eq.

Lemma skip_record_outcome (ts : string) (r : row) :
  skip_record ts r !! "outcome" = Some "skipped_already_uploaded".
Proof. record_lookup. Qed.

Lemma attempt_record_outcome (ts : string) (r : row) (resp : FakeQboResponse) :
  attempt_record ts r resp !! "outcome" = Some (outcome_of_code (status_code resp)).
Proof. record_lookup. Qed.

Lemma skip_record_key (ts : string) (r : row) : key_of (skip_record ts r) = key_of r.
Proof. unfold key_of. f_equal; apply get_Some; record_lookup. Qed.

Lemma attempt_record_key (ts : string) (r : row) (resp : FakeQboResponse) :
  key_of (attempt_record ts r resp) = key_of r.
Proof. unfold key_of. f_equal; apply get_Some; record_lookup. Qed.

Lemma skip_record_is_skip (ts : string) (r : row) : is_skip (skip_record ts r).
Proof. apply skip_record_outcome. Qed.

Lemma skip_record_not_success (ts : string) (r : row) : ~ is_success (skip_record ts r).
Proof. unfold is_success. by rewrite skip_record_outcome. Qed.

Lemma attempt_record_not_skip (ts : string) (r : row) (resp : FakeQboResponse) :
  ~ is_skip (attempt_record ts r resp).
Proof.
  unfold is_skip, outcome_of_code. rewrite attempt_record_outcome.
  unfold outcome_of_code. by repeat case_match.
Qed.

Lemma attempt_record_success (ts : string) (r : row) (resp : FakeQboResponse) :
  is_success (attempt_record ts r resp) <-> status_code resp = 200%Z.
Proof.
  unfold is_success. rewrite attempt_record_outcome. unfold outcome_of_code.
  destruct (Z.eqb_spec (status_code resp) 200); [done|].
  split; [|done]. by repeat case_match.
Qed.

Lemma skip_record_fields (ts : string) (r : row) :
  skip_record ts r !! "ts" = Some ts /\
  skip_record ts r !! "status_code" = Some "" /\
  skip_record ts r !! "error" = Some "" /\
  skip_record ts r !! "intuit_tid" = Some "" /\
  forall k, k ∈ verified_fields -> skip_record ts r !! k = Some (get r k "").
Proof.
  repeat split; try record_lookup.
  intros k Hk. unfold verified_fields in Hk.
  repeat (apply elem_of_cons in Hk as [->|Hk]); [..|inversion Hk]; record_lookup.
Qed.

Lemma attempt_record_fields (ts : string) (r : row) (resp : FakeQboResponse) :
  attempt_record ts r resp !! "ts" = Some ts /\
  attempt_record ts r resp !! "status_code" = Some (pretty (status_code resp)) /\
  attempt_record ts r resp !! "error" = Some (default "" (error resp)) /\
  attempt_record ts r resp !! "intuit_tid" = Some (default "" (intuit_tid resp)) /\
  forall k, k ∈ verified_fields -> attempt_record ts r resp !! k = Some (get r k "").
Proof.
  repeat split; try record_lookup.
  intros k Hk. unfold verified_fields in Hk.
  repeat (apply elem_of_cons in Hk as [->|Hk]); [..|inversion Hk]; record_lookup.
Qed.

Lemma record_for_key (c rec : row) : record_for c rec -> key_of rec = key_of c.
Proof.
  intros H. unfold key_of. f_equal; apply get_Some, H; compute_done.
Qed.

(** *** The idempotency set *)

Lemma has_success_app (L1 L2 : list row) (k : string * string) :
  has_success (L1 ++ L2) k <-> has_success L1 k \/ has_success L2 k.
Proof.
  unfold has_success. split.
  - intros (rec & [H|H]%elem_of_app & Hs); [left | right]; by exists rec.
  - intros [(rec & H & Hs)|(rec & H & Hs)]; exists rec; (split; [|done]);
      apply elem_of_app; auto.
Qed.

Lemma has_success_singleton (rec : row) (k : string * string) :
  has_success [rec] k <-> is_success rec /\ key_of rec = k.
Proof.
  unfold has_success. split.
  - by intros (rec' & ->%list_elem_of_singleton & Hs).
  - intros Hs. exists rec. split; [apply list_elem_of_singleton|]; done.
Qed.

Lemma has_success_nil (k : string * string) : ~ has_success [] k.
Proof. intros (rec & H & _). inversion H. Qed.

Lemma scan_successes_snoc (L : list row) (rec : row) :
  scan_successes (L ++ [rec])
  = if bool_decide (rec !! "outcome" = Some "success")
    then scan_successes L ∪ {[ key_of rec ]} else scan_successes L.
Proof. unfold scan_successes. by rewrite foldl_app. Qed.

Lemma scan_successes_spec (L : list row) (k : string * string) :
  k ∈ scan_successes L <-> has_success L k.
Proof.
  induction L as [|rec L IH] using rev_ind.
  - split; [intros H; by apply not_elem_of_empty in H | intros H; by apply has_success_nil in H].
  - rewrite scan_successes_snoc, has_success_app, has_success_singleton, <- IH.
    unfold is_success. case_bool_decide as Hs.
    + rewrite elem_of_union, elem_of_singleton. intuition congruence.
    + tauto.
Qed.

(** *** Appending to the three logs *)

Lemma with_appended_nil (f : csv_file) : with_appended [] f = f.
Proof. destruct f. unfold with_appended. cbn. by rewrite app_nil_r. Qed.

Lemma with_appended_app (a b : list row) (f : csv_file) :
  with_appended b (with_appended a f) = with_appended (a ++ b) f.
Proof. unfold with_appended. cbn. by rewrite app_assoc. Qed.

Lemma with_appended_nil_fmap (o : option csv_file) : with_appended [] <$> o = o.
Proof. destruct o; cbn; by rewrite ?with_appended_nil. Qed.

Lemma with_appended_app_fmap (a b : list row) (o : option csv_file) :
  with_appended b <$> (with_appended a <$> o) = with_appended (a ++ b) <$> o.
Proof. destruct o; cbn; by rewrite ?with_appended_app. Qed.

Lemma appended_refl (files : files) : appended files files [] [] [].
Proof. unfold appended. by rewrite !with_appended_nil_fmap. Qed.

Lemma appended_trans (f1 f2 f3 : files) (r1 e1 d1 r2 e2 d2 : list row) :
  appended f1 f2 r1 e1 d1 -> appended f2 f3 r2 e2 d2 ->
  appended f1 f3 (r1 ++ r2) (e1 ++ e2) (d1 ++ d2).
Proof.
  intros (Hr1 & He1 & Hd1 & Ho1) (Hr2 & He2 & Hd2 & Ho2). unfold appended.
  rewrite Hr2, Hr1, He2, He1, Hd2, Hd1, !with_appended_app_fmap.
  repeat split. intros p ???. by rewrite Ho2, Ho1.
Qed.

Lemma appended_ready (f1 f2 : files) (r e d : list row) :
  appended f1 f2 r e d -> ready f1 -> ready f2.
Proof.
  intros (Hr & He & Hd & _) ([? H1] & [? H2] & [? H3]). unfold ready.
  rewrite Hr, He, Hd, H1, H2, H3. cbn. eauto.
Qed.

Lemma appended_ledger (f1 f2 : files) (r e d : list row) :
  appended f1 f2 r e d -> ready f1 -> ledger_of f2 = ledger_of f1 ++ r.
Proof.
  intros (Hr & _) ([f H1] & _). unfold ledger_of, rows_at. by rewrite Hr, H1.
Qed.

Lemma appended_rows_at (f1 f2 : files) (r e d : list row) :
  appended f1 f2 r e d -> ready f1 ->
  rows_at QBO_ATTACH_RUNLOG_CSV f2 = rows_at QBO_ATTACH_RUNLOG_CSV f1 ++ r /\
  rows_at QBO_ATTACH_ERRORS_CSV f2 = rows_at QBO_ATTACH_ERRORS_CSV f1 ++ e /\
  rows_at QBO_ATTACH_DUPS_CSV f2 = rows_at QBO_ATTACH_DUPS_CSV f1 ++ d.
Proof.
  intros (Hr & He & Hd & _) ([? H1] & [? H2] & [? H3]). unfold rows_at.
  by rewrite Hr, He, Hd, H1, H2, H3.
Qed.

Lemma partitioned_nil : partitioned [] [] [].
Proof. done. Qed.

Lemma partitioned_app (r1 e1 d1 r2 e2 d2 : list row) :
  partitioned r1 e1 d1 -> partitioned r2 e2 d2 ->
  partitioned (r1 ++ r2) (e1 ++ e2) (d1 ++ d2).
Proof. intros [-> ->] [-> ->]. unfold partitioned. by rewrite !filter_app. Qed.

(** *** What one row does *)

Lemma process_row_spec (loc : locals) (r : row) (st : state World) :
  ready (fs st) ->
  consistent (prior_successes loc) (fs st) ->
  exists (loc' : locals) (st' : state World) (run_app err_app dup_app : list row)
         (calls_app : list (string * string * string)),
    process_row loc r st = (inr loc', st') /\
    appended (fs st) (fs st') run_app err_app dup_app /\
    partitioned run_app err_app dup_app /\
    consistent (prior_successes loc') (fs st') /\
    calls st' = calls st ++ calls_app /\
    accounted [r] run_app calls_app.
Proof.
  intros Hready Hcons.
  pose proof Hready as ([fr Hfr] & [fe Hfe] & [fd Hfd]).
  destruct (decide (candidate r)) as [Hr|Hr]; cycle 1.
  { exists loc, st, [], [], [], []. rewrite process_row_other by done.
    rewrite app_nil_r. unfold accounted. rewrite filter_cons, decide_False by done.
    split; [done|]. split; [apply appended_refl|]. split; [apply partitioned_nil|].
    split; [done|]. split; [done|]. split; [constructor | done]. }
  assert (Hone : forall rec, record_for r rec -> Forall2 record_for (filter candidate [r]) [rec]).
  { intros rec Hrec. rewrite filter_cons, decide_True by done. by repeat constructor. }
  destruct (_now_iso (world st)) as [ts w] eqn:Hts.
  destruct (decide (key_of r ∈ prior_successes loc)) as [Hk|Hk].
  - eexists _, _, [skip_record ts r], [], [skip_record ts r], [].
    rewrite (process_row_skip loc r st ts w fr fd) by done.
    split; [reflexivity|].
    assert (Hfor : record_for r (skip_record ts r))
      by (by destruct (skip_record_fields ts r) as (_ & _ & _ & _ & ?)).
    apply Hone in Hfor.
    pose proof (skip_record_not_success ts r) as Hnsucc.
    pose proof (skip_record_is_skip ts r) as Hskip.
    set (rec := skip_record ts r) in *. clearbody rec.
    assert (Happ : appended (fs st)
              (<[QBO_ATTACH_DUPS_CSV := with_appended [rec] fd]>
                 (<[QBO_ATTACH_RUNLOG_CSV := with_appended [rec] fr]> (fs st)))
              [rec] [] [rec]).
    { unfold appended. rewrite Hfr, Hfd, with_appended_nil_fmap.
      repeat split; intros; by simplify_map_eq. }
    split; [exact Happ|]. split.
    + unfold partitioned. rewrite !filter_cons, !filter_nil.
      rewrite decide_False by (by intros [H _]).
      by rewrite decide_True.
    + split; [|split].
      * cbn [prior_successes fs]. intros k.
        rewrite (appended_ledger _ _ _ _ _ Happ Hready), has_success_app,
          has_success_singleton.
        rewrite (Hcons k). tauto.
      * cbn [calls]. by rewrite app_nil_r.
      * unfold accounted. split; [exact Hfor|]. by rewrite filter_cons, decide_False by auto.
  - destruct (attach_file (get r "qbo_entity_type" "") (get r "qbo_entity_id" "")
                (get r "file_path" "") w) as [resp w'] eqn:Hresp.
    set (rec := attempt_record ts r resp).
    pose proof (process_row_upload loc r st ts w w' resp fr fe Hr Hk Hts Hresp Hfr Hfe)
      as Hstep. cbv zeta in Hstep. fold rec in Hstep.
    pose proof (attempt_record_not_skip ts r resp) as Hnskip.
    pose proof (attempt_record_success ts r resp) as Hsucc.
    pose proof (attempt_record_key ts r resp) as Hkey. fold rec in Hnskip, Hsucc, Hkey.
    assert (Hfor : record_for r rec)
      by (by destruct (attempt_record_fields ts r resp) as (_ & _ & _ & _ & ?)).
    apply Hone in Hfor.
    destruct (Z.eqb_spec (status_code resp) 200) as [Hcode|Hcode].
    + eexists _, _, [rec], [], [], [upload_args r]. split; [exact Hstep|]. clearbody rec.
      assert (Happ : appended (fs st)
                (<[QBO_ATTACH_RUNLOG_CSV := with_appended [rec] fr]> (fs st)) [rec] [] []).
      { unfold appended. rewrite Hfr, !with_appended_nil_fmap.
        repeat split; intros; by simplify_map_eq. }
      split; [exact Happ|]. split.
      * unfold partitioned. rewrite !filter_cons, !filter_nil.
        rewrite decide_False by (intros [_ H]; apply H, Hsucc, Hcode).
        by rewrite decide_False.
      * split; [|split; [done|]].
        -- cbn [prior_successes fs]. intros k.
           rewrite (appended_ledger _ _ _ _ _ Happ Hready), has_success_app,
             has_success_singleton.
           rewrite elem_of_union, elem_of_singleton, (Hcons k), Hkey.
           intuition congruence.
        -- unfold accounted. split; [exact Hfor|]. by rewrite filter_cons, decide_True.
    + eexists _, _, [rec], [rec], [], [upload_args r]. split; [exact Hstep|]. clearbody rec.
      assert (Happ : appended (fs st)
                (<[QBO_ATTACH_ERRORS_CSV := with_appended [rec] fe]>
                   (<[QBO_ATTACH_RUNLOG_CSV := with_appended [rec] fr]> (fs st)))
                [rec] [rec] []).
      { unfold appended. rewrite Hfr, Hfe, !with_appended_nil_fmap.
        repeat split; intros; by simplify_map_eq. }
      split; [exact Happ|]. split.
      * unfold partitioned. rewrite !filter_cons, !filter_nil.
        rewrite decide_True by (split; [done | by rewrite Hsucc]).
        by rewrite decide_False.
      * split; [|split; [done|]].
        -- cbn [prior_successes fs]. intros k.
           rewrite (appended_ledger _ _ _ _ _ Happ Hready), has_success_app,
             has_success_singleton.
           rewrite (Hcons k). tauto.
        -- unfold accounted. split; [exact Hfor|]. by rewrite filter_cons, decide_True.
Qed.

(** *** The loop *)

Lemma for_each_app {St A B : Type} (body : A -> B -> py.M St A) (xs ys : list B)
  (acc : A) (s : St) :
  py.for_each body acc (xs ++ ys) s
  = py.bind (py.for_each body acc xs) (fun acc' => py.for_each body acc' ys) s.
Proof.
  revert acc s. induction xs as [|x xs IH]; intros acc s; [reflexivity|].
  cbn [app py.for_each]. unfold py.bind in IH |- *.
  destruct (body acc x s) as [[e|acc'] s']; [reflexivity|]. apply IH.
Qed.

Lemma accounted_app (rows1 rows2 run1 run2 : list row)
  (calls1 calls2 : list (string * string * string)) :
  accounted rows1 run1 calls1 -> accounted rows2 run2 calls2 ->
  accounted (rows1 ++ rows2) (run1 ++ run2) (calls1 ++ calls2).
Proof.
  intros [H1 H2] [H3 H4]. unfold accounted.
  rewrite !filter_app, !length_app. split; [by apply Forall2_app | lia].
Qed.

Lemma loop_spec (rows : list row) :
  forall (loc : locals) (st : state World),
    ready (fs st) ->
    consistent (prior_successes loc) (fs st) ->
    exists (loc' : locals) (st' : state World) (run_app err_app dup_app : list row)
           (calls_app : list (string * string * string)),
      py.for_each process_row loc rows st = (inr loc', st') /\
      appended (fs st) (fs st') run_app err_app dup_app /\
      partitioned run_app err_app dup_app /\
      consistent (prior_successes loc') (fs st') /\
      calls st' = calls st ++ calls_app /\
      accounted rows run_app calls_app.
Proof.
  induction rows as [|r rows IH]; intros loc st Hready Hcons.
  - exists loc, st, [], [], [], []. rewrite app_nil_r.
    split; [done|]. split; [apply appended_refl|]. split; [apply partitioned_nil|]. done.
  - destruct (process_row_spec loc r st Hready Hcons)
      as (loc1 & st1 & r1 & e1 & d1 & c1 & Hstep & Happ1 & Hpart1 & Hcons1 & Hcalls1 & Hacc1).
    destruct (IH loc1 st1 (appended_ready _ _ _ _ _ Happ1 Hready) Hcons1)
      as (loc2 & st2 & r2 & e2 & d2 & c2 & Hloop & Happ2 & Hpart2 & Hcons2 & Hcalls2 & Hacc2).
    exists loc2, st2, (r1 ++ r2), (e1 ++ e2), (d1 ++ d2), (c1 ++ c2).
    split; [cbn [py.for_each]; by erewrite bind_inr|].
    split; [by eapply appended_trans|]. split; [by apply partitioned_app|].
    split; [done|]. split; [by rewrite Hcalls2, Hcalls1, app_assoc|].
    by apply (accounted_app [r] rows).
Qed.

(** *** The start of a run *)

Lemma load_prior_successes_eq (files : files) :
  _load_prior_successes files = (inr (scan_successes (ledger_of files)), files).
Proof.
  unfold _load_prior_successes, path_exists, ledger_of, rows_at, open_reader, py.bind.
  destruct (files !! QBO_ATTACH_RUNLOG_CSV) as [f|] eqn:Hf.
  - rewrite bool_decide_eq_true_2 by eauto. done.
  - rewrite bool_decide_eq_false_2 by (by intros [? ?]). done.
Qed.

Lemma open_writer_eq (path : string) (files : files) :
  _open_writer path run_fields files
  = (inr {| w_path := path; w_fieldnames := run_fields |}, ensure path files).
Proof.
  unfold _open_writer, path_exists, ensure, open_a, writeheader, py.bind, py.ret.
  destruct (files !! path) as [f|] eqn:Hf.
  - rewrite bool_decide_eq_true_2 by eauto. done.
  - rewrite bool_decide_eq_false_2 by (by intros [? ?]). cbn.
    by rewrite alter_Some with (x := CsvFile [] []), insert_insert_eq
      by apply lookup_insert_eq.
Qed.

Lemma ensure_lookup (path p : string) (files : files) :
  ensure path files !! p
  = if decide (p = path) then Some (default (CsvFile run_fields []) (files !! p))
    else files !! p.
Proof.
  unfold ensure. destruct (decide (p = path)) as [->|Hne].
  - destruct (files !! path) as [f|] eqn:Hf; [by rewrite Hf | by rewrite lookup_insert_eq].
  - destruct (files !! path); [done | by rewrite lookup_insert_ne].
Qed.

Lemma ensure_rows_at (path p : string) (files : files) :
  rows_at p (ensure path files) = rows_at p files.
Proof.
  unfold rows_at. rewrite ensure_lookup. case_decide; [|done].
  by destruct (files !! p).
Qed.

Lemma opened_rows_at (p : string) (files : files) :
  rows_at p (opened files) = rows_at p files.
Proof. unfold opened. by rewrite !ensure_rows_at. Qed.

Lemma opened_ready (files : files) : ready (opened files).
Proof.
  unfold ready, opened. rewrite !ensure_lookup. repeat case_decide; try done; eauto.
Qed.

Lemma opened_other (p : string) (files : files) :
  p <> QBO_ATTACH_RUNLOG_CSV -> p <> QBO_ATTACH_ERRORS_CSV -> p <> QBO_ATTACH_DUPS_CSV ->
  opened files !! p = files !! p.
Proof. intros. unfold opened. rewrite !ensure_lookup. by repeat case_decide. Qed.

Lemma opened_existing (p : string) (files : files) (f : csv_file) :
  files !! p = Some f -> opened files !! p = Some f.
Proof.
  intros Hf. unfold opened. rewrite !ensure_lookup.
  repeat case_decide; by rewrite ?Hf.
Qed.

Lemma main_missing_input (st0 : state World) :
  fs st0 !! MAPPING_VERIFICATION_LOG_CSV = None ->
  main st0
  = (inl (py.RuntimeError
            (MAPPING_VERIFICATION_LOG_CSV +:+ " not found; run mapping_verifier first")),
     st0).
Proof.
  intros Hv. unfold qbo_attach_demo.main, path_exists.
  by rewrite Hv, bool_decide_eq_false_2 by (by intros [? ?]).
Qed.

Lemma main_unfold (st0 : state World) (vnames : list string) (rows : list row) :
  fs st0 !! MAPPING_VERIFICATION_LOG_CSV = Some (CsvFile vnames rows) ->
  main st0 = py.for_each process_row (loop_start st0).1 rows (loop_start st0).2.
Proof.
  intros Hv. unfold qbo_attach_demo.main, path_exists.
  rewrite Hv, bool_decide_eq_true_2 by eauto. cbn [negb].
  erewrite bind_inr by (unfold on_files; by rewrite load_prior_successes_eq).
  erewrite bind_inr by (unfold on_files; by rewrite open_writer_eq).
  erewrite bind_inr by (unfold on_files; cbn [fs]; by rewrite open_writer_eq).
  erewrite bind_inr by (unfold on_files; cbn [fs]; by rewrite open_writer_eq).
  erewrite bind_inr; [reflexivity|].
  unfold on_files, open_reader. cbn [fs world calls].
  fold (opened (fs st0)). by rewrite (opened_existing _ _ _ Hv).
Qed.

(** The run reaches every row of the verification log, with the three
    logs extended by what the rows before it appended and with an
    idempotency set that matches the ledger as it stands. *)
Lemma run_reaches (st0 : state World) (vnames : list string) (pre rest : list row) :
  fs st0 !! MAPPING_VERIFICATION_LOG_CSV = Some (CsvFile vnames (pre ++ rest)) ->
  exists (loc : locals) (st : state World) (run_app err_app dup_app : list row)
         (calls_app : list (string * string * string)),
    arrives st0 pre loc st /\
    main st0 = py.for_each process_row loc rest st /\
    appended (opened (fs st0)) (fs st) run_app err_app dup_app /\
    partitioned run_app err_app dup_app /\
    consistent (prior_successes loc) (fs st) /\
    calls st = calls st0 ++ calls_app /\
    accounted pre run_app calls_app /\
    ready (fs st).
Proof.
  intros Hv.
  assert (Hcons0 : consistent (prior_successes (loop_start st0).1) (fs (loop_start st0).2)).
  { intros k. cbn. unfold ledger_of. rewrite opened_rows_at. apply scan_successes_spec. }
  destruct (loop_spec pre (loop_start st0).1 (loop_start st0).2 (opened_ready (fs st0)) Hcons0)
    as (loc & st & ra & ea & da & ca & Hloop & Happ & Hpart & Hcons & Hcalls & Hacc).
  exists loc, st, ra, ea, da, ca. split; [exact Hloop|].
  split; [rewrite (main_unfold _ _ _ Hv), for_each_app; by erewrite bind_inr|].
  split; [exact Happ|]. split; [done|]. split; [done|]. split; [done|]. split; [done|].
  eapply appended_ready; [exact Happ | apply opened_ready].
Qed.

(** *** The two ways a candidate is processed *)

Lemma skip_step (loc : locals) (r : row) (st : state World) :
  ready (fs st) -> candidate r -> key_of r ∈ prior_successes loc ->
  exists (ts : string) (w : World) (loc' : locals) (st' : state World),
    _now_iso (world st) = (ts, w) /\
    process_row loc r st = (inr loc', st') /\
    rows_at QBO_ATTACH_RUNLOG_CSV (fs st')
    = rows_at QBO_ATTACH_RUNLOG_CSV (fs st) ++ [skip_record ts r] /\
    rows_at QBO_ATTACH_DUPS_CSV (fs st')
    = rows_at QBO_ATTACH_DUPS_CSV (fs st) ++ [skip_record ts r] /\
    rows_at QBO_ATTACH_ERRORS_CSV (fs st') = rows_at QBO_ATTACH_ERRORS_CSV (fs st) /\
    calls st' = calls st /\
    prior_successes loc' = prior_successes loc.
Proof.
  intros ([fr Hfr] & [fe Hfe] & [fd Hfd]) Hr Hk.
  destruct (_now_iso (world st)) as [ts w] eqn:Hts.
  eexists ts, w, _, _. split; [done|].
  split; [by apply (process_row_skip loc r st ts w fr fd)|].
  generalize (skip_record ts r). intros rec.
  unfold rows_at. cbn [fs calls prior_successes]. rewrite Hfr, Hfe, Hfd.
  repeat split; by simplify_map_eq.
Qed.

Lemma upload_step (loc : locals) (r : row) (st : state World) :
  ready (fs st) -> candidate r -> key_of r ∉ prior_successes loc ->
  exists (ts : string) (w w' : World) (resp : FakeQboResponse)
         (loc' : locals) (st' : state World),
    _now_iso (world st) = (ts, w) /\
    attach_file (get r "qbo_entity_type" "") (get r "qbo_entity_id" "")
      (get r "file_path" "") w = (resp, w') /\
    process_row loc r st = (inr loc', st') /\
    rows_at QBO_ATTACH_RUNLOG_CSV (fs st')
    = rows_at QBO_ATTACH_RUNLOG_CSV (fs st) ++ [attempt_record ts r resp] /\
    rows_at QBO_ATTACH_ERRORS_CSV (fs st')
    = rows_at QBO_ATTACH_ERRORS_CSV (fs st)
      ++ (if decide (status_code resp = 200%Z) then [] else [attempt_record ts r resp]) /\
    rows_at QBO_ATTACH_DUPS_CSV (fs st') = rows_at QBO_ATTACH_DUPS_CSV (fs st) /\
    calls st' = calls st ++ [upload_args r] /\
    prior_successes loc'
    = if decide (status_code resp = 200%Z) then prior_successes loc ∪ {[ key_of r ]}
      else prior_successes loc.
Proof.
  intros ([fr Hfr] & [fe Hfe] & [fd Hfd]) Hr Hk.
  destruct (_now_iso (world st)) as [ts w] eqn:Hts.
  destruct (attach_file (get r "qbo_entity_type" "") (get r "qbo_entity_id" "")
              (get r "file_path" "") w) as [resp w'] eqn:Hresp.
  eexists ts, w, w', resp, _, _. split; [done|]. split; [done|].
  split; [by apply (process_row_upload loc r st ts w w' resp fr fe)|].
  generalize (attempt_record ts r resp). intros rec.
  unfold rows_at. rewrite Hfr, Hfe, Hfd.
  destruct (Z.eqb_spec (status_code resp) 200) as [Hc|Hc].
  - rewrite !decide_True by done. cbn [fs calls prior_successes].
    rewrite app_nil_r. repeat split; by simplify_map_eq.
  - rewrite !decide_False by done. cbn [fs calls prior_successes].
    repeat split; by simplify_map_eq.
Qed.

(** *** The properties of a run *)

Lemma reaches_candidate (st0 : state World) (vnames : list string) (pre rest : list row) :
  fs st0 !! MAPPING_VERIFICATION_LOG_CSV = Some (CsvFile vnames (pre ++ rest)) ->
  exists (loc : locals) (st : state World) (run_app : list row),
    arrives st0 pre loc st /\
    main st0 = py.for_each process_row loc rest st /\
    ledger_of (fs st) = ledger_of (fs st0) ++ run_app /\
    Forall2 record_for (filter candidate pre) run_app /\
    ready (fs st) /\
    consistent (prior_successes loc) (fs st).
Proof.
  intros Hv.
  destruct (run_reaches st0 vnames pre rest Hv)
    as (loc & st & ra & ea & da & ca & Harr & Hmain & Happ & _ & Hcons & _ & [Hfor _] & Hready).
  exists loc, st, ra. split; [done|]. split; [done|]. split; [|done].
  rewrite (appended_ledger _ _ _ _ _ Happ (opened_ready _)).
  unfold ledger_of. by rewrite opened_rows_at.
Qed.

(** C1. At-most-once delivery.  Take any initial state (so any initial
    ledger) and any verification log, and a candidate [r] of it, after the
    rows [pre].  The run reaches [r] in a state whose ledger is the
    initial ledger followed by the records [run_app] that the run has
    appended so far.  If a record with outcome ["success"] and the key of
    [r] is in the initial ledger or among [run_app], then processing [r]
    appends one record, with outcome ["skipped_already_uploaded"], empty
    [status_code], [error] and [intuit_tid] and the fields of [r], to the
    ledger and to the duplicates log, leaves the errors log as it is, and
    makes no call to the upload operation. *)
Theorem reconciler_skips_uploaded (st0 : state World) (vnames : list string)
  (pre : list row) (r : row) (post : list row) :
  fs st0 !! MAPPING_VERIFICATION_LOG_CSV = Some (CsvFile vnames (pre ++ r :: post)) ->
  candidate r ->
  exists (loc : locals) (st : state World) (run_app : list row),
    arrives st0 pre loc st /\
    main st0 = py.for_each process_row loc (r :: post) st /\
    ledger_of (fs st) = ledger_of (fs st0) ++ run_app /\
    Forall2 record_for (filter candidate pre) run_app /\
    (has_success (ledger_of (fs st0) ++ run_app) (key_of r) ->
     exists (loc' : locals) (st' : state World) (rec : row),
       process_row loc r st = (inr loc', st') /\
       rec !! "outcome" = Some "skipped_already_uploaded" /\
       rec !! "status_code" = Some "" /\
       rec !! "error" = Some "" /\
       rec !! "intuit_tid" = Some "" /\
       record_for r rec /\
       rows_at QBO_ATTACH_RUNLOG_CSV (fs st') = rows_at QBO_ATTACH_RUNLOG_CSV (fs st) ++ [rec] /\
       rows_at QBO_ATTACH_DUPS_CSV (fs st') = rows_at QBO_ATTACH_DUPS_CSV (fs st) ++ [rec] /\
       rows_at QBO_ATTACH_ERRORS_CSV (fs st') = rows_at QBO_ATTACH_ERRORS_CSV (fs st) /\
       calls st' = calls st).
Proof.
  intros Hv Hr.
  destruct (reaches_candidate st0 vnames pre (r :: post) Hv)
    as (loc & st & ra & Harr & Hmain & Hledger & Hfor & Hready & Hcons).
  exists loc, st, ra. split; [done|]. split; [done|]. split; [done|]. split; [done|].
  rewrite <- Hledger. intros Hs%Hcons.
  destruct (skip_step loc r st Hready Hr Hs)
    as (ts & w & loc' & st' & _ & Hstep & Hrun & Hdup & Herr & Hcalls & _).
  destruct (skip_record_fields ts r) as (_ & Hsc & He & Htid & Hf).
  exists loc', st', (skip_record ts r).
  by rewrite skip_record_outcome.
Qed.

Lemma no_success_among_records (cands run_app : list row) (k : string * string) :
  Forall2 record_for cands run_app ->
  (forall c, c ∈ cands -> key_of c <> k) ->
  ~ has_success run_app k.
Proof.
  intros Hfor Hcands (rec & Hin & _ & Hk).
  apply list_elem_of_lookup in Hin as [i Hi].
  destruct (Forall2_lookup_r _ _ _ _ _ Hfor Hi) as (c & Hc & Hrec).
  apply (Hcands c); [by eapply list_elem_of_lookup_2|].
  by rewrite <- (record_for_key _ _ Hrec).
Qed.

(** C6. Failed work is reprocessed.  With the run at a candidate [r] as
    in C1: if no record of the ledger as it stands (the initial ledger
    and the records appended so far) has outcome ["success"] for the key
    of [r], so that every record of that key is a failure, then [r] is not
    skipped: processing it calls the upload operation, once, with the
    arguments of [r], and appends to the ledger one record, whose outcome
    is that of the response and is not ["skipped_already_uploaded"].  That
    is the case of the first candidate of a key for which the ledger of the
    earlier runs holds no success.  When the response is a failure the
    idempotency set stays as it was, and the loop goes on to the next row:
    the one call is all the run makes for this row. *)
Theorem reconciler_reprocesses_failed (st0 : state World) (vnames : list string)
  (pre : list row) (r : row) (post : list row) :
  fs st0 !! MAPPING_VERIFICATION_LOG_CSV = Some (CsvFile vnames (pre ++ r :: post)) ->
  candidate r ->
  exists (loc : locals) (st : state World) (run_app : list row),
    arrives st0 pre loc st /\
    main st0 = py.for_each process_row loc (r :: post) st /\
    ledger_of (fs st) = ledger_of (fs st0) ++ run_app /\
    Forall2 record_for (filter candidate pre) run_app /\
    (~ has_success (ledger_of (fs st0)) (key_of r) ->
     (forall c, c ∈ pre -> candidate c -> key_of c <> key_of r) ->
     ~ has_success (ledger_of (fs st0) ++ run_app) (key_of r)) /\
    (~ has_success (ledger_of (fs st0) ++ run_app) (key_of r) ->
     exists (ts : string) (w w' : World) (resp : FakeQboResponse)
            (loc' : locals) (st' : state World) (rec : row),
       _now_iso (world st) = (ts, w) /\
       attach_file (get r "qbo_entity_type" "") (get r "qbo_entity_id" "")
         (get r "file_path" "") w = (resp, w') /\
       process_row loc r st = (inr loc', st') /\
       main st0 = py.for_each process_row loc' post st' /\
       calls st' = calls st ++ [upload_args r] /\
       rows_at QBO_ATTACH_RUNLOG_CSV (fs st') = rows_at QBO_ATTACH_RUNLOG_CSV (fs st) ++ [rec] /\
       rows_at QBO_ATTACH_DUPS_CSV (fs st') = rows_at QBO_ATTACH_DUPS_CSV (fs st) /\
       rec !! "outcome" = Some (outcome_of_code (status_code resp)) /\
       ~ is_skip rec /\
       record_for r rec /\
       (status_code resp <> 200%Z ->
        ~ is_success rec /\ prior_successes loc' = prior_successes loc)).
Proof.
  intros Hv Hr.
  destruct (reaches_candidate st0 vnames pre (r :: post) Hv)
    as (loc & st & ra & Harr & Hmain & Hledger & Hfor & Hready & Hcons).
  exists loc, st, ra. split; [done|]. split; [done|]. split; [done|]. split; [done|].
  split.
  { intros Hold Hfirst [H|H]%has_success_app; [done|].
    revert H. apply (no_success_among_records _ _ _ Hfor).
    intros c [Hc Hin]%list_elem_of_filter. by apply Hfirst. }
  rewrite <- Hledger. intros Hs. rewrite <- (Hcons (key_of r)) in Hs.
  destruct (upload_step loc r st Hready Hr Hs)
    as (ts & w & w' & resp & loc' & st' & Hts & Hresp & Hstep & Hrun & Herr & Hdup
        & Hcalls & Hprior).
  exists ts, w, w', resp, loc', st', (attempt_record ts r resp).
  split; [done|]. split; [done|]. split; [done|].
  split; [rewrite Hmain; cbn [py.for_each]; by erewrite bind_inr|].
  split; [done|]. split; [done|]. split; [done|].
  split; [apply attempt_record_outcome|].
  split; [apply attempt_record_not_skip|].
  split; [by destruct (attempt_record_fields ts r resp) as (_ & _ & _ & _ & ?)|].
  intros Hcode. rewrite attempt_record_success. by rewrite decide_False in Hprior.
Qed.

(** C4. Outcome mapping and log partitioning.  With the run at a
    candidate [r] as in C1: when [r] reaches the upload operation (no
    success is recorded for its key), the record of the attempt carries
    the status code, error and transaction id of the response, its
    outcome is ["success"] for status code 200, ["file_missing"] for 404
    and ["error"] for any other code, it is appended to the ledger in
    every case, and to the errors log exactly when the outcome is not
    ["success"].  Over the whole run, the errors log receives exactly the
    records of the attempted uploads that did not succeed, in order. *)
Theorem reconciler_outcomes (st0 : state World) (vnames : list string)
  (pre : list row) (r : row) (post : list row) :
  fs st0 !! MAPPING_VERIFICATION_LOG_CSV = Some (CsvFile vnames (pre ++ r :: post)) ->
  candidate r ->
  (exists (loc : locals) (st : state World) (run_app : list row),
     arrives st0 pre loc st /\
     main st0 = py.for_each process_row loc (r :: post) st /\
     ledger_of (fs st) = ledger_of (fs st0) ++ run_app /\
     Forall2 record_for (filter candidate pre) run_app /\
     (~ has_success (ledger_of (fs st0) ++ run_app) (key_of r) ->
      exists (ts : string) (w w' : World) (resp : FakeQboResponse)
             (loc' : locals) (st' : state World) (rec : row),
        _now_iso (world st) = (ts, w) /\
        attach_file (get r "qbo_entity_type" "") (get r "qbo_entity_id" "")
          (get r "file_path" "") w = (resp, w') /\
        process_row loc r st = (inr loc', st') /\
        rec !! "status_code" = Some (pretty (status_code resp)) /\
        rec !! "error" = Some (default "" (error resp)) /\
        rec !! "intuit_tid" = Some (default "" (intuit_tid resp)) /\
        record_for r rec /\
        (status_code resp = 200%Z -> rec !! "outcome" = Some "success") /\
        (status_code resp = 404%Z -> rec !! "outcome" = Some "file_missing") /\
        (status_code resp <> 200%Z -> status_code resp <> 404%Z ->
         rec !! "outcome" = Some "error") /\
        rows_at QBO_ATTACH_RUNLOG_CSV (fs st')
        = rows_at QBO_ATTACH_RUNLOG_CSV (fs st) ++ [rec] /\
        rows_at QBO_ATTACH_ERRORS_CSV (fs st')
        = rows_at QBO_ATTACH_ERRORS_CSV (fs st)
          ++ (if decide (is_success rec) then [] else [rec]))) /\
  (exists (loc_end : locals) (st_end : state World) (run_app err_app : list row),
     main st0 = (inr loc_end, st_end) /\
     rows_at QBO_ATTACH_RUNLOG_CSV (fs st_end)
     = rows_at QBO_ATTACH_RUNLOG_CSV (fs st0) ++ run_app /\
     rows_at QBO_ATTACH_ERRORS_CSV (fs st_end)
     = rows_at QBO_ATTACH_ERRORS_CSV (fs st0) ++ err_app /\
     err_app = filter (fun rec => ~ is_skip rec /\ ~ is_success rec) run_app).
Proof.
  intros Hv Hr. split.
  - destruct (reaches_candidate st0 vnames pre (r :: post) Hv)
      as (loc & st & ra & Harr & Hmain & Hledger & Hfor & Hready & Hcons).
    exists loc, st, ra. split; [done|]. split; [done|]. split; [done|]. split; [done|].
    rewrite <- Hledger. intros Hs. rewrite <- (Hcons (key_of r)) in Hs.
    destruct (upload_step loc r st Hready Hr Hs)
      as (ts & w & w' & resp & loc' & st' & Hts & Hresp & Hstep & Hrun & Herr & _).
    destruct (attempt_record_fields ts r resp) as (_ & Hsc & He & Htid & Hf).
    pose proof (attempt_record_outcome ts r resp) as Hout.
    pose proof (attempt_record_success ts r resp) as Hsucc.
    exists ts, w, w', resp, loc', st', (attempt_record ts r resp).
    do 7 (split; [done|]).
    split; [intros Hc; by rewrite Hout, Hc|].
    split; [intros Hc; by rewrite Hout, Hc|].
    split.
    { intros H200 H404. rewrite Hout. unfold outcome_of_code.
      destruct (Z.eqb_spec (status_code resp) 200); [done|].
      by destruct (Z.eqb_spec (status_code resp) 404). }
    split; [done|]. rewrite Herr. f_equal.
    destruct (decide (status_code resp = 200%Z)) as [Hc|Hc].
    + by rewrite decide_True by (by apply Hsucc).
    + by rewrite decide_False by (by rewrite Hsucc).
  - rewrite <- (app_nil_r (pre ++ r :: post)) in Hv.
    destruct (run_reaches st0 vnames _ [] Hv)
      as (loc & st & ra & ea & da & ca & _ & Hmain & Happ & [Hea _] & _).
    exists loc, st, ra, ea. split; [exact Hmain|].
    destruct (appended_rows_at _ _ _ _ _ Happ (opened_ready _)) as (Hr1 & He1 & _).
    by rewrite Hr1, He1, !opened_rows_at.
Qed.

(** C8. Missing files at the inputs of the reconciler.  When the
    verification log does not exist the run raises [RuntimeError] at once
    and leaves the state as it was: no file is created, no row is written
    and no upload is called.  When the run log does not exist, the
    idempotency set is empty and the files are left as they are by the
    scan; the run then goes through the whole verification log from the
    empty set, completes, and leaves a run log that holds its header and
    one record per candidate. *)
Theorem reconciler_missing_files (st0 : state World) :
  (fs st0 !! MAPPING_VERIFICATION_LOG_CSV = None ->
   main st0
   = (inl (py.RuntimeError
             "logs/mapping_verification_log.csv not found; run mapping_verifier first"),
      st0)) /\
  (fs st0 !! QBO_ATTACH_RUNLOG_CSV = None ->
   _load_prior_successes (fs st0) = (inr ∅, fs st0) /\
   forall (vnames : list string) (rows : list row),
     fs st0 !! MAPPING_VERIFICATION_LOG_CSV = Some (CsvFile vnames rows) ->
     main st0
     = py.for_each process_row (Locals ∅ 0 0 0 0) rows
         (State (opened (fs st0)) (world st0) (calls st0)) /\
     exists (loc : locals) (st : state World) (run_app : list row),
       main st0 = (inr loc, st) /\
       fs st !! QBO_ATTACH_RUNLOG_CSV = Some (CsvFile run_fields run_app) /\
       length run_app = length (filter candidate rows)).
Proof.
  split.
  - intros Hv. by apply main_missing_input.
  - intros Hl.
    assert (Hscan : scan_successes (ledger_of (fs st0)) = ∅).
    { unfold ledger_of, rows_at. by rewrite Hl. }
    split; [by rewrite load_prior_successes_eq, Hscan|].
    intros vnames rows Hv. split.
    + rewrite (main_unfold _ _ _ Hv). unfold loop_start. cbn [fst snd]. by rewrite Hscan.
    + rewrite <- (app_nil_r rows) in Hv.
      destruct (run_reaches st0 vnames rows [] Hv)
        as (loc & st & ra & ea & da & ca & _ & Hmain & (Hrun & _) & _ & _ & _ & [Hacc _] & _).
      exists loc, st, ra. split; [exact Hmain|].
      split; [|symmetry; by eapply Forall2_length].
      rewrite Hrun. unfold opened. rewrite !ensure_lookup.
      repeat (rewrite decide_False by done). rewrite decide_True by done.
      by rewrite Hl.
Qed.

End reconciler_facts.

(** C2. The idempotency set.  For every state of the files the scan at
    startup returns, with the files left as they are, the set of exactly
    the keys [(qbo_entity_id, file_name)] for which at least one row of the
    ledger has outcome ["success"].  For the ledger of the example (a
    success, then an error, for [("1001", f)], and a success for
    [("1002", g)]) the set is [{("1001", f), ("1002", g)}], of size 2: the
    later failure does not remove the key. *)
Theorem load_prior_successes_exact :
  (forall files : csv.files,
      exists successes : gset (string * string),
        qbo_attach_demo._load_prior_successes files = (inr successes, files) /\
        forall k, k ∈ successes <->
                  reconciler_spec.has_success (reconciler_spec.ledger_of files) k) /\
  (forall (files : csv.files) (names : list string) (f g : string),
      let ledger := [ examples.ledger_row "1001" f "success";
                      examples.ledger_row "1001" f "error";
                      examples.ledger_row "1002" g "success" ] in
      exists successes : gset (string * string),
        qbo_attach_demo._load_prior_successes
          (<[config.QBO_ATTACH_RUNLOG_CSV := csv.CsvFile names ledger]> files)
        = (inr successes, <[config.QBO_ATTACH_RUNLOG_CSV := csv.CsvFile names ledger]> files) /\
        successes = {[ ("1001", f); ("1002", g) ]} /\
        size successes = 2).
Proof.
  split.
  - intros files. eexists. split; [apply load_prior_successes_eq|].
    apply scan_successes_spec.
  - intros files names f g ledger. eexists. split; [apply load_prior_successes_eq|].
    assert (Hset : qbo_attach_demo.scan_successes
                     (reconciler_spec.ledger_of
                        (<[config.QBO_ATTACH_RUNLOG_CSV := csv.CsvFile names ledger]> files))
                   = {[ ("1001", f); ("1002", g) ]}).
    { unfold reconciler_spec.ledger_of, reconciler_spec.rows_at.
      rewrite lookup_insert_eq. cbn [from_option csv.rows]. subst ledger.
      unfold qbo_attach_demo.scan_successes, examples.ledger_row, csv.get. cbn [foldl].
      rewrite bool_decide_eq_true_2 by (by simplify_map_eq).
      rewrite bool_decide_eq_false_2 by (by simplify_map_eq).
      rewrite bool_decide_eq_true_2 by (by simplify_map_eq).
      simplify_map_eq. by rewrite (left_id_L ∅ (∪)). }
    split; [exact Hset|]. rewrite Hset.
    rewrite size_union by (apply disjoint_singleton_l; rewrite elem_of_singleton; congruence).
    by rewrite !size_singleton.
Qed.

(** * The properties on the sample data *)

Lemma verifier_join_witness :
  exists (V : list csv.row) (fs' : csv.files),
    mapping_verifier.main examples.verifier_files
    = (inr (verifier_spec.count_status "ok" V,
            verifier_spec.count_status "missing_mapping" V), fs') /\
    fs' !! config.MAPPING_VERIFICATION_LOG_CSV
    = Some (csv.CsvFile mapping_verifier.fieldnames V) /\
    Forall2
      (verifier_spec.verified [ examples.mapping_row "ABC123" "Bill" "1001" ])
      [ examples.attachment_row "ABC123" "Bill" "80ABC123" "invoice_ABC123.txt"
          "/tmp/invoice_ABC123.txt";
        examples.attachment_row "MISSING1" "Bill" "80MISSING1" "invoice_missing.txt"
          "/tmp/invoice_missing.txt" ] V /\
    verifier_spec.count_status "ok" V + verifier_spec.count_status "missing_mapping" V = 2.
Proof.
  apply (verifier_join examples.verifier_files
           [ "legacy_txnid_norm"; "legacy_entity_type"; "qbo_entity_type"; "qbo_entity_id" ]
           [ "legacy_txnid_norm"; "legacy_entity_type"; "raw_legacy_id"; "file_name";
             "file_path" ]).
  - reflexivity.
  - reflexivity.
  - repeat constructor; eexists; reflexivity.
  - repeat constructor; try (eexists; reflexivity); compute_done.
Defined.

Lemma reconciler_skips_uploaded_witness :
  let r := examples.verified_row "1001" "invoice_ABC123.txt" "/tmp/invoice_ABC123.txt" "ok" in
  exists (loc loc' : qbo_attach_demo.locals) (st st' : qbo_attach_demo.state nat) (rec : csv.row),
    reconciler_spec.arrives examples.clock (examples.always 200)
      examples.uploader_state [] loc st /\
    qbo_attach_demo.process_row examples.clock (examples.always 200)
      reconciler_spec.run_writer reconciler_spec.err_writer reconciler_spec.dup_writer
      loc r st = (inr loc', st') /\
    rec !! "outcome" = Some "skipped_already_uploaded" /\
    reconciler_spec.rows_at config.QBO_ATTACH_DUPS_CSV (qbo_attach_demo.fs st')
    = reconciler_spec.rows_at config.QBO_ATTACH_DUPS_CSV (qbo_attach_demo.fs st) ++ [rec] /\
    qbo_attach_demo.calls st' = qbo_attach_demo.calls st.
Proof.
  intros r.
  destruct (reconciler_skips_uploaded examples.clock (examples.always 200)
              examples.uploader_state mapping_verifier.fieldnames [] r
              [ examples.verified_row "1002" "invoice_DEF456.txt" "/tmp/invoice_DEF456.txt" "ok" ])
    as (loc & st & run_app & Harr & _ & _ & _ & Hskip); [reflexivity | reflexivity |].
  destruct Hskip as (loc' & st' & rec & Hstep & Hout & _ & _ & _ & _ & _ & Hdup & _ & Hcalls).
  { apply has_success_app. left. apply scan_successes_spec. compute_done. }
  by exists loc, loc', st, st', rec.
Defined.

Lemma reconciler_reprocesses_failed_witness :
  let r := examples.verified_row "1002" "invoice_DEF456.txt" "/tmp/invoice_DEF456.txt" "ok" in
  exists (loc loc' : qbo_attach_demo.locals) (st st' : qbo_attach_demo.state nat) (rec : csv.row),
    reconciler_spec.arrives examples.clock (examples.always 500)
      examples.retry_state [] loc st /\
    qbo_attach_demo.process_row examples.clock (examples.always 500)
      reconciler_spec.run_writer reconciler_spec.err_writer reconciler_spec.dup_writer
      loc r st = (inr loc', st') /\
    qbo_attach_demo.calls st'
    = qbo_attach_demo.calls st ++ [("Bill", "1002", "/tmp/invoice_DEF456.txt")] /\
    rec !! "outcome" = Some "error" /\
    reconciler_spec.rows_at config.QBO_ATTACH_RUNLOG_CSV (qbo_attach_demo.fs st')
    = reconciler_spec.rows_at config.QBO_ATTACH_RUNLOG_CSV (qbo_attach_demo.fs st) ++ [rec] /\
    qbo_attach_demo.prior_successes loc' = qbo_attach_demo.prior_successes loc.
Proof.
  intros r.
  destruct (reconciler_reprocesses_failed examples.clock (examples.always 500)
              examples.retry_state mapping_verifier.fieldnames [] r
              [ examples.verified_row "1001" "invoice_ABC123.txt" "/tmp/invoice_ABC123.txt" "ok" ])
    as (loc & st & run_app & Harr & _ & Hledger & _ & _ & Hupload);
    [reflexivity | reflexivity |].
  destruct Hupload
    as (ts & w & w' & resp & loc' & st' & rec & _ & Hresp & Hstep & _ & Hcalls & Hrun & _
        & Hout & _ & _ & Hfail).
  { rewrite <- Hledger. injection Harr as <- <-.
    rewrite <- scan_successes_spec. compute_done. }
  injection Hresp as <- <-.
  destruct (Hfail ltac:(discriminate)) as [_ Hprior].
  by exists loc, loc', st, st', rec.
Defined.

Lemma reconciler_outcomes_witness :
  let r := examples.verified_row "1002" "invoice_DEF456.txt" "/tmp/invoice_DEF456.txt" "ok" in
  (exists (loc loc' : qbo_attach_demo.locals) (st st' : qbo_attach_demo.state nat)
          (rec : csv.row),
     reconciler_spec.arrives examples.clock (examples.always 404)
       examples.retry_state [] loc st /\
     qbo_attach_demo.process_row examples.clock (examples.always 404)
       reconciler_spec.run_writer reconciler_spec.err_writer reconciler_spec.dup_writer
       loc r st = (inr loc', st') /\
     rec !! "status_code" = Some "404" /\
     rec !! "outcome" = Some "file_missing" /\
     reconciler_spec.rows_at config.QBO_ATTACH_ERRORS_CSV (qbo_attach_demo.fs st')
     = reconciler_spec.rows_at config.QBO_ATTACH_ERRORS_CSV (qbo_attach_demo.fs st) ++ [rec]) /\
  (exists (loc_end : qbo_attach_demo.locals) (st_end : qbo_attach_demo.state nat)
          (run_app err_app : list csv.row),
     qbo_attach_demo.main examples.clock (examples.always 404) examples.retry_state
     = (inr loc_end, st_end) /\
     reconciler_spec.rows_at config.QBO_ATTACH_ERRORS_CSV (qbo_attach_demo.fs st_end)
     = err_app /\
     err_app = filter (fun rec => ~ reconciler_spec.is_skip rec /\
                                  ~ reconciler_spec.is_success rec) run_app).
Proof.
  intros r.
  destruct (reconciler_outcomes examples.clock (examples.always 404)
              examples.retry_state mapping_verifier.fieldnames [] r
              [ examples.verified_row "1001" "invoice_ABC123.txt" "/tmp/invoice_ABC123.txt" "ok" ])
    as [(loc & st & run_app & Harr & _ & Hledger & _ & Hupload)
        (loc_end & st_end & ra & ea & Hmain & _ & Herr & Hea)];
    [reflexivity | reflexivity |].
  split.
  - destruct Hupload
      as (ts & w & w' & resp & loc' & st' & rec & _ & Hresp & Hstep & Hsc & _ & _ & _ & _
          & H404 & _ & _ & Herrs).
    { rewrite <- Hledger. injection Harr as <- <-.
      rewrite <- scan_successes_spec. compute_done. }
    injection Hresp as <- <-.
    specialize (H404 eq_refl).
    rewrite decide_False in Herrs by (unfold reconciler_spec.is_success; by rewrite H404).
    by exists loc, loc', st, st', rec.
  - exists loc_end, st_end, ra, ea. split; [exact Hmain|]. split; [|exact Hea].
    by rewrite Herr.
Defined.

Lemma reconciler_missing_files_witness :
  qbo_attach_demo.main examples.clock (examples.always 200) examples.empty_state
  = (inl (py.RuntimeError
            "logs/mapping_verification_log.csv not found; run mapping_verifier first"),
     examples.empty_state) /\
  qbo_attach_demo._load_prior_successes (qbo_attach_demo.fs examples.empty_state)
  = (inr ∅, qbo_attach_demo.fs examples.empty_state).
Proof.
  destruct (reconciler_missing_files examples.clock (examples.always 200) examples.empty_state)
    as [Hinput Hledger].
  split; [apply Hinput; reflexivity | apply Hledger; reflexivity].
Defined.

(** * The tests of the repository and the scenarios of the specification,
      evaluated on the model *)

(** [tests/test_mapping_verifier.py]: two rows, the mapped one with status
    ["ok"] and target id ["1001"], the other with ["missing_mapping"] and an
    empty target id. *)
Example test_mapping_verifier_labels_ok_and_missing :
  let '(res, fs') := mapping_verifier.main examples.verifier_files in
  res = inr (1, 1) /\
  (fun v : csv.row => (v !! "legacy_txnid_norm", v !! "status", v !! "qbo_entity_id"))
    <$> reconciler_spec.rows_at config.MAPPING_VERIFICATION_LOG_CSV fs'
  = [ (Some "ABC123", Some "ok", Some "1001");
      (Some "MISSING1", Some "missing_mapping", Some "") ].
Proof. vm_compute. split; reflexivity. Qed.

(** [tests/test_qbo_attach_idempotency.py]. *)
Example test_load_prior_successes_uses_success_outcome_only :
  let ledger :=
    [ examples.ledger_row "1001" "invoice_ABC123.txt" "success";
      examples.ledger_row "1001" "invoice_ABC123.txt" "error";
      examples.ledger_row "1002" "invoice_DEF456.txt" "success" ] in
  let successes := qbo_attach_demo.scan_successes ledger in
  ("1001", "invoice_ABC123.txt") ∈ successes /\
  ("1002", "invoice_DEF456.txt") ∈ successes /\
  size successes = 2.
Proof. cbv zeta. repeat split; compute_done. Qed.

(** A run on the sample state with an upload operation that always
    succeeds: the first candidate, uploaded by an earlier run, is skipped;
    the second, which had failed, is uploaded.  A second run on the files
    the first one left skips both, calls nothing and adds two rows to the
    duplicates log. *)
Example reconciler_dedup_on_rerun :
  let '(_, st1) :=
    qbo_attach_demo.main examples.clock (examples.always 200) examples.uploader_state in
  let '(res2, st2) :=
    qbo_attach_demo.main examples.clock (examples.always 200)
      (qbo_attach_demo.State (qbo_attach_demo.fs st1) 0 []) in
  qbo_attach_demo.calls st1 = [ ("Bill", "1002", "/tmp/invoice_DEF456.txt") ] /\
  (fun rec : csv.row => rec !! "outcome")
    <$> reconciler_spec.rows_at config.QBO_ATTACH_RUNLOG_CSV (qbo_attach_demo.fs st1)
  = [ Some "success"; Some "error"; Some "skipped_already_uploaded"; Some "success" ] /\
  qbo_attach_demo.calls st2 = [] /\
  match res2 with
  | inr loc =>
      (qbo_attach_demo.total loc, qbo_attach_demo.uploaded loc,
       qbo_attach_demo.skipped loc, qbo_attach_demo.failed loc) = (2, 0, 2, 0)
  | inl _ => False
  end /\
  length (reconciler_spec.rows_at config.QBO_ATTACH_DUPS_CSV (qbo_attach_demo.fs st2)) = 3.
Proof. vm_compute. repeat split; reflexivity. Qed.

(** * Further properties of the normalizer *)

Section normalizer_more.
Import config normalizer_spec.

(** X1. The normalizer does not see the case of its input: two strings
    with the same upper-case form have the same normal form. *)
Theorem normalize_legacy_id_case_insensitive (s1 s2 : text) :
  upper s1 = upper s2 ->
  normalize_legacy_id (Some s1) = normalize_legacy_id (Some s2).
Proof. intros H. by rewrite <- (normalize_of_upper s1), <- (normalize_of_upper s2), H. Qed.

(** X2. The normalizer does not see whitespace around its input. *)
Theorem normalize_legacy_id_ignores_surrounding_whitespace (l s r : text) :
  all_space l = true -> all_space r = true ->
  normalize_legacy_id (Some (l ++ s ++ r)) = normalize_legacy_id (Some s).
Proof. intros Hl Hr. unfold normalize_legacy_id. by rewrite (strip_pad l s r Hl Hr). Qed.

(** X3. The shape of a normal form: upper-casing it changes nothing, as
    each of its characters is its own upper-case form; it does not end with
    whitespace; and it holds at most three times as many characters as the
    input (upper-casing can lengthen a text, as it does for U+00DF). *)
Theorem normalize_legacy_id_shape (s : text) :
  let n := normalize_legacy_id (Some s) in
  upper n = n /\
  Forall (fun x => upper_char x = [x]) n /\
  ends_with_space n = false /\
  length n <= 3 * length s.
Proof.
  cbv zeta. split; [apply upper_idem|]. split; [apply upper_stable|].
  split; [apply normalize_no_trailing_space|].
  unfold normalize_legacy_id.
  assert (Hlen : length (strip s) <= length s).
  { unfold strip. pose proof (rstrip_length (lstrip s)). pose proof (lstrip_length s). lia. }
  destruct (startswith (strip s) (text_of "80")) eqn:Ht.
  - destruct (startswith_80 _ Ht) as (u & Hu & ->). rewrite Hu, length_app in Hlen.
    pose proof (upper_length u). lia.
  - pose proof (upper_length (strip s)). lia.
Qed.

(** X4. The ["80"] prefix is optional: an identifier that begins neither
    with whitespace nor with ["80"] has the same normal form with the
    prefix put in front of it. *)
Theorem normalize_legacy_id_prefix_optional (s : text) :
  starts_with_space s = false ->
  startswith s (text_of "80") = false ->
  normalize_legacy_id (Some (text_of "80" ++ s)) = normalize_legacy_id (Some s).
Proof.
  intros Hsp H80. unfold normalize_legacy_id, strip.
  rewrite (lstrip_fixed s Hsp).
  change (lstrip (text_of "80" ++ s)) with (56%N :: 48%N :: s).
  rewrite !rstrip_cons_nonspace by reflexivity.
  change (startswith (56%N :: 48%N :: rstrip s) (text_of "80")) with true.
  change (slice_from 2 (56%N :: 48%N :: rstrip s)) with (rstrip s).
  assert (Hpre : startswith (rstrip s) (text_of "80") = false).
  { destruct (startswith (rstrip s) (text_of "80")) eqn:Hr; [|done].
    destruct (startswith_80 _ Hr) as (u & Hu & _).
    destruct (rstrip_split s) as (r & Hs & _). rewrite Hu in Hs. by rewrite Hs in H80. }
  by rewrite Hpre.
Qed.

End normalizer_more.

Lemma normalize_legacy_id_case_insensitive_witness :
  config.normalize_legacy_id (Some (config.text_of "80abC123"))
  = config.normalize_legacy_id (Some (config.text_of "80ABc123")).
Proof. apply normalize_legacy_id_case_insensitive. vm_compute. reflexivity. Defined.

Lemma normalize_legacy_id_ignores_surrounding_whitespace_witness :
  config.normalize_legacy_id
    (Some ([160; 32]%N ++ config.text_of "80xyz789" ++ [8195; 10]%N))
  = config.normalize_legacy_id (Some (config.text_of "80xyz789")).
Proof.
  apply normalize_legacy_id_ignores_surrounding_whitespace; vm_compute; reflexivity.
Defined.

Lemma normalize_legacy_id_prefix_optional_witness :
  config.normalize_legacy_id (Some (config.text_of "80" ++ config.text_of "abc123"))
  = config.normalize_legacy_id (Some (config.text_of "abc123")).
Proof. apply normalize_legacy_id_prefix_optional; vm_compute; reflexivity. Defined.

(** The normalizer outside ASCII: the no-break space U+00A0 is trimmed, and
    is kept when it follows the prefix; U+00DF becomes ["SS"] and U+00E9
    becomes U+00C9. *)
Example normalize_legacy_id_beyond_ascii :
  config.normalize_legacy_id (Some (160%N :: config.text_of "abc")) = config.text_of "ABC" /\
  config.normalize_legacy_id (Some (config.text_of "80" ++ 160%N :: config.text_of "abc"))
  = 160%N :: config.text_of "ABC" /\
  config.normalize_legacy_id (Some [223%N]) = config.text_of "SS" /\
  config.normalize_legacy_id (Some [233%N]) = [201%N].
Proof. vm_compute. repeat split. Qed.

(** * Errors and reruns of the mapping verifier *)

Section verifier_more.
Import config csv mapping_verifier verifier_spec verifier_errors.

Lemma mapping_row_error_None (m : row) :
  mapping_row_error m = None <-> mapping_row_ok m.
Proof.
  unfold mapping_row_error, mapping_row_ok.
  destruct (m !! "legacy_txnid_norm"), (m !! "legacy_entity_type"); split;
    try done; try (intros [[? ?] [? ?]]; done); eauto.
Qed.

Lemma attachment_row_error_None (a : row) :
  attachment_row_error a = None <-> attachment_row_ok a.
Proof.
  unfold attachment_row_error, attachment_row_ok.
  destruct (a !! "legacy_txnid_norm"), (a !! "legacy_entity_type");
    try (split; [done | intros ([? ?] & [? ?] & _); done]).
  case_bool_decide as Hdom; split.
  - eauto.
  - done.
  - done.
  - by intros (_ & _ & ?).
Qed.

Lemma first_error_None (err : row -> option py.exn) (l : list row) :
  first_error err l = None <-> Forall (fun x => err x = None) l.
Proof.
  induction l as [|x l IH]; cbn; [done|].
  destruct (err x) eqn:Hx.
  - split; [done|]. intros H. inversion H. congruence.
  - destruct (first_error err l) as [[[pre y] e]|]; split; try done.
    + intros H. inversion H as [|? ? _ Hl]. by apply IH in Hl.
    + constructor; [done | by apply IH].
Qed.

Lemma first_error_Some (err : row -> option py.exn) (l pre : list row) (x : row)
  (e : py.exn) :
  first_error err l = Some (pre, x, e) ->
  exists post, l = pre ++ x :: post /\ Forall (fun y => err y = None) pre /\ err x = Some e.
Proof.
  revert pre. induction l as [|y l IH]; intros pre; cbn; [done|].
  destruct (err y) eqn:Hy.
  - intros [= <- <- <-]. by exists l.
  - destruct (first_error err l) as [[[pre' z] e']|]; [|done].
    intros [= <- <- <-]. destruct (IH pre' eq_refl) as (post & -> & Hpre & Hx).
    exists post. auto.
Qed.

Lemma load_mapping_bad_row (M1 : list row) (m : row) (M2 : list row) (e : py.exn)
  (acc : gmap (string * string) row) (fs : files) :
  Forall mapping_row_ok M1 ->
  mapping_row_error m = Some e ->
  py.for_each
    (fun (mapping : gmap (string * string) row) (row : row) =>
       py.bind (getitem row "legacy_txnid_norm") (fun k1 =>
       py.bind (getitem row "legacy_entity_type") (fun k2 =>
       py.ret (<[(k1, k2) := row]> mapping))))
    acc (M1 ++ m :: M2) fs
  = (inl e, fs).
Proof.
  intros HM1 Hm. rewrite for_each_app.
  erewrite bind_inr by (by apply load_mapping_loop).
  cbn [py.for_each]. apply bind_inl.
  unfold mapping_row_error in Hm. unfold py.bind, getitem.
  destruct (m !! "legacy_txnid_norm"); [|by injection Hm as <-].
  destruct (m !! "legacy_entity_type"); [done | by injection Hm as <-].
Qed.

Lemma main_bad_mapping_row (fs : files) (names : list string)
  (M1 : list row) (m : row) (M2 : list row) (e : py.exn) :
  fs !! MAPPING_EXPORT_CSV = Some (CsvFile names (M1 ++ m :: M2)) ->
  Forall mapping_row_ok M1 ->
  mapping_row_error m = Some e ->
  main fs = (inl e, fs).
Proof.
  intros Hf HM1 Hm. unfold main. apply bind_inl. unfold _load_mapping.
  erewrite bind_inr by (unfold open_reader; by rewrite Hf).
  by apply load_mapping_bad_row.
Qed.

Lemma main_missing_inventory (fs : files) (names : list string) (M : list row) :
  fs !! MAPPING_EXPORT_CSV = Some (CsvFile names M) ->
  Forall mapping_row_ok M ->
  fs !! ATTACHMENTS_INVENTORY_CSV = None ->
  main fs = (inl (py.FileNotFoundError ATTACHMENTS_INVENTORY_CSV), fs).
Proof.
  intros HM HMok HA. unfold main.
  erewrite bind_inr by (by eapply load_mapping_ok).
  apply bind_inl. unfold open_reader. by rewrite HA.
Qed.

Lemma verify_row_bad (index : gmap (string * string) row) (a : row) (e : py.exn)
  (counts : nat * nat) (fs : files) :
  attachment_row_error a = Some e ->
  verify_row index log_writer counts a fs = (inl e, fs).
Proof.
  intros Ha. unfold attachment_row_error in Ha. destruct counts as [ok missing].
  unfold verify_row, py.bind, getitem.
  destruct (a !! "legacy_txnid_norm") as [k1|]; [|by injection Ha as <-].
  destruct (a !! "legacy_entity_type") as [k2|]; [|by injection Ha as <-].
  case_bool_decide as Hdom; [done|]. injection Ha as <-.
  cbn [py.ret]. unfold writerow.
  destruct (index !! (k1, k2)) as [m|].
  - rewrite bool_decide_eq_false_2; [done|].
    intros H. apply Hdom. etrans; [|exact H]. rewrite !dom_insert. set_solver+.
  - rewrite bool_decide_eq_false_2; [done|].
    intros H. apply Hdom. etrans; [|exact H]. rewrite !dom_insert. set_solver+.
Qed.

Lemma main_bad_inventory_row (fs : files) (map_names inv_names : list string)
  (M A1 : list row) (a : row) (A2 : list row) (e : py.exn) :
  fs !! MAPPING_EXPORT_CSV = Some (CsvFile map_names M) ->
  fs !! ATTACHMENTS_INVENTORY_CSV = Some (CsvFile inv_names (A1 ++ a :: A2)) ->
  Forall mapping_row_ok M ->
  Forall attachment_row_ok A1 ->
  attachment_row_error a = Some e ->
  main fs
  = (inl e, <[MAPPING_VERIFICATION_LOG_CSV := CsvFile fieldnames (verified_lines M A1)]> fs).
Proof.
  intros HM HA HMok HA1 Ha. unfold main.
  erewrite bind_inr by (by eapply load_mapping_ok).
  erewrite bind_inr by (unfold open_reader; by rewrite HA).
  erewrite bind_inr by reflexivity.
  erewrite bind_inr by reflexivity.
  rewrite alter_Some with (x := CsvFile [] []) by apply lookup_insert_eq.
  rewrite insert_insert_eq. cbn [rows w_fieldnames w_path].
  apply bind_inl. rewrite for_each_app.
  erewrite bind_inr by (by apply verify_loop; [|apply lookup_insert_eq]).
  rewrite insert_insert_eq. cbn [py.for_each app].
  apply bind_inl. by apply verify_row_bad.
Qed.

Lemma Forall_row_ok_mapping (M : list row) :
  Forall (fun m => mapping_row_error m = None) M -> Forall mapping_row_ok M.
Proof.
  intros H. eapply Forall_impl; [exact H|]. intros m. apply mapping_row_error_None.
Qed.

Lemma Forall_row_ok_attachment (A : list row) :
  Forall (fun a => attachment_row_error a = None) A -> Forall attachment_row_ok A.
Proof.
  intros H. eapply Forall_impl; [exact H|]. intros a. apply attachment_row_error_None.
Qed.

(** A run that completes had both input files, with rows that carry what
    the verifier needs. *)
Lemma main_completes_inv (fs fs' : files) (counts : nat * nat) :
  main fs = (inr counts, fs') ->
  exists (map_names inv_names : list string) (M A : list row),
    fs !! MAPPING_EXPORT_CSV = Some (CsvFile map_names M) /\
    fs !! ATTACHMENTS_INVENTORY_CSV = Some (CsvFile inv_names A) /\
    Forall mapping_row_ok M /\ Forall attachment_row_ok A.
Proof.
  intros Hmain.
  destruct (fs !! MAPPING_EXPORT_CSV) as [[map_names M]|] eqn:HM; cycle 1.
  { by rewrite (main_missing_mapping_export fs HM) in Hmain. }
  destruct (first_error mapping_row_error M) as [[[M1 m] e]|] eqn:HMe.
  { destruct (first_error_Some _ _ _ _ _ HMe) as (M2 & -> & HM1 & Hm).
    by rewrite (main_bad_mapping_row fs _ _ _ _ _ HM (Forall_row_ok_mapping _ HM1) Hm)
      in Hmain. }
  apply first_error_None, Forall_row_ok_mapping in HMe.
  destruct (fs !! ATTACHMENTS_INVENTORY_CSV) as [[inv_names A]|] eqn:HA; cycle 1.
  { by rewrite (main_missing_inventory fs _ _ HM HMe HA) in Hmain. }
  destruct (first_error attachment_row_error A) as [[[A1 a] e]|] eqn:HAe.
  { destruct (first_error_Some _ _ _ _ _ HAe) as (A2 & -> & HA1 & Ha).
    by rewrite (main_bad_inventory_row fs _ _ _ _ _ _ _ HM HA HMe
                  (Forall_row_ok_attachment _ HA1) Ha) in Hmain. }
  apply first_error_None, Forall_row_ok_attachment in HAe.
  by exists map_names, inv_names, M, A.
Qed.

(** X5. The verifier completes exactly on well-formed inputs: a run returns
    normally if and only if the mapping export and the inventory both exist,
    every mapping row carries the two join-key columns, and every inventory
    row carries them and has no column that the log does not have. *)
Theorem verifier_completes_iff (fs : files) :
  (exists (counts : nat * nat) (fs' : files), main fs = (inr counts, fs')) <->
  (exists (map_names inv_names : list string) (M A : list row),
      fs !! MAPPING_EXPORT_CSV = Some (CsvFile map_names M) /\
      fs !! ATTACHMENTS_INVENTORY_CSV = Some (CsvFile inv_names A) /\
      Forall mapping_row_ok M /\ Forall attachment_row_ok A).
Proof.
  split.
  - intros (counts & fs' & Hmain). by eapply main_completes_inv.
  - intros (map_names & inv_names & M & A & HM & HA & HMok & HAok).
    eexists _, _. by apply (main_ok fs map_names inv_names M A).
Qed.

(** X6. The verifier fails before it writes anything when the mapping
    export is missing, when a mapping row lacks a join-key column
    ([KeyError] with the first column that the first such row lacks), or
    when the inventory is missing: the files, the old verification log
    among them, are left as they were. *)
Theorem verifier_fails_before_writing (fs : files) :
  (fs !! MAPPING_EXPORT_CSV = None ->
   main fs = (inl (py.FileNotFoundError MAPPING_EXPORT_CSV), fs)) /\
  (forall (names : list string) (M1 : list row) (m : row) (M2 : list row) (e : py.exn),
      fs !! MAPPING_EXPORT_CSV = Some (CsvFile names (M1 ++ m :: M2)) ->
      Forall mapping_row_ok M1 ->
      mapping_row_error m = Some e ->
      main fs = (inl e, fs)) /\
  (forall (names : list string) (M : list row),
      fs !! MAPPING_EXPORT_CSV = Some (CsvFile names M) ->
      Forall mapping_row_ok M ->
      fs !! ATTACHMENTS_INVENTORY_CSV = None ->
      main fs = (inl (py.FileNotFoundError ATTACHMENTS_INVENTORY_CSV), fs)).
Proof.
  split; [apply main_missing_mapping_export|].
  split; [apply main_bad_mapping_row | apply main_missing_inventory].
Qed.

(** X7. A bad inventory row stops the verifier midway: when the row [a],
    after the well-formed rows [A1], lacks a join-key column or has a column
    that the log has not, the run raises the error of [a] and leaves a
    verification log that was emptied and holds the VerifiedRecords of [A1]
    only; no other file, the skips file included, is touched. *)
Theorem verifier_bad_inventory_row (fs : files) (map_names inv_names : list string)
  (M A1 : list row) (a : row) (A2 : list row) (e : py.exn) :
  fs !! MAPPING_EXPORT_CSV = Some (CsvFile map_names M) ->
  fs !! ATTACHMENTS_INVENTORY_CSV = Some (CsvFile inv_names (A1 ++ a :: A2)) ->
  Forall mapping_row_ok M ->
  Forall attachment_row_ok A1 ->
  attachment_row_error a = Some e ->
  exists (V : list row) (fs' : files),
    main fs = (inl e, fs') /\
    fs' !! MAPPING_VERIFICATION_LOG_CSV = Some (CsvFile fieldnames V) /\
    Forall2 (verified M) A1 V /\
    (forall p, p <> MAPPING_VERIFICATION_LOG_CSV -> fs' !! p = fs !! p).
Proof.
  intros HM HA HMok HA1 Ha. eexists _, _.
  split; [by eapply main_bad_inventory_row|].
  split; [apply lookup_insert_eq|]. split.
  - unfold verified_lines. clear. induction A1; constructor; auto using verified_line_verified.
  - intros p Hp. by rewrite lookup_insert_ne.
Qed.

(** X8. Running the verifier again changes nothing: a run that completes
    leaves every file but the verification log and the skips file as it
    was, and a second run on the files it leaves returns the same counts
    and leaves the same files. *)
Theorem verifier_rerun_idempotent (fs fs' : files) (counts : nat * nat) :
  main fs = (inr counts, fs') ->
  main fs' = (inr counts, fs') /\
  (forall p, p <> MAPPING_VERIFICATION_LOG_CSV -> p <> MAPPING_VERIFICATION_SKIPS_CSV ->
             fs' !! p = fs !! p).
Proof.
  intros Hmain.
  destruct (main_completes_inv _ _ _ Hmain)
    as (map_names & inv_names & M & A & HM & HA & HMok & HAok).
  pose proof (main_ok fs map_names inv_names M A HM HA HMok HAok) as Hfs.
  cbv zeta in Hfs. rewrite Hmain in Hfs. injection Hfs as -> ->.
  set (log := CsvFile fieldnames ((fun a => verified_line (index_of M !! join_key a) a) <$> A)).
  split.
  - assert (HM' : <[MAPPING_VERIFICATION_SKIPS_CSV := skips_header_only]>
                    (<[MAPPING_VERIFICATION_LOG_CSV := log]> fs) !! MAPPING_EXPORT_CSV
                  = Some (CsvFile map_names M)) by (by rewrite !lookup_insert_ne).
    assert (HA' : <[MAPPING_VERIFICATION_SKIPS_CSV := skips_header_only]>
                    (<[MAPPING_VERIFICATION_LOG_CSV := log]> fs) !! ATTACHMENTS_INVENTORY_CSV
                  = Some (CsvFile inv_names A)) by (by rewrite !lookup_insert_ne).
    pose proof (main_ok _ map_names inv_names M A HM' HA' HMok HAok) as Hagain.
    cbv zeta in Hagain. rewrite Hagain. fold log. f_equal.
    apply map_eq. intros p. rewrite !lookup_insert. by repeat case_decide.
  - intros p Hlog Hskip. by rewrite !lookup_insert_ne.
Qed.

End verifier_more.

Lemma verifier_bad_inventory_row_witness :
  let bad : csv.row := <["legacy_txnid_norm" := "DEF456"]> ∅ in
  let good := examples.attachment_row "ABC123" "Bill" "80ABC123" "invoice_ABC123.txt"
                "/tmp/invoice_ABC123.txt" in
  let fs := <[config.ATTACHMENTS_INVENTORY_CSV := csv.CsvFile [] [good; bad; good]]>
              examples.verifier_files in
  exists (V : list csv.row) (fs' : csv.files),
    mapping_verifier.main fs = (inl (py.KeyError "legacy_entity_type"), fs') /\
    fs' !! config.MAPPING_VERIFICATION_LOG_CSV
    = Some (csv.CsvFile mapping_verifier.fieldnames V) /\
    Forall2 (verifier_spec.verified [ examples.mapping_row "ABC123" "Bill" "1001" ])
      [good] V /\
    (forall p, p <> config.MAPPING_VERIFICATION_LOG_CSV -> fs' !! p = fs !! p).
Proof.
  intros bad good fs.
  apply (verifier_bad_inventory_row fs
           [ "legacy_txnid_norm"; "legacy_entity_type"; "qbo_entity_type"; "qbo_entity_id" ]
           [] [ examples.mapping_row "ABC123" "Bill" "1001" ] [good] bad [good]).
  - reflexivity.
  - reflexivity.
  - repeat constructor; eexists; reflexivity.
  - repeat constructor; try (eexists; reflexivity); compute_done.
  - reflexivity.
Defined.

Lemma verifier_fails_before_writing_witness :
  mapping_verifier.main ∅ = (inl (py.FileNotFoundError config.MAPPING_EXPORT_CSV), ∅) /\
  (let fs : csv.files :=
     <[config.MAPPING_EXPORT_CSV :=
         csv.CsvFile [] [ examples.mapping_row "ABC123" "Bill" "1001";
                          <["legacy_entity_type" := "Bill"]> ∅ ]]> ∅ in
   mapping_verifier.main fs = (inl (py.KeyError "legacy_txnid_norm"), fs)) /\
  (let fs : csv.files :=
     <[config.MAPPING_EXPORT_CSV :=
         csv.CsvFile [] [ examples.mapping_row "ABC123" "Bill" "1001" ]]> ∅ in
   mapping_verifier.main fs
   = (inl (py.FileNotFoundError config.ATTACHMENTS_INVENTORY_CSV), fs)).
Proof.
  split; [|split].
  - apply (verifier_fails_before_writing ∅). reflexivity.
  - intros fs.
    destruct (verifier_fails_before_writing fs) as (_ & Hrow & _).
    apply (Hrow [] [ examples.mapping_row "ABC123" "Bill" "1001" ]
             (<["legacy_entity_type" := "Bill"]> ∅) []); [reflexivity | | reflexivity].
    repeat constructor; eexists; reflexivity.
  - intros fs.
    destruct (verifier_fails_before_writing fs) as (_ & _ & Hinv).
    apply (Hinv [] [ examples.mapping_row "ABC123" "Bill" "1001" ]); [reflexivity | | reflexivity].
    repeat constructor; eexists; reflexivity.
Defined.

Lemma verifier_rerun_idempotent_witness :
  let fs' := (mapping_verifier.main examples.verifier_files).2 in
  mapping_verifier.main fs' = (inr (1, 1), fs') /\
  (forall p, p <> config.MAPPING_VERIFICATION_LOG_CSV ->
             p <> config.MAPPING_VERIFICATION_SKIPS_CSV ->
             fs' !! p = examples.verifier_files !! p).
Proof.
  intros fs'. apply (verifier_rerun_idempotent examples.verifier_files fs' (1, 1)).
  subst fs'. vm_compute. reflexivity.
Defined.

(** ** The skips file after a run *)

Section verifier_skips.
Import config csv mapping_verifier verifier_spec verifier_errors.

(** A run that raises has not reached the skips file: it raises while it
    reads the mapping export, when it opens the inventory, or at a row of
    the inventory, and the only file it may have written to by then is
    the verification log. *)
Lemma main_raises_skips (fs fs' : files) (e : py.exn) :
  main fs = (inl e, fs') ->
  fs' !! MAPPING_VERIFICATION_SKIPS_CSV = fs !! MAPPING_VERIFICATION_SKIPS_CSV.
Proof.
  intros Hmain.
  destruct (fs !! MAPPING_EXPORT_CSV) as [[map_names M]|] eqn:HM; cycle 1.
  { rewrite (main_missing_mapping_export fs HM) in Hmain. by injection Hmain as _ <-. }
  destruct (first_error mapping_row_error M) as [[[M1 m] e1]|] eqn:HMe.
  { destruct (first_error_Some _ _ _ _ _ HMe) as (M2 & -> & HM1 & Hm).
    rewrite (main_bad_mapping_row fs _ _ _ _ _ HM (Forall_row_ok_mapping _ HM1) Hm) in Hmain.
    by injection Hmain as _ <-. }
  apply first_error_None, Forall_row_ok_mapping in HMe.
  destruct (fs !! ATTACHMENTS_INVENTORY_CSV) as [[inv_names A]|] eqn:HA; cycle 1.
  { rewrite (main_missing_inventory fs _ _ HM HMe HA) in Hmain. by injection Hmain as _ <-. }
  destruct (first_error attachment_row_error A) as [[[A1 a] e1]|] eqn:HAe.
  { destruct (first_error_Some _ _ _ _ _ HAe) as (A2 & -> & HA1 & Ha).
    rewrite (main_bad_inventory_row fs _ _ _ _ _ _ _ HM HA HMe
               (Forall_row_ok_attachment _ HA1) Ha) in Hmain.
    injection Hmain as _ <-. by rewrite lookup_insert_ne. }
  apply first_error_None, Forall_row_ok_attachment in HAe.
  pose proof (main_ok fs map_names inv_names M A HM HA HMe HAe) as Hok.
  cbv zeta in Hok. rewrite Hok in Hmain. discriminate.
Qed.

(** C10, as the code has it.  A run of the verifier that returns leaves
    the skips file with exactly its header line and no data line, whatever
    the file held before and whatever the attachments are; a run that
    raises leaves the skips file as it was, what it held or that it did not
    exist: the file is opened for writing only after the loop over the
    inventory. *)
Theorem verifier_skips_after_run (fs fs' : files) (res : py.exn + nat * nat) :
  main fs = (res, fs') ->
  match res with
  | inr _ => fs' !! MAPPING_VERIFICATION_SKIPS_CSV = Some (CsvFile skip_fieldnames [])
  | inl _ => fs' !! MAPPING_VERIFICATION_SKIPS_CSV = fs !! MAPPING_VERIFICATION_SKIPS_CSV
  end.
Proof.
  destruct res as [e|counts]; intros Hmain.
  - by eapply main_raises_skips.
  - by eapply main_completed_skips.
Qed.

End verifier_skips.

(** C10 fails as the specification states it: on the files of the test of
    the verifier without the mapping export, the run raises
    [FileNotFoundError] and the skips file still holds the data row that
    an earlier run left. *)
Lemma verifier_skips_kept_on_error :
  let fs := delete config.MAPPING_EXPORT_CSV examples.verifier_files in
  exists fs' : csv.files,
    mapping_verifier.main fs = (inl (py.FileNotFoundError config.MAPPING_EXPORT_CSV), fs') /\
    fs' !! config.MAPPING_VERIFICATION_SKIPS_CSV
    = Some (csv.CsvFile mapping_verifier.skip_fieldnames
              [ <["legacy_txnid_norm" := "OLD"]> (<["reason" := "stale"]> ∅) ]) /\
    fs' !! config.MAPPING_VERIFICATION_SKIPS_CSV
    <> Some (csv.CsvFile mapping_verifier.skip_fieldnames []).
Proof.
  intros fs. exists fs. split; [exact (main_missing_mapping_export fs eq_refl)|].
  assert (H : fs !! config.MAPPING_VERIFICATION_SKIPS_CSV
              = Some (csv.CsvFile mapping_verifier.skip_fieldnames
                        [ <["legacy_txnid_norm" := "OLD"]> (<["reason" := "stale"]> ∅) ]))
    by reflexivity.
  split; [exact H|]. rewrite H. intros Heq. discriminate Heq.
Qed.

Lemma verifier_skips_after_run_witness :
  (exists (counts : nat * nat) (fs' : csv.files),
      mapping_verifier.main examples.verifier_files = (inr counts, fs') /\
      fs' !! config.MAPPING_VERIFICATION_SKIPS_CSV
      = Some (csv.CsvFile mapping_verifier.skip_fieldnames [])) /\
  (let fs := delete config.MAPPING_EXPORT_CSV examples.verifier_files in
   exists (e : py.exn) (fs' : csv.files),
     mapping_verifier.main fs = (inl e, fs') /\
     fs' !! config.MAPPING_VERIFICATION_SKIPS_CSV
     = fs !! config.MAPPING_VERIFICATION_SKIPS_CSV).
Proof.
  split.
  - assert (Hmain := main_ok examples.verifier_files
           [ "legacy_txnid_norm"; "legacy_entity_type"; "qbo_entity_type"; "qbo_entity_id" ]
           [ "legacy_txnid_norm"; "legacy_entity_type"; "raw_legacy_id"; "file_name";
             "file_path" ]
           [ examples.mapping_row "ABC123" "Bill" "1001" ]
           [ examples.attachment_row "ABC123" "Bill" "80ABC123" "invoice_ABC123.txt"
               "/tmp/invoice_ABC123.txt";
             examples.attachment_row "MISSING1" "Bill" "80MISSING1" "invoice_missing.txt"
               "/tmp/invoice_missing.txt" ]
           eq_refl eq_refl).
    cbv zeta in Hmain. eexists _, _. split.
    + apply Hmain.
      * repeat constructor; eexists; reflexivity.
      * repeat constructor; try (eexists; reflexivity); compute_done.
    + refine (verifier_skips_after_run _ _ (inr _) (Hmain _ _)).
      * repeat constructor; eexists; reflexivity.
      * repeat constructor; try (eexists; reflexivity); compute_done.
  - intros fs. eexists _, _. split.
    + exact (main_missing_mapping_export fs eq_refl).
    + exact (verifier_skips_after_run _ _ (inl _) (main_missing_mapping_export fs eq_refl)).
Defined.

(** * Whole runs of the upload reconciler *)

Section reconciler_more.
Import config csv fake_qbo_api qbo_attach_demo reconciler_spec.
Context {World : Type}.
Variable _now_iso : World -> string * World.
Variable attach_file : string -> string -> string -> World -> FakeQboResponse * World.

Abbreviation process_row' :=
  (qbo_attach_demo.process_row _now_iso attach_file run_writer err_writer dup_writer).
Abbreviation main' := (qbo_attach_demo.main _now_iso attach_file).

(** The three ways the loop body ends, with the state each leaves. *)
Lemma process_row_cases (loc : locals) (r : row) (st : state World) :
  ready (fs st) ->
  (~ candidate r /\ process_row' loc r st = (inr loc, st)) \/
  (candidate r /\ key_of r ∈ prior_successes loc /\
   exists (ts : string) (w : World) (fr fd : csv_file),
     fs st !! QBO_ATTACH_RUNLOG_CSV = Some fr /\
     fs st !! QBO_ATTACH_DUPS_CSV = Some fd /\
     process_row' loc r st
     = (inr (Locals (prior_successes loc) (S (total loc)) (uploaded loc)
               (S (skipped loc)) (failed loc)),
        State (<[QBO_ATTACH_DUPS_CSV := with_appended [skip_record ts r] fd]>
                 (<[QBO_ATTACH_RUNLOG_CSV := with_appended [skip_record ts r] fr]> (fs st)))
          w (calls st))) \/
  (candidate r /\ (key_of r ∉ prior_successes loc) /\
   exists (ts : string) (w' : World) (resp : FakeQboResponse) (fr fe : csv_file),
     fs st !! QBO_ATTACH_RUNLOG_CSV = Some fr /\
     fs st !! QBO_ATTACH_ERRORS_CSV = Some fe /\
     process_row' loc r st
     = (inr (if (status_code resp =? 200)%Z
             then Locals (prior_successes loc ∪ {[ key_of r ]}) (S (total loc))
                    (S (uploaded loc)) (skipped loc) (failed loc)
             else Locals (prior_successes loc) (S (total loc))
                    (uploaded loc) (skipped loc) (S (failed loc))),
        State (if (status_code resp =? 200)%Z
               then <[QBO_ATTACH_RUNLOG_CSV := with_appended [attempt_record ts r resp] fr]>
                      (fs st)
               else <[QBO_ATTACH_ERRORS_CSV := with_appended [attempt_record ts r resp] fe]>
                      (<[QBO_ATTACH_RUNLOG_CSV := with_appended [attempt_record ts r resp] fr]>
                         (fs st)))
          w' (calls st ++ [upload_args r]))).
Proof.
  intros ([fr Hfr] & [fe Hfe] & [fd Hfd]).
  destruct (decide (candidate r)) as [Hr|Hr]; [|left; split; [done|by apply process_row_other]].
  right. destruct (_now_iso (world st)) as [ts w] eqn:Hts.
  destruct (decide (key_of r ∈ prior_successes loc)) as [Hk|Hk].
  - left. split; [done|]. split; [done|]. exists ts, w, fr, fd.
    split; [done|]. split; [done|]. by apply process_row_skip.
  - right. split; [done|]. split; [done|].
    destruct (attach_file (get r "qbo_entity_type" "") (get r "qbo_entity_id" "")
                (get r "file_path" "") w) as [resp w'] eqn:Hresp.
    exists ts, w', resp, fr, fe. split; [done|]. split; [done|].
    by apply (process_row_upload _now_iso attach_file loc r st ts w w' resp fr fe).
Qed.

(** Induction over the loop: a property of the rows processed, the local
    variables and the state that holds at the start and is kept by each
    pass through the body holds when the loop ends. *)
Lemma loop_ind (I : list row -> locals -> state World -> Prop)
  (loc0 : locals) (st0 : state World) :
  ready (fs st0) ->
  consistent (prior_successes loc0) (fs st0) ->
  I [] loc0 st0 ->
  (forall (pre : list row) (r : row) (loc : locals) (st : state World)
          (loc' : locals) (st' : state World),
      ready (fs st) -> consistent (prior_successes loc) (fs st) ->
      I pre loc st -> process_row' loc r st = (inr loc', st') -> I (pre ++ [r]) loc' st') ->
  forall (rows : list row) (loc : locals) (st : state World),
    py.for_each process_row' loc0 rows st0 = (inr loc, st) ->
    I rows loc st /\ ready (fs st) /\ consistent (prior_successes loc) (fs st).
Proof.
  intros Hready0 Hcons0 HI0 Hstep rows.
  induction rows as [|r rows IH] using rev_ind; intros loc st Hloop.
  - injection Hloop as <- <-. done.
  - rewrite for_each_app in Hloop.
    destruct (loop_spec _now_iso attach_file rows loc0 st0 Hready0 Hcons0)
      as (loc1 & st1 & ra & ea & da & ca & Hpre & _).
    rewrite (bind_inr _ _ _ _ _ Hpre) in Hloop.
    destruct (IH loc1 st1 Hpre) as (HI1 & Hready1 & Hcons1).
    destruct (process_row_spec _now_iso attach_file loc1 r st1 Hready1 Hcons1)
      as (loc2 & st2 & r2 & e2 & d2 & c2 & Hrow & Happ & _ & Hcons2 & _).
    cbn [py.for_each] in Hloop. rewrite (bind_inr _ _ _ _ _ Hrow) in Hloop.
    injection Hloop as <- <-.
    split; [by eapply Hstep|]. split; [by eapply appended_ready | done].
Qed.

Lemma loop_start_ready (st0 : state World) : ready (fs (loop_start st0).2).
Proof. apply opened_ready. Qed.

Lemma loop_start_consistent (st0 : state World) :
  consistent (prior_successes (loop_start st0).1) (fs (loop_start st0).2).
Proof.
  intros k. cbn. unfold ledger_of. rewrite opened_rows_at. apply scan_successes_spec.
Qed.

Lemma filter_snoc_length {A : Type} (P : A -> Prop) `{forall x, Decision (P x)}
  (l : list A) (x : A) :
  length (filter P (l ++ [x])) = length (filter P l) + (if decide (P x) then 1 else 0).
Proof.
  rewrite filter_app, length_app, filter_cons, filter_nil. by destruct (decide (P x)).
Qed.

(** The counters and the lengths of the logs move together through the
    loop. *)
Lemma loop_counts (st0 : state World) (rows : list row) (loc : locals) (st : state World) :
  py.for_each process_row' (loop_start st0).1 rows (loop_start st0).2 = (inr loc, st) ->
  total loc = length (filter candidate rows) /\
  total loc = uploaded loc + skipped loc + failed loc /\
  length (rows_at QBO_ATTACH_RUNLOG_CSV (fs st))
  = length (rows_at QBO_ATTACH_RUNLOG_CSV (fs st0)) + total loc /\
  length (rows_at QBO_ATTACH_DUPS_CSV (fs st))
  = length (rows_at QBO_ATTACH_DUPS_CSV (fs st0)) + skipped loc /\
  length (rows_at QBO_ATTACH_ERRORS_CSV (fs st))
  = length (rows_at QBO_ATTACH_ERRORS_CSV (fs st0)) + failed loc /\
  length (filter is_success (rows_at QBO_ATTACH_RUNLOG_CSV (fs st)))
  = length (filter is_success (rows_at QBO_ATTACH_RUNLOG_CSV (fs st0))) + uploaded loc /\
  length (calls st) = length (calls st0) + uploaded loc + failed loc.
Proof.
  intros Hloop.
  apply (loop_ind
           (fun rows loc st =>
              total loc = length (filter candidate rows) /\
              total loc = uploaded loc + skipped loc + failed loc /\
              length (rows_at QBO_ATTACH_RUNLOG_CSV (fs st))
              = length (rows_at QBO_ATTACH_RUNLOG_CSV (fs st0)) + total loc /\
              length (rows_at QBO_ATTACH_DUPS_CSV (fs st))
              = length (rows_at QBO_ATTACH_DUPS_CSV (fs st0)) + skipped loc /\
              length (rows_at QBO_ATTACH_ERRORS_CSV (fs st))
              = length (rows_at QBO_ATTACH_ERRORS_CSV (fs st0)) + failed loc /\
              length (filter is_success (rows_at QBO_ATTACH_RUNLOG_CSV (fs st)))
              = length (filter is_success (rows_at QBO_ATTACH_RUNLOG_CSV (fs st0)))
                + uploaded loc /\
              length (calls st) = length (calls st0) + uploaded loc + failed loc)
           _ _ (loop_start_ready st0) (loop_start_consistent st0)) in Hloop; [tauto| |].
  - cbn. rewrite !opened_rows_at. lia.
  - clear. intros pre r loc st loc' st' Hready _ (Ht & Hsum & Hrun & Hdup & Herr & Hsucc & Hcalls)
      Hrow.
    rewrite filter_snoc_length.
    destruct (process_row_cases loc r st Hready)
      as [[Hr Hc]|[(Hr & Hk & ts & w & fr & fd & Hfr & Hfd & Hc)
                  |(Hr & Hk & ts & w' & resp & fr & fe & Hfr & Hfe & Hc)]];
      rewrite Hc in Hrow; injection Hrow as <- <-.
    + rewrite decide_False by done. repeat (split; [lia|]); lia.
    + rewrite decide_True by done.
      pose proof (skip_record_not_success ts r) as Hns.
      generalize dependent (skip_record ts r). intros rec Hns.
      revert Hrun Hdup Herr Hsucc. unfold rows_at. cbn [fs calls total uploaded skipped failed].
      rewrite Hfr, Hfd. simplify_map_eq. cbn [from_option rows with_appended].
      intros Hrun Hdup Herr Hsucc Hnot.
      rewrite filter_snoc_length, !length_app, decide_False by done. cbn [length].
      repeat (split; [lia|]); lia.
    + rewrite decide_True by done.
      pose proof (attempt_record_success ts r resp) as Hs.
      generalize dependent (attempt_record ts r resp). intros rec Hs.
      revert Hrun Hdup Herr Hsucc. unfold rows_at.
      destruct (Z.eqb_spec (status_code resp) 200) as [Hcode|Hcode];
        cbn [fs calls total uploaded skipped failed]; rewrite Hfr, ?Hfe; simplify_map_eq;
        cbn [from_option rows with_appended];
        intros Hrun Hdup Herr Hsucc Hiff;
        rewrite filter_snoc_length, !length_app; cbn [length].
      * rewrite decide_True by (by apply Hiff). repeat (split; [lia|]); lia.
      * rewrite decide_False by (by rewrite Hiff). repeat (split; [lia|]); lia.
Qed.

(** X9. The summary of a run.  On a verification log with rows [rows] the
    run completes, and the counters it reports account for the rows and
    for the logs: [total] is the number of candidates (rows with status
    ["ok"]) and the sum of [uploaded], [skipped] and [failed]; the ledger
    grows by [total] rows, of which [uploaded] are successes, the
    duplicates log by [skipped] rows and the errors log by [failed] rows;
    and the upload operation is called [uploaded + failed] times. *)
Theorem reconciler_summary_counts (st0 : state World) (vnames : list string)
  (rows : list row) :
  fs st0 !! MAPPING_VERIFICATION_LOG_CSV = Some (CsvFile vnames rows) ->
  exists (loc : locals) (st : state World),
    main' st0 = (inr loc, st) /\
    total loc = length (filter candidate rows) /\
    total loc = uploaded loc + skipped loc + failed loc /\
    length (rows_at QBO_ATTACH_RUNLOG_CSV (fs st))
    = length (rows_at QBO_ATTACH_RUNLOG_CSV (fs st0)) + total loc /\
    length (rows_at QBO_ATTACH_DUPS_CSV (fs st))
    = length (rows_at QBO_ATTACH_DUPS_CSV (fs st0)) + skipped loc /\
    length (rows_at QBO_ATTACH_ERRORS_CSV (fs st))
    = length (rows_at QBO_ATTACH_ERRORS_CSV (fs st0)) + failed loc /\
    length (filter is_success (rows_at QBO_ATTACH_RUNLOG_CSV (fs st)))
    = length (filter is_success (rows_at QBO_ATTACH_RUNLOG_CSV (fs st0))) + uploaded loc /\
    length (calls st) = length (calls st0) + uploaded loc + failed loc.
Proof.
  intros Hv.
  destruct (loop_spec _now_iso attach_file rows _ _ (loop_start_ready st0)
              (loop_start_consistent st0)) as (loc & st & ra & ea & da & ca & Hloop & _).
  exists loc, st. split; [by rewrite (main_unfold _ _ _ _ _ Hv)|].
  by apply loop_counts.
Qed.

Lemma success_keys_snoc (L : list row) (rec : row) :
  reconciler_runs.success_keys (L ++ [rec])
  = reconciler_runs.success_keys L ++ (if decide (is_success rec) then [key_of rec] else []).
Proof.
  unfold reconciler_runs.success_keys.
  rewrite filter_app, fmap_app, filter_cons, filter_nil. by destruct (decide _).
Qed.

Lemma elem_of_success_keys (L : list row) (k : string * string) :
  k ∈ reconciler_runs.success_keys L <-> has_success L k.
Proof.
  unfold reconciler_runs.success_keys, has_success. rewrite list_elem_of_fmap. split.
  - intros (rec & -> & [Hs Hin]%list_elem_of_filter). by exists rec.
  - intros (rec & Hin & Hs & <-). exists rec. split; [done|]. by apply list_elem_of_filter.
Qed.

Lemma ledger_after_append (files : files) (fr : csv_file) (rec : row) :
  files !! QBO_ATTACH_RUNLOG_CSV = Some fr ->
  ledger_of (<[QBO_ATTACH_RUNLOG_CSV := with_appended [rec] fr]> files)
  = ledger_of files ++ [rec].
Proof. intros Hfr. unfold ledger_of, rows_at. by rewrite lookup_insert_eq, Hfr. Qed.

Lemma ledger_after_other (files : files) (p : string) (f : csv_file) :
  p <> QBO_ATTACH_RUNLOG_CSV ->
  ledger_of (<[p := f]> files) = ledger_of files.
Proof. intros Hp. unfold ledger_of, rows_at. by rewrite lookup_insert_ne. Qed.

(** What a pass through the body adds to the ledger: nothing for a row
    that is not a candidate, a skip record for a candidate whose key is in
    the set, and otherwise an attempt record, a success exactly when the key
    enters the set. *)
Lemma process_row_ledger (loc : locals) (r : row) (st : state World)
  (loc' : locals) (st' : state World) :
  ready (fs st) ->
  process_row' loc r st = (inr loc', st') ->
  (~ candidate r /\ ledger_of (fs st') = ledger_of (fs st) /\ loc' = loc /\ st' = st) \/
  (candidate r /\
   exists rec, ledger_of (fs st') = ledger_of (fs st) ++ [rec] /\ record_for r rec /\
               ((key_of r ∈ prior_successes loc /\ is_skip rec /\ ~ is_success rec /\
                 calls st' = calls st /\ prior_successes loc' = prior_successes loc) \/
                ((key_of r ∉ prior_successes loc) /\ ~ is_skip rec /\
                 calls st' = calls st ++ [upload_args r] /\
                 ((is_success rec /\
                   prior_successes loc' = prior_successes loc ∪ {[ key_of r ]}) \/
                  (~ is_success rec /\ prior_successes loc' = prior_successes loc))))).
Proof.
  intros Hready Hrow.
  destruct (process_row_cases loc r st Hready)
    as [[Hr Hc]|[(Hr & Hk & ts & w & fr & fd & Hfr & Hfd & Hc)
                |(Hr & Hk & ts & w' & resp & fr & fe & Hfr & Hfe & Hc)]];
    rewrite Hc in Hrow; injection Hrow as <- <-.
  - by left.
  - right. split; [done|]. exists (skip_record ts r). cbn [fs calls prior_successes].
    split; [by rewrite ledger_after_other, (ledger_after_append _ _ _ Hfr)|].
    split; [by destruct (skip_record_fields ts r) as (_ & _ & _ & _ & ?)|].
    left. auto using skip_record_is_skip, skip_record_not_success.
  - right. split; [done|]. exists (attempt_record ts r resp).
    pose proof (attempt_record_success ts r resp) as Hs.
    pose proof (attempt_record_not_skip ts r resp) as Hns.
    assert (Hfor : record_for r (attempt_record ts r resp))
      by (by destruct (attempt_record_fields ts r resp) as (_ & _ & _ & _ & ?)).
    destruct (Z.eqb_spec (status_code resp) 200) as [Hcode|Hcode];
      cbn [fs calls prior_successes].
    + split; [by apply ledger_after_append|]. split; [done|].
      right. split; [done|]. split; [done|]. split; [done|]. left. split; [by apply Hs|done].
    + split; [by rewrite ledger_after_other, (ledger_after_append _ _ _ Hfr)|].
      split; [done|].
      right. split; [done|]. split; [done|]. split; [done|]. right.
      split; [by rewrite Hs|done].
Qed.

(** X13. No key is uploaded twice.  A ledger in which no key has two
    success records is left so by every run: a run appends a success record
    for a key at most once, and never for a key that already has one. *)
Theorem reconciler_keeps_success_keys_unique (st0 st : state World) (loc : locals) :
  main' st0 = (inr loc, st) ->
  NoDup (reconciler_runs.success_keys (ledger_of (fs st0))) ->
  NoDup (reconciler_runs.success_keys (ledger_of (fs st))).
Proof.
  intros Hmain Hnodup.
  destruct (fs st0 !! MAPPING_VERIFICATION_LOG_CSV) as [[vnames rows]|] eqn:Hv; cycle 1.
  { by rewrite (main_missing_input _ _ _ Hv) in Hmain. }
  rewrite (main_unfold _ _ _ _ _ Hv) in Hmain.
  apply (loop_ind (fun _ _ st => NoDup (reconciler_runs.success_keys (ledger_of (fs st))))
           _ _ (loop_start_ready st0) (loop_start_consistent st0)) in Hmain; [tauto| |].
  - cbn. unfold ledger_of. by rewrite opened_rows_at.
  - clear. intros _ r loc st loc' st' Hready Hcons HI Hrow.
    destruct (process_row_ledger loc r st loc' st' Hready Hrow)
      as [(_ & -> & _)|(_ & rec & -> & Hfor & Hcase)]; [done|].
    rewrite success_keys_snoc.
    destruct (decide (is_success rec)) as [Hs|Hs]; [|by rewrite app_nil_r].
    destruct Hcase as [(_ & _ & Hns & _)|(Hk & _)]; [done|].
    apply NoDup_app. split; [done|]. split; [|apply NoDup_singleton].
    intros k Hin ->%list_elem_of_singleton. apply Hk.
    rewrite (record_for_key _ _ Hfor) in Hin.
    by apply Hcons, elem_of_success_keys.
Qed.

(** X14. Every decision of a run is right.  Each record that a run
    appends to the ledger has outcome ["skipped_already_uploaded"] exactly
    when the ledger before it (the rows of earlier runs and the records
    appended so far) holds a success for its key. *)
Theorem reconciler_skips_exactly_uploaded (st0 st : state World) (loc : locals) :
  main' st0 = (inr loc, st) ->
  exists run_app : list row,
    ledger_of (fs st) = ledger_of (fs st0) ++ run_app /\
    forall (before : list row) (rec : row) (after : list row),
      run_app = before ++ rec :: after ->
      (is_skip rec <-> has_success (ledger_of (fs st0) ++ before) (key_of rec)).
Proof.
  intros Hmain.
  destruct (fs st0 !! MAPPING_VERIFICATION_LOG_CSV) as [[vnames rows]|] eqn:Hv; cycle 1.
  { by rewrite (main_missing_input _ _ _ Hv) in Hmain. }
  rewrite (main_unfold _ _ _ _ _ Hv) in Hmain.
  apply (loop_ind
           (fun _ _ st =>
              exists run_app : list row,
                ledger_of (fs st) = ledger_of (fs st0) ++ run_app /\
                forall (before : list row) (rec : row) (after : list row),
                  run_app = before ++ rec :: after ->
                  (is_skip rec <-> has_success (ledger_of (fs st0) ++ before) (key_of rec)))
           _ _ (loop_start_ready st0) (loop_start_consistent st0)) in Hmain; [tauto| |].
  - exists []. cbn. unfold ledger_of. rewrite opened_rows_at, app_nil_r.
    split; [done|]. intros before rec after H. by destruct before.
  - clear. intros _ r loc st loc' st' Hready Hcons (ra & Hledger & HI) Hrow.
    destruct (process_row_ledger loc r st loc' st' Hready Hrow)
      as [(_ & -> & _)|(_ & rec & -> & Hfor & Hcase)]; [by exists ra|].
    exists (ra ++ [rec]). split; [by rewrite Hledger, app_assoc|].
    intros before rec' after Hsplit.
    destruct after as [|x after _] using rev_ind.
    + apply app_inj_tail in Hsplit as [<- <-].
      rewrite <- Hledger, (record_for_key _ _ Hfor), <- (Hcons (key_of r)).
      destruct Hcase as [(Hk & Hskip & _)|(Hk & Hskip & _)]; tauto.
    + rewrite app_comm_cons, app_assoc in Hsplit.
      apply app_inj_tail in Hsplit as [Hra _]. by eapply HI.
Qed.

(** A loop over rows whose candidates all have their key in the set skips
    every one of them. *)
Lemma loop_all_skipped (rows : list row) :
  forall (loc : locals) (st : state World),
    ready (fs st) ->
    (forall c, c ∈ rows -> candidate c -> key_of c ∈ prior_successes loc) ->
    exists (loc' : locals) (st' : state World),
      py.for_each process_row' loc rows st = (inr loc', st') /\
      calls st' = calls st /\
      prior_successes loc' = prior_successes loc /\
      total loc' = total loc + length (filter candidate rows) /\
      skipped loc' = skipped loc + length (filter candidate rows) /\
      uploaded loc' = uploaded loc /\ failed loc' = failed loc /\
      rows_at QBO_ATTACH_ERRORS_CSV (fs st') = rows_at QBO_ATTACH_ERRORS_CSV (fs st) /\
      length (rows_at QBO_ATTACH_DUPS_CSV (fs st'))
      = length (rows_at QBO_ATTACH_DUPS_CSV (fs st)) + length (filter candidate rows).
Proof.
  induction rows as [|r rows IH]; intros loc st Hready Hkeys.
  - exists loc, st. cbn. repeat (split; [done || lia|]). lia.
  - destruct (process_row_cases loc r st Hready)
      as [[Hr Hc]|[(Hr & Hk & ts & w & fr & fd & Hfr & Hfd & Hc)
                  |(Hr & Hk & _)]].
    + destruct (IH loc st Hready) as (loc' & st' & Hloop & H);
        [intros c Hc'; apply Hkeys; by right|].
      exists loc', st'. cbn [py.for_each]. rewrite (bind_inr _ _ _ _ _ Hc).
      by rewrite filter_cons, decide_False.
    + generalize dependent (skip_record ts r). intros rec Hc.
      set (st1 := State (<[QBO_ATTACH_DUPS_CSV := with_appended [rec] fd]>
                           (<[QBO_ATTACH_RUNLOG_CSV := with_appended [rec] fr]> (fs st)))
                    w (calls st)) in *.
      set (loc1 := Locals (prior_successes loc) (S (total loc)) (uploaded loc)
                     (S (skipped loc)) (failed loc)) in *.
      assert (Hready1 : ready (fs st1)).
      { destruct Hready as (_ & [fe Hfe] & _).
        unfold ready. subst st1. cbn [fs]. simplify_map_eq. eauto. }
      destruct (IH loc1 st1 Hready1) as (loc' & st' & Hloop & Hcalls & Hprior & Htot & Hsk
                                         & Hup & Hfail & Herr & Hdup);
        [intros c Hc'; apply Hkeys; by right|].
      exists loc', st'. cbn [py.for_each]. rewrite (bind_inr _ _ _ _ _ Hc).
      rewrite filter_cons, decide_True by done. cbn [length].
      split; [done|]. split; [done|]. split; [done|].
      split; [subst loc1; cbn in *; lia|]. split; [subst loc1; cbn in *; lia|].
      split; [done|]. split; [done|].
      split; [rewrite Herr; subst st1; unfold rows_at; cbn [fs]; by simplify_map_eq|].
      rewrite Hdup. subst st1. unfold rows_at. cbn [fs]. rewrite Hfd.
      simplify_map_eq. cbn. rewrite length_app. cbn. lia.
    + exfalso. apply Hk, Hkeys; [left | done].
Qed.

(** A loop that counts no failure leaves the key of every candidate it
    has processed in the set. *)
Lemma loop_no_failure (st0 : state World) (rows : list row) (loc : locals) (st : state World) :
  py.for_each process_row' (loop_start st0).1 rows (loop_start st0).2 = (inr loc, st) ->
  failed loc = 0 ->
  forall c, c ∈ rows -> candidate c -> key_of c ∈ prior_successes loc.
Proof.
  intros Hloop.
  apply (loop_ind
           (fun rows loc st =>
              failed loc = 0 ->
              forall c, c ∈ rows -> candidate c -> key_of c ∈ prior_successes loc)
           _ _ (loop_start_ready st0) (loop_start_consistent st0)) in Hloop; [tauto| |].
  - intros _ c Hc. inversion Hc.
  - clear. intros pre r loc st loc' st' Hready _ HI Hrow Hfail c Hin Hc.
    destruct (process_row_cases loc r st Hready)
      as [[Hr Hcase]|[(Hr & Hk & ts & w & fr & fd & Hfr & Hfd & Hcase)
                     |(Hr & Hk & ts & w' & resp & fr & fe & Hfr & Hfe & Hcase)]];
      rewrite Hcase in Hrow; injection Hrow as <- <-.
    + apply elem_of_app in Hin as [Hin|Hin%list_elem_of_singleton];
        [by apply HI | by subst].
    + cbn in *. apply elem_of_app in Hin as [Hin|Hin%list_elem_of_singleton];
        [by apply HI | by subst].
    + destruct (status_code resp =? 200)%Z; cbn in *; [|lia].
      apply elem_of_union.
      apply elem_of_app in Hin as [Hin|Hin%list_elem_of_singleton];
        [left; by apply HI | right; subst; by apply elem_of_singleton].
Qed.

(** What a completed run went through. *)
Lemma main_completed_inv (st0 st : state World) (loc : locals) :
  main' st0 = (inr loc, st) ->
  exists (vnames : list string) (rows : list row),
    fs st0 !! MAPPING_VERIFICATION_LOG_CSV = Some (CsvFile vnames rows) /\
    fs st !! MAPPING_VERIFICATION_LOG_CSV = Some (CsvFile vnames rows) /\
    py.for_each process_row' (loop_start st0).1 rows (loop_start st0).2 = (inr loc, st) /\
    ready (fs st) /\
    consistent (prior_successes loc) (fs st).
Proof.
  intros Hmain.
  destruct (fs st0 !! MAPPING_VERIFICATION_LOG_CSV) as [[vnames rows]|] eqn:Hv; cycle 1.
  { by rewrite (main_missing_input _ _ _ Hv) in Hmain. }
  exists vnames, rows. split; [done|].
  pose proof Hv as Hv'. rewrite <- (app_nil_r rows) in Hv'.
  destruct (run_reaches _now_iso attach_file st0 vnames rows [] Hv')
    as (loc1 & st1 & ra & ea & da & ca & Harr & Hmain1 & (_ & _ & _ & Hother) & _ & Hcons
        & _ & _ & Hready).
  cbn [py.for_each] in Hmain1. unfold py.ret in Hmain1.
  rewrite Hmain in Hmain1. injection Hmain1 as -> ->.
  split; [by rewrite Hother, opened_other|]. done.
Qed.

End reconciler_more.

(** ** The properties of whole runs, on the sample state *)

Section reconciler_witnesses.
Import config csv qbo_attach_demo reconciler_spec examples.

Lemma reconciler_summary_counts_witness :
  exists (loc : locals) (st : state nat),
    main clock (always 500) uploader_state = (inr loc, st) /\
    total loc = 2 /\
    total loc = uploaded loc + skipped loc + failed loc /\
    length (rows_at QBO_ATTACH_RUNLOG_CSV (fs st)) = 2 + total loc /\
    length (calls st) = uploaded loc + failed loc.
Proof.
  destruct (reconciler_summary_counts clock (always 500) uploader_state
              mapping_verifier.fieldnames
              [ verified_row "1001" "invoice_ABC123.txt" "/tmp/invoice_ABC123.txt" "ok";
                verified_row "1002" "invoice_DEF456.txt" "/tmp/invoice_DEF456.txt" "ok" ])
    as (loc & st & Hmain & Htotal & Hsum & Hrun & _ & _ & _ & Hcalls); [reflexivity|].
  exists loc, st. split; [exact Hmain|]. split; [exact Htotal|]. split; [exact Hsum|].
  split; [exact Hrun | exact Hcalls].
Defined.

Lemma reconciler_keeps_success_keys_unique_witness :
  exists (loc : locals) (st : state nat),
    main clock (always 200) uploader_state = (inr loc, st) /\
    NoDup (reconciler_runs.success_keys (ledger_of (fs st))).
Proof.
  destruct (main clock (always 200) uploader_state) as [[e|loc] st] eqn:Hmain;
    [vm_compute in Hmain; discriminate|].
  exists loc, st. split; [reflexivity|].
  apply (reconciler_keeps_success_keys_unique clock (always 200) uploader_state st loc);
    [exact Hmain|].
  compute_done.
Defined.

Lemma reconciler_skips_exactly_uploaded_witness :
  exists (loc : locals) (st : state nat),
    main clock (always 200) uploader_state = (inr loc, st) /\
    exists run_app : list row,
      ledger_of (fs st) = ledger_of (fs uploader_state) ++ run_app /\
      forall (before : list row) (rec : row) (after : list row),
        run_app = before ++ rec :: after ->
        (is_skip rec <-> has_success (ledger_of (fs uploader_state) ++ before) (key_of rec)).
Proof.
  destruct (main clock (always 200) uploader_state) as [[e|loc] st] eqn:Hmain;
    [vm_compute in Hmain; discriminate|].
  exists loc, st. split; [reflexivity|].
  exact (reconciler_skips_exactly_uploaded clock (always 200) uploader_state st loc Hmain).
Defined.

End reconciler_witnesses.

(** * The stages of the pipeline, one after the other *)

Section pipeline_facts.
Import config csv verifier_spec reconciler_spec qbo_attach_demo.
Context {World : Type}.
Variable _now_iso : World -> string * World.
Variable attach_file : string -> string -> string -> World -> fake_qbo_api.FakeQboResponse * World.

(** What a completed run of the verifier leaves. *)
Lemma verifier_main_inv (fs fs' : files) (counts : nat * nat) :
  mapping_verifier.main fs = (inr counts, fs') ->
  exists (map_names inv_names : list string) (M A : list row),
    fs !! MAPPING_EXPORT_CSV = Some (CsvFile map_names M) /\
    fs !! ATTACHMENTS_INVENTORY_CSV = Some (CsvFile inv_names A) /\
    Forall mapping_row_ok M /\ Forall attachment_row_ok A /\
    let V := verifier_errors.verified_lines M A in
    counts = (count_status "ok" V, count_status "missing_mapping" V) /\
    fs' = <[MAPPING_VERIFICATION_SKIPS_CSV := skips_header_only]>
            (<[MAPPING_VERIFICATION_LOG_CSV := CsvFile mapping_verifier.fieldnames V]> fs).
Proof.
  intros Hmain.
  destruct (main_completes_inv fs fs' counts Hmain)
    as (map_names & inv_names & M & A & HM & HA & HMok & HAok).
  exists map_names, inv_names, M, A. repeat (split; [done|]).
  rewrite (main_ok fs map_names inv_names M A HM HA HMok HAok) in Hmain.
  by injection Hmain as <- <-.
Qed.

(** A run of the reconciler on a verification log with the lines [V]. *)
Lemma main_on_log (st0 : state World) (vnames : list string) (V : list row) :
  fs st0 !! MAPPING_VERIFICATION_LOG_CSV = Some (CsvFile vnames V) ->
  exists (loc : locals) (st : state World),
    main _now_iso attach_file st0 = (inr loc, st) /\
    total loc = count_status "ok" V /\
    total loc = uploaded loc + skipped loc + failed loc /\
    length (calls st) = length (calls st0) + uploaded loc + failed loc.
Proof.
  intros Hv.
  destruct (loop_spec _now_iso attach_file V _ _ (loop_start_ready st0)
              (loop_start_consistent st0)) as (loc & st & ra & ea & da & ca & Hloop & _).
  exists loc, st. split; [by rewrite (main_unfold _ _ _ _ _ Hv)|].
  destruct (loop_counts _now_iso attach_file st0 V loc st Hloop)
    as (Htotal & Hsum & _ & _ & _ & _ & Hcalls).
  done.
Qed.

(** X18. The verifier hands its count to the reconciler: when a run of the
    verifier reports [ok_count] attachments with a mapping, a run of the
    reconciler on the files it leaves completes, whatever the clock and the
    upload operation do, and its candidates are that many: [total] is
    [ok_count], every one of them is uploaded, skipped or failed, and at
    most [ok_count] calls to the upload operation are made. *)
Theorem verifier_feeds_reconciler (fs0 fs1 : files) (ok_count missing_count : nat)
  (w : World) (c : list (string * string * string)) :
  mapping_verifier.main fs0 = (inr (ok_count, missing_count), fs1) ->
  exists (loc : locals) (st : state World),
    main _now_iso attach_file (State fs1 w c) = (inr loc, st) /\
    total loc = ok_count /\
    uploaded loc + skipped loc + failed loc = ok_count /\
    length (calls st) <= length c + ok_count.
Proof.
  intros Hmain.
  destruct (verifier_main_inv _ _ _ Hmain)
    as (map_names & inv_names & M & A & _ & _ & _ & _ & Hcounts & ->).
  injection Hcounts as -> ->.
  destruct (main_on_log
              (State (<[MAPPING_VERIFICATION_SKIPS_CSV := skips_header_only]>
                        (<[MAPPING_VERIFICATION_LOG_CSV
                           := CsvFile mapping_verifier.fieldnames
                                (verifier_errors.verified_lines M A)]> fs0)) w c)
              mapping_verifier.fieldnames (verifier_errors.verified_lines M A))
    as (loc & st & Hrun & Htotal & Hsum & Hcalls).
  { cbn [fs]. rewrite lookup_insert_ne by done. apply lookup_insert_eq. }
  exists loc, st. cbn [calls] in Hcalls. split; [exact Hrun|]. lia.
Qed.

End pipeline_facts.

(** * The upload operation *)

Section api_facts.
Import fake_qbo_api fake_qbo_api_ops.
Context {World Time : Type}.
Variable perf_counter : World -> Time * World.
Variable elapsed_ms : Time -> Time -> Z.
Variable is_file : string -> World -> bool * World.
Variable random : World -> Qcanon.Qc * World.
Variable randint : Z -> Z -> World -> Z * World.
Variable time_ns : World -> Z * World.
Variable path_str : string -> string.
Variable path_name : string -> string.

Abbreviation attach_file' :=
  (attach_file perf_counter elapsed_ms is_file random randint time_ns path_str path_name).

Lemma generate_fake_tid_nonempty (w : World) :
  (_generate_fake_tid randint time_ns w).1 <> "".
Proof.
  unfold _generate_fake_tid. destruct (time_ns w) as [now_ns w1].
  destruct (randint 0 999999 w1) as [rand w2]. done.
Qed.

(** The three ways a call ends. *)
Lemma attach_file_cases (entity_type entity_id file_path : string) (fail_rate : Qcanon.Qc)
  (w : World) :
  let resp := (attach_file' entity_type entity_id file_path fail_rate w).1 in
  let found := (is_file file_path (perf_counter w).2).1 in
  let draw := (random (is_file file_path (perf_counter w).2).2).1 in
  (found = false /\ status_code resp = 404%Z /\ intuit_tid resp = None /\
   error resp = Some ("file not found: " +:+ path_str file_path)) \/
  (found = true /\ Qcanon.Qclt draw fail_rate /\ status_code resp = 500%Z /\
   intuit_tid resp = None /\
   error resp = Some ("synthetic API failure attaching " +:+ path_name file_path
                      +:+ " to " +:+ entity_type +:+ " " +:+ entity_id)) \/
  (found = true /\ ~ Qcanon.Qclt draw fail_rate /\ status_code resp = 200%Z /\
   (exists tid, intuit_tid resp = Some tid /\ tid <> "") /\ error resp = None).
Proof.
  cbv zeta. unfold attach_file. destruct (perf_counter w) as [start w1]. cbn [fst snd].
  destruct (is_file file_path w1) as [[] w2]; cbn [fst snd negb].
  - right. destruct (random w2) as [x w3]. cbn [fst snd].
    destruct (decide (Qcanon.Qclt x fail_rate)) as [Hx|Hx].
    + left. rewrite bool_decide_eq_true_2 by done.
      by destruct (perf_counter w3) as [t w4].
    + right. rewrite bool_decide_eq_false_2 by done.
      pose proof (generate_fake_tid_nonempty w3) as Htid.
      destruct (_generate_fake_tid randint time_ns w3) as [tid w4].
      destruct (perf_counter w4) as [t w5]. cbn in Htid |- *.
      split; [done|]. split; [done|]. split; [done|]. split; [by exists tid | done].
  - left. by destruct (perf_counter w2) as [t w3].
Qed.


(** X21. The fail rate at its ends.  The draws of [random.random()] lie in
    [[0, 1)]; so with a fail rate of 0 or less a call never answers 500,
    and answers 200 exactly when the path is a file; and with a fail rate
    of 1 or more a call never answers 200. *)
Theorem attach_file_rate_bounds (entity_type entity_id file_path : string)
  (fail_rate : Qcanon.Qc) (w : World) :
  (forall w', Qcanon.Qcle (Qcanon.Q2Qc (QArith_base.Qmake 0 1)) (random w').1 /\
              Qcanon.Qclt (random w').1 (Qcanon.Q2Qc (QArith_base.Qmake 1 1))) ->
  let resp := (attach_file' entity_type entity_id file_path fail_rate w).1 in
  (Qcanon.Qcle fail_rate (Qcanon.Q2Qc (QArith_base.Qmake 0 1)) ->
   status_code resp <> 500%Z /\
   (status_code resp = 200%Z <-> (is_file file_path (perf_counter w).2).1 = true)) /\
  (Qcanon.Qcle (Qcanon.Q2Qc (QArith_base.Qmake 1 1)) fail_rate -> status_code resp <> 200%Z).
Proof.
  intros Hdraw.
  destruct (Hdraw (is_file file_path (perf_counter w).2).2) as [H0 H1].
  pose proof (attach_file_cases entity_type entity_id file_path fail_rate w) as Hcases.
  cbv zeta in *.
  destruct Hcases as [(Hf & -> & _)|[(Hf & Hlt & -> & _)|(Hf & Hge & -> & _)]];
    rewrite Hf; split.
  - intros _. split; [done|]. split; done.
  - done.
  - intros Hrate. exfalso. eapply Qcanon.Qclt_not_le; [exact Hlt|].
    by eapply Qcanon.Qcle_trans.
  - done.
  - done.
  - intros Hrate. exfalso. apply Hge. by eapply Qcanon.Qclt_le_trans.
Qed.

End api_facts.

(** * The reconciler on the upload operation of the repository *)

Section reconciler_responses.
Import config csv fake_qbo_api qbo_attach_demo reconciler_spec.
Context {World : Type}.
Variable _now_iso : World -> string * World.
Variable attach_file : string -> string -> string -> World -> FakeQboResponse * World.
Variable Q : FakeQboResponse -> Prop.
Hypothesis HQ : forall (entity_type entity_id file_path : string) (w : World),
  Q (attach_file entity_type entity_id file_path w).1.

(** What a pass through the body adds to the ledger, when every response
    of the upload operation satisfies [Q]. *)
Lemma process_row_record (loc : locals) (r : row) (st : state World)
  (loc' : locals) (st' : state World) :
  ready (fs st) ->
  process_row _now_iso attach_file run_writer err_writer dup_writer loc r st = (inr loc', st') ->
  ledger_of (fs st') = ledger_of (fs st) \/
  exists rec : row,
    ledger_of (fs st') = ledger_of (fs st) ++ [rec] /\
    ((exists ts, rec = skip_record ts r) \/
     (exists ts resp, rec = attempt_record ts r resp /\ Q resp)).
Proof.
  intros ([fr Hfr] & [fe Hfe] & [fd Hfd]) Hrow.
  destruct (decide (candidate r)) as [Hr|Hr].
  2: { rewrite (process_row_other _now_iso attach_file loc r st Hr) in Hrow.
       injection Hrow as <- <-. by left. }
  right. destruct (_now_iso (world st)) as [ts w] eqn:Hts.
  destruct (decide (key_of r ∈ prior_successes loc)) as [Hk|Hk].
  - rewrite (process_row_skip _now_iso attach_file loc r st ts w fr fd Hr Hk Hts Hfr Hfd)
      in Hrow.
    injection Hrow as <- <-. exists (skip_record ts r). cbn [fs].
    split; [by rewrite ledger_after_other, (ledger_after_append _ _ _ Hfr)|].
    left. by exists ts.
  - pose proof (HQ (get r "qbo_entity_type" "") (get r "qbo_entity_id" "")
                  (get r "file_path" "") w) as Hresp.
    destruct (attach_file (get r "qbo_entity_type" "") (get r "qbo_entity_id" "")
                (get r "file_path" "") w) as [resp w'] eqn:Hcall.
    rewrite (process_row_upload _now_iso attach_file loc r st ts w w' resp fr fe
               Hr Hk Hts Hcall Hfr Hfe) in Hrow.
    injection Hrow as <- <-. exists (attempt_record ts r resp).
    split; [|right; by exists ts, resp].
    destruct (status_code resp =? 200)%Z; cbn [fs].
    + by apply ledger_after_append.
    + by rewrite ledger_after_other, (ledger_after_append _ _ _ Hfr).
Qed.

(** The records of a whole run. *)
Lemma run_records (st0 st : state World) (loc : locals) :
  main _now_iso attach_file st0 = (inr loc, st) ->
  exists run_app : list row,
    ledger_of (fs st) = ledger_of (fs st0) ++ run_app /\
    Forall (fun rec => (exists ts r, rec = skip_record ts r) \/
                       (exists ts r resp, rec = attempt_record ts r resp /\ Q resp))
      run_app.
Proof.
  intros Hmain.
  destruct (fs st0 !! MAPPING_VERIFICATION_LOG_CSV) as [[vnames rows]|] eqn:Hv; cycle 1.
  { by rewrite (main_missing_input _ _ _ Hv) in Hmain. }
  rewrite (main_unfold _ _ _ _ _ Hv) in Hmain.
  apply (loop_ind _now_iso attach_file
           (fun _ _ st =>
              exists run_app : list row,
                ledger_of (fs st) = ledger_of (fs st0) ++ run_app /\
                Forall (fun rec => (exists ts r, rec = skip_record ts r) \/
                                   (exists ts r resp, rec = attempt_record ts r resp /\ Q resp))
                  run_app)
           _ _ (loop_start_ready st0) (loop_start_consistent st0))
    in Hmain; [tauto| |].
  - exists []. cbn. unfold ledger_of. rewrite opened_rows_at, app_nil_r. by split.
  - intros _ r loc1 st1 loc2 st2 Hready _ (ra & Hledger & HI) Hrow.
    destruct (process_row_record loc1 r st1 loc2 st2 Hready Hrow)
      as [->|(rec & -> & Hrec)]; [by exists ra|].
    exists (ra ++ [rec]). split; [by rewrite Hledger, app_assoc|].
    apply Forall_app. split; [done|]. constructor; [|done].
    destruct Hrec as [[ts ->]|(ts & resp & -> & Hresp)]; [left|right]; eauto.
Qed.

End reconciler_responses.

Section reconciler_with_api.
Import config csv fake_qbo_api fake_qbo_api_ops qbo_attach_demo reconciler_spec
  reconciler_api_spec.
Context {World Time : Type}.
Variable _now_iso : World -> string * World.
Variable perf_counter : World -> Time * World.
Variable elapsed_ms : Time -> Time -> Z.
Variable is_file : string -> World -> bool * World.
Variable random : World -> Qcanon.Qc * World.
Variable randint : Z -> Z -> World -> Z * World.
Variable time_ns : World -> Z * World.
Variable path_str : string -> string.
Variable path_name : string -> string.

(** X22. The ledger the reconciler writes on the upload operation of the
    repository.  Every row that a run appends to the ledger has one of four
    shapes: a skip, with empty status code, error and transaction id; a
    success, with status code ["200"], no error and a transaction id; a
    missing file, with status code ["404"], an error text and no
    transaction id; or an error, with status code ["500"], an error text
    and no transaction id.  So the outcome ["error"] stands for the
    synthetic failure only, and a row has a transaction id exactly when it
    is a success. *)
Theorem reconciler_ledger_shapes (st0 st : state World) (loc : locals) :
  main _now_iso
    (attach_file_default perf_counter elapsed_ms is_file random randint time_ns
       path_str path_name) st0 = (inr loc, st) ->
  exists run_app : list row,
    ledger_of (fs st) = ledger_of (fs st0) ++ run_app /\
    Forall record_shape run_app /\
    Forall (fun rec => is_success rec <-> rec !! "intuit_tid" <> Some "") run_app.
Proof.
  intros Hmain.
  apply (run_records _now_iso _
           (fun resp =>
              (status_code resp = 404%Z /\ intuit_tid resp = None /\
               default "" (error resp) <> "") \/
              (status_code resp = 500%Z /\ intuit_tid resp = None /\
               default "" (error resp) <> "") \/
              (status_code resp = 200%Z /\ default "" (intuit_tid resp) <> "" /\
               error resp = None))) in Hmain.
  - destruct Hmain as (run_app & Hledger & Hall). exists run_app. split; [done|].
    rewrite <- Forall_and. eapply Forall_impl; [exact Hall|].
    intros rec [(ts & r & ->)|(ts & r & resp & -> & Hresp)].
    + destruct (skip_record_fields ts r) as (_ & Hcode & Herr & Htid & _).
      split.
      * exists "skipped_already_uploaded", "", "", "".
        rewrite skip_record_outcome, Hcode, Herr. repeat (split; [done|]). left. by split_and!.
      * unfold is_success. rewrite skip_record_outcome, Htid. split; [done|]. by intros [].
    + destruct (attempt_record_fields ts r resp) as (_ & Hcode & Herr & Htid & _).
      pose proof (attempt_record_outcome ts r resp) as Hout.
      unfold is_success. rewrite Hout, Htid.
      destruct Hresp as [(Hs & Ht & He)|[(Hs & Ht & He)|(Hs & Ht & He)]];
        rewrite Hs in *; rewrite ?Ht, ?He in *; cbn [default] in *.
      * split; [|split; [done | by intros []]].
        exists "file_missing", "404", (default "" (error resp)), "".
        split; [exact Hout|]. split; [exact Hcode|]. split; [exact Herr|].
        split; [exact Htid|]. right; right; left. by split_and!.
      * split; [|split; [done | by intros []]].
        exists "error", "500", (default "" (error resp)), "".
        split; [exact Hout|]. split; [exact Hcode|]. split; [exact Herr|].
        split; [exact Htid|]. right; right; right. by split_and!.
      * split; [|split; [intros _ [=]; done | done]].
        exists "success", "200", "", (default "" (intuit_tid resp)).
        split; [exact Hout|]. split; [exact Hcode|]. split; [exact Herr|].
        split; [exact Htid|]. right; left. by split_and!.
  - intros entity_type entity_id file_path w. unfold attach_file_default.
    pose proof (attach_file_cases perf_counter elapsed_ms is_file random randint time_ns
                  path_str path_name entity_type entity_id file_path default_fail_rate w)
      as Hcases. cbv zeta in Hcases.
    destruct Hcases
      as [(_ & -> & -> & ->)|[(_ & _ & -> & -> & ->)|(_ & _ & -> & (tid & -> & Htid) & ->)]];
      cbn [default]; auto.
Qed.

End reconciler_with_api.

(** ** The properties of the pipeline, on the samples *)

Lemma verifier_feeds_reconciler_witness :
  exists (loc : qbo_attach_demo.locals) (st : qbo_attach_demo.state nat),
    qbo_attach_demo.main examples.clock (examples.always 200)
      (qbo_attach_demo.State (mapping_verifier.main examples.verifier_files).2 0 [])
    = (inr loc, st) /\
    qbo_attach_demo.total loc = 1 /\
    qbo_attach_demo.uploaded loc + qbo_attach_demo.skipped loc + qbo_attach_demo.failed loc = 1 /\
    length (qbo_attach_demo.calls st) <= 0 + 1.
Proof.
  apply (verifier_feeds_reconciler examples.clock (examples.always 200)
           examples.verifier_files (mapping_verifier.main examples.verifier_files).2 1 1 0 []).
  vm_compute. reflexivity.
Defined.

Lemma attach_file_rate_bounds_witness :
  let zero := Qcanon.Q2Qc (QArith_base.Qmake 0 1) in
  let one := Qcanon.Q2Qc (QArith_base.Qmake 1 1) in
  let resp :=
    (fake_qbo_api_ops.attach_file examples_api.perf_counter examples_api.elapsed_ms
       examples_api.is_file (examples_api.random examples_api.half) examples_api.randint
       examples_api.time_ns id id "Bill" "1001" "/tmp/invoice_ABC123.txt" zero 0).1 in
  (Qcanon.Qcle zero zero ->
   fake_qbo_api.status_code resp <> 500%Z /\
   (fake_qbo_api.status_code resp = 200%Z <->
    (examples_api.is_file "/tmp/invoice_ABC123.txt" (examples_api.perf_counter 0).2).1 = true)) /\
  (Qcanon.Qcle one zero -> fake_qbo_api.status_code resp <> 200%Z).
Proof.
  intros zero one.
  apply (attach_file_rate_bounds examples_api.perf_counter examples_api.elapsed_ms
           examples_api.is_file (examples_api.random examples_api.half) examples_api.randint
           examples_api.time_ns id id "Bill" "1001" "/tmp/invoice_ABC123.txt" zero 0).
  intros w'. split; by vm_compute.
Defined.

Lemma reconciler_ledger_shapes_witness :
  exists (loc : qbo_attach_demo.locals) (st : qbo_attach_demo.state nat),
    qbo_attach_demo.main examples.clock examples_api.upload examples.retry_state
    = (inr loc, st) /\
    exists run_app : list csv.row,
      reconciler_spec.ledger_of (qbo_attach_demo.fs st)
      = reconciler_spec.ledger_of (qbo_attach_demo.fs examples.retry_state) ++ run_app /\
      Forall reconciler_api_spec.record_shape run_app /\
      Forall (fun rec => reconciler_spec.is_success rec <-> rec !! "intuit_tid" <> Some "")
        run_app.
Proof.
  destruct (qbo_attach_demo.main examples.clock examples_api.upload examples.retry_state)
    as [[e|loc] st] eqn:Hmain; [vm_compute in Hmain; discriminate|].
  exists loc, st. split; [reflexivity|].
  exact (reconciler_ledger_shapes examples.clock examples_api.perf_counter
           examples_api.elapsed_ms examples_api.is_file (examples_api.random examples_api.half)
           examples_api.randint examples_api.time_ns id id examples.retry_state st loc Hmain).
Defined.

(** The upload operation on the sample world: the file that exists is
    uploaded, with a transaction id made of the clock and the draw; the
    one that does not is answered with 404. *)
Example attach_file_on_samples :
  let resp1 := (examples_api.upload "Bill" "1001" "/tmp/invoice_ABC123.txt" 0).1 in
  let resp2 := (examples_api.upload "Bill" "1002" "/tmp/invoice_DEF456.txt" 0).1 in
  (fake_qbo_api.status_code resp1, fake_qbo_api.intuit_tid resp1, fake_qbo_api.error resp1)
  = (200%Z, Some "1-100-000000", None) /\
  (fake_qbo_api.status_code resp2, fake_qbo_api.intuit_tid resp2, fake_qbo_api.error resp2)
  = (404%Z, None, Some "file not found: /tmp/invoice_DEF456.txt").
Proof. vm_compute. split; reflexivity. Qed.

(** * The text of the logs *)

Section csv_text_facts.
Import config csv_text text_spec.

Lemma parse_line_app (self : Reader) (a b : chars) :
  parse_line self (a ++ b)
  = match foldl (fun r c => r ≫= fun r => parse_process_char r (Chr c)) (Some self) a with
    | Some self' => parse_line self' b
    | None => None
    end.
Proof.
  revert self. induction a as [|c a IH]; intros self; [done|].
  cbn [app parse_line foldl mbind option_bind].
  destruct (parse_process_char self (Chr c)) as [self'|]; [apply IH|].
  clear. induction a as [|c' a IH]; [done|]. exact IH.
Qed.

(** A character that ends no line leaves the reader out of the state
    [EAT_CRNL], and raises nothing. *)
Lemma parse_plain (self : Reader) (c : ascii) :
  plain c -> state self <> EAT_CRNL ->
  exists self', parse_process_char self (Chr c) = Some self' /\ state self' <> EAT_CRNL.
Proof.
  intros [Hcr Hlf] Hst. unfold parse_process_char, start_field, is_newline.
  rewrite !bool_decide_eq_false_2 by done. cbn [orb].
  destruct (state self) eqn:Hs; try done; repeat case_bool_decide; eexists;
    (split; [done|]); cbn; rewrite ?Hs; done.
Qed.

Lemma parse_body (self : Reader) (body : chars) :
  Forall plain body -> state self <> EAT_CRNL ->
  exists self',
    foldl (fun r c => r ≫= fun r => parse_process_char r (Chr c)) (Some self) body = Some self'
    /\ state self' <> EAT_CRNL.
Proof.
  intros Hbody. revert self. induction Hbody as [|c body Hc _ IH]; intros self Hst.
  - by exists self.
  - destruct (parse_plain self c Hc Hst) as (self1 & H1 & Hst1).
    cbn [foldl mbind option_bind]. rewrite H1. by apply IH.
Qed.

(** A line leaves the reader at the start of a record or inside a quoted
    field, and raises nothing. *)
Lemma parse_line_ok (self : Reader) (l : chars) :
  line_ok l -> state self <> EAT_CRNL ->
  exists self', parse_line self l = Some self' /\
                (state self' = START_RECORD \/ state self' = IN_QUOTED_FIELD).
Proof.
  intros (body & ending & -> & Hbody & Hend) Hst.
  rewrite parse_line_app. destruct (parse_body self body Hbody Hst) as (self1 & -> & Hst1).
  clear Hst Hbody self body.
  destruct Hend as [-> | [-> | [-> | ->]]]; cbn [parse_line];
    unfold parse_process_char, start_field, is_newline;
    destruct (state self1) eqn:Hs; try done; cbn;
      repeat (rewrite ?Hs; cbn);
      try change (bool_decide (LF = QUOTE)) with false;
      try change (bool_decide (CR = QUOTE)) with false;
      repeat (rewrite ?Hs; cbn); eauto.
Qed.

Lemma lines_from_ok (s cur : chars) :
  Forall plain cur -> Forall line_ok (lines_from cur s).
Proof.
  remember (length s) as n eqn:Hn. revert s cur Hn.
  induction n as [n IH] using lt_wf_ind. intros s cur -> Hcur.
  destruct s as [|c s]; cbn [lines_from].
  - case_bool_decide; [constructor|]. repeat constructor.
    exists cur, []. rewrite app_nil_r. auto 8.
  - case_bool_decide as Hlf.
    { constructor; [exists cur, [LF]; auto 8|]. eapply IH; [|done|constructor]. cbn. lia. }
    case_bool_decide as Hcr.
    + destruct s as [|c' s].
      * constructor; [exists cur, [CR]; auto 8|]. cbn. constructor.
      * case_bool_decide.
        -- constructor; [exists cur, [CR; LF]; auto 8|].
           eapply IH; [|done|constructor]. cbn. lia.
        -- constructor; [exists cur, [CR]; auto 8|].
           eapply IH; [|done|constructor]. cbn. lia.
    + eapply IH; [|done|]; [cbn; lia|]. apply Forall_app. split; [done|].
      by repeat constructor.
Qed.

Lemma feed_ok (ls : list chars) (self : Reader) :
  Forall line_ok ls -> self = parse_reset \/ state self = IN_QUOTED_FIELD ->
  exists records r, feed self ls = Some (records, r) /\
                    (r = parse_reset \/ state r = IN_QUOTED_FIELD).
Proof.
  intros Hls. revert self. induction Hls as [|l ls Hl _ IH]; intros self Hst.
  - by exists [], self.
  - assert (Hne : state self <> EAT_CRNL) by (by destruct Hst as [-> | ->]).
    destruct (parse_line_ok self l Hl Hne) as (self1 & H1 & Hst1).
    cbn [feed]. rewrite H1. destruct Hst1 as [Hst1|Hst1]; rewrite Hst1.
    + rewrite bool_decide_eq_true_2 by done.
      destruct (IH parse_reset) as (records & r & -> & Hr); [by left|]. eauto.
    + rewrite bool_decide_eq_false_2 by done. apply IH. by right.
Qed.

(** The records of a text: those that its lines complete, then the one
    that was begun when the text ends inside it. *)
Lemma read_records_app (ls1 ls2 : list chars) (self : Reader) :
  read_records self (ls1 ++ ls2)
  = match feed self ls1 with
    | Some (records, r) => (fun rest => records ++ rest) <$> read_records r ls2
    | None => None
    end.
Proof.
  revert self. induction ls1 as [|l ls1 IH]; intros self.
  - cbn. by destruct (read_records self ls2).
  - cbn [app read_records feed]. destruct (parse_line self l) as [self1|]; [|done].
    case_bool_decide.
    + rewrite IH. destruct (feed parse_reset ls1) as [[records r]|]; [|done].
      by destruct (read_records r ls2).
    + apply IH.
Qed.

(** [csv.reader] raises nothing on the lines of a file. *)
Lemma reader_total (s : chars) : is_Some (reader s).
Proof.
  unfold reader. rewrite <- (app_nil_r (lines s)), read_records_app.
  destruct (feed_ok (lines s) parse_reset) as (records & r & -> & _);
    [by apply lines_from_ok | by left|].
  cbn. by case_match.
Qed.


(** The lines of a text that ends with a line feed, followed by more
    text. *)
Lemma lines_from_app (s0 u cur : chars) :
  lines_from cur (s0 ++ [LF] ++ u) = lines_from cur (s0 ++ [LF]) ++ lines u.
Proof.
  remember (length s0) as n eqn:Hn. revert s0 cur Hn.
  induction n as [n IH] using lt_wf_ind. intros s0 cur ->.
  destruct s0 as [|c s0]; [reflexivity|].
  change (lines_from cur ((c :: s0) ++ [LF] ++ u)) with
    (if bool_decide (c = LF) then (cur ++ [LF]) :: lines_from [] (s0 ++ [LF] ++ u)
     else if bool_decide (c = CR) then
       match s0 ++ [LF] ++ u with
       | c' :: s'' =>
           if bool_decide (c' = LF) then (cur ++ [CR; LF]) :: lines_from [] s''
           else (cur ++ [CR]) :: lines_from [] (s0 ++ [LF] ++ u)
       | [] => (cur ++ [CR]) :: lines_from [] (s0 ++ [LF] ++ u)
       end
     else lines_from (cur ++ [c]) (s0 ++ [LF] ++ u)).
  change (lines_from cur ((c :: s0) ++ [LF])) with
    (if bool_decide (c = LF) then (cur ++ [LF]) :: lines_from [] (s0 ++ [LF])
     else if bool_decide (c = CR) then
       match s0 ++ [LF] with
       | c' :: s'' =>
           if bool_decide (c' = LF) then (cur ++ [CR; LF]) :: lines_from [] s''
           else (cur ++ [CR]) :: lines_from [] (s0 ++ [LF])
       | [] => (cur ++ [CR]) :: lines_from [] (s0 ++ [LF])
       end
     else lines_from (cur ++ [c]) (s0 ++ [LF])).
  assert (Hrec : forall cur', lines_from cur' (s0 ++ [LF] ++ u)
                              = lines_from cur' (s0 ++ [LF]) ++ lines u).
  { intros cur'. apply (IH (length s0)); [cbn; lia | reflexivity]. }
  case_bool_decide; [by rewrite Hrec|]. case_bool_decide; [|apply Hrec].
  destruct s0 as [|c' s0]; [reflexivity|]. cbn [app].
  case_bool_decide.
  - rewrite <- app_comm_cons. f_equal. apply (IH (length s0)); [cbn; lia | reflexivity].
  - rewrite <- app_comm_cons. f_equal. apply (Hrec []).
Qed.

Lemma lines_app (s u : chars) :
  s = [] \/ (exists s0, s = s0 ++ [LF]) -> lines (s ++ u) = lines s ++ lines u.
Proof.
  intros [-> | [s0 ->]]; [done|]. unfold lines. rewrite <- app_assoc. apply lines_from_app.
Qed.

(** Text put after a complete text adds its records after those the
    text holds. *)
Lemma reader_app_complete (s u : chars) :
  complete s ->
  exists old new : list (list string),
    reader s = Some old /\ reader u = Some new /\ reader (s ++ u) = Some (old ++ new).
Proof.
  intros [Hend [records Hfeed]]. destruct (reader_total u) as [new Hnew].
  exists records, new. split; [|split; [done|]].
  - unfold reader. rewrite <- (app_nil_r (lines s)), read_records_app, Hfeed.
    change (read_records parse_reset []) with (Some ([] : list (list string))). cbn.
    by rewrite app_nil_r.
  - unfold reader in *. by rewrite (lines_app s u Hend), read_records_app, Hfeed, Hnew.
Qed.

End csv_text_facts.

(** * Whole runs of the reconciler over the text of the files *)

Section reconciler_text_facts.
Import config csv_text fake_qbo_api qbo_attach_demo_text text_spec.
Context {World : Type}.
Variable _now_iso : World -> string * World.
Variable attach_file :
  option string -> option string -> string -> World -> fake_qbo_api.FakeQboResponse * World.

Abbreviation process_row_text :=
  (qbo_attach_demo_text.process_row _now_iso attach_file).
Abbreviation main_text := (qbo_attach_demo_text.main _now_iso attach_file).

Lemma grown_refl (files : tfiles) : grown files files.
Proof. intros p. split; [|done]. intros _. exists []. by rewrite app_nil_r. Qed.

Lemma grown_trans (f1 f2 f3 : tfiles) : grown f1 f2 -> grown f2 f3 -> grown f1 f3.
Proof.
  intros H12 H23 p. destruct (H12 p) as [Hl12 Ho12]. destruct (H23 p) as [Hl23 Ho23].
  split.
  - intros Hp. destruct (Hl12 Hp) as [s1 H1]. destruct (Hl23 Hp) as [s2 H2].
    exists (s1 ++ s2). by rewrite H2, H1, app_assoc.
  - intros Hp. by rewrite Ho23, Ho12.
Qed.

Lemma text_at_insert (p q : string) (s : chars) (files : tfiles) :
  text_at q (<[p := s]> files) = if decide (p = q) then s else text_at q files.
Proof.
  unfold text_at. destruct (decide (p = q)) as [->|Hne].
  - by rewrite lookup_insert_eq.
  - by rewrite lookup_insert_ne.
Qed.

Lemma grown_write (p : string) (s : chars) (files : tfiles) :
  p ∈ logs -> grown files (write p s files).
Proof.
  intros Hp q. unfold write. split.
  - intros _. rewrite text_at_insert. destruct (decide (p = q)) as [->|_]; [by exists s|].
    exists []. by rewrite app_nil_r.
  - intros Hq. rewrite lookup_insert_ne; [done|]. by intros ->.
Qed.

Lemma grown_open_a (p : string) (files : tfiles) : p ∈ logs -> grown files (open_a p files).
Proof.
  intros Hp. unfold open_a. destruct (files !! p) eqn:Hfp; [apply grown_refl|].
  intros q. split.
  - intros _. exists []. rewrite app_nil_r, text_at_insert.
    destruct (decide (p = q)) as [<-|_]; [|done]. unfold text_at. by rewrite Hfp.
  - intros Hq. rewrite lookup_insert_ne; [done|]. by intros ->.
Qed.

Lemma appends_only_ret {A} (a : A) : appends_only (ret a : M (state World) A).
Proof. intros st r st' [= <- <-]. apply grown_refl. Qed.

Lemma appends_only_raise {A} (e : exn) : appends_only (raise e : M (state World) A).
Proof. intros st r st' [= <- <-]. apply grown_refl. Qed.

(** A computation followed by another, which may rest on a property [P]
    of the value that the first returns. *)
Lemma appends_only_bind {A B} (P : A -> Prop) (c : M (state World) A)
  (k : A -> M (state World) B) :
  appends_only c ->
  (forall st a st', c st = (inr a, st') -> P a) ->
  (forall a, P a -> appends_only (k a)) ->
  appends_only (bind c k).
Proof.
  intros Hc HP Hk st r st'. unfold bind. destruct (c st) as [[e|a] st1] eqn:Hcst.
  - intros [= <- <-]. by eapply Hc.
  - intros Hka. eapply grown_trans; [by eapply Hc|]. eapply Hk; [by eapply HP | done].
Qed.

Lemma appends_only_for_each {A B} (body : A -> B -> M (state World) A) (xs : list B) :
  (forall acc x, appends_only (body acc x)) ->
  forall acc, appends_only (for_each body acc xs).
Proof.
  intros Hbody. induction xs as [|x xs IH]; intros acc; [apply appends_only_ret|].
  cbn [for_each]. apply (appends_only_bind (fun _ => True)); auto.
Qed.

Lemma appends_only_on_files {A} (c : M tfiles A) :
  (forall files r files', c files = (r, files') -> grown files files') ->
  appends_only (on_files c : M (state World) A).
Proof.
  intros Hc st r st'. unfold on_files. destruct (c (fs st)) as [r1 files1] eqn:Hcf.
  intros [= <- <-]. by eapply Hc.
Qed.

Lemma appends_only_now : appends_only (now _now_iso).
Proof.
  intros st r st'. unfold now. destruct (_now_iso (world st)) as [ts w].
  intros [= <- <-]. apply grown_refl.
Qed.

Lemma appends_only_Path (file_path : option string) :
  appends_only (Path file_path : M (state World) string).
Proof. destruct file_path; [apply appends_only_ret | apply appends_only_raise]. Qed.

Lemma appends_only_upload (entity_type entity_id : option string) (file_path : string) :
  appends_only (upload attach_file entity_type entity_id file_path).
Proof.
  intros st r st'. unfold upload.
  destruct (attach_file entity_type entity_id file_path (world st)) as [resp w].
  intros [= <- <-]. apply grown_refl.
Qed.

Lemma appends_only_write_record (w : DictWriter) (record : drow) :
  w_path w ∈ logs -> appends_only (write_record w record : M (state World) unit).
Proof.
  intros Hw. apply appends_only_on_files. intros files r files'. unfold writerow.
  case_bool_decide; intros [= <- <-]; [by apply grown_write | apply grown_refl].
Qed.

Lemma appends_only_process_row (run_writer err_writer dup_writer : DictWriter)
  (loc : locals) (row : drow) :
  w_path run_writer ∈ logs -> w_path err_writer ∈ logs -> w_path dup_writer ∈ logs ->
  appends_only (process_row_text run_writer err_writer dup_writer loc row).
Proof.
  intros Hrun Herr Hdup. unfold qbo_attach_demo_text.process_row.
  case_bool_decide; [apply appends_only_ret|].
  apply (appends_only_bind (fun _ => True)); [apply appends_only_now | done |]. intros ts _.
  case_bool_decide.
  - apply (appends_only_bind (fun _ => True));
      [by apply appends_only_write_record | done |]. intros _ _.
    apply (appends_only_bind (fun _ => True));
      [by apply appends_only_write_record | done |]. intros _ _.
    apply appends_only_ret.
  - apply (appends_only_bind (fun _ => True)); [apply appends_only_Path | done |].
    intros path _.
    apply (appends_only_bind (fun _ => True)); [apply appends_only_upload | done |].
    intros resp _.
    destruct (status_code resp =? 200)%Z; [|destruct (status_code resp =? 404)%Z].
    + apply (appends_only_bind (fun _ => True));
        [by apply appends_only_write_record | done |]. intros _ _.
      rewrite bool_decide_eq_false_2 by (by intros H'; apply H').
      apply appends_only_ret.
    + apply (appends_only_bind (fun _ => True));
        [by apply appends_only_write_record | done |]. intros _ _.
      rewrite bool_decide_eq_true_2 by done.
      apply (appends_only_bind (fun _ => True));
        [by apply appends_only_write_record | done |]. intros _ _.
      apply appends_only_ret.
    + apply (appends_only_bind (fun _ => True));
        [by apply appends_only_write_record | done |]. intros _ _.
      rewrite bool_decide_eq_true_2 by done.
      apply (appends_only_bind (fun _ => True));
        [by apply appends_only_write_record | done |]. intros _ _.
      apply appends_only_ret.
Qed.

Lemma text_open_writer_eq (path : string) (fieldnames : list string) (files : tfiles) :
  _open_writer path fieldnames files
  = (inr {| w_path := path; w_fieldnames := fieldnames |},
     if path_exists path files then files
     else write path (format_row fieldnames) (<[path := []]> files)).
Proof.
  unfold _open_writer, path_exists, open_a, writeheader.
  destruct (files !! path) eqn:Hp.
  - by rewrite bool_decide_eq_true_2.
  - by rewrite bool_decide_eq_false_2 by (by intros []).
Qed.

Lemma appends_only_open_writer (path : string) (fieldnames : list string) :
  path ∈ logs ->
  appends_only (on_files (_open_writer path fieldnames) : M (state World) DictWriter).
Proof.
  intros Hp. apply appends_only_on_files. intros files r files'.
  rewrite text_open_writer_eq. intros [= <- <-].
  unfold path_exists. case_bool_decide as Hex; [apply grown_refl|].
  eapply grown_trans; [|by apply grown_write].
  assert (Hnone : files !! path = None).
  { destruct (files !! path) eqn:E; [|done]. exfalso. apply Hex. eauto. }
  pose proof (grown_open_a path files Hp) as H. unfold open_a in H. by rewrite Hnone in H.
Qed.

Lemma open_writer_path (path : string) (fieldnames : list string)
  (st : state World) (w : DictWriter) (st' : state World) :
  on_files (_open_writer path fieldnames) st = (inr w, st') -> w_path w = path.
Proof. unfold on_files. rewrite text_open_writer_eq. cbn. by intros [= <- _]. Qed.

Lemma appends_only_load : appends_only (on_files _load_prior_successes
                                         : M (state World) (gset (option string * option string))).
Proof.
  apply appends_only_on_files. intros files r files'. unfold _load_prior_successes.
  case_match; [intros [= <- <-]; apply grown_refl|].
  unfold bind, read_rows, ret.
  destruct (DictReader (text_at QBO_ATTACH_RUNLOG_CSV files)); intros [= <- <-];
    apply grown_refl.
Qed.

Lemma appends_only_read_rows (path : string) :
  appends_only (on_files (read_rows path) : M (state World) (list drow)).
Proof.
  apply appends_only_on_files. intros files r files'. unfold read_rows.
  destruct (DictReader (text_at path files)); intros [= <- <-]; apply grown_refl.
Qed.

(** Every run of [main], whether it returns or raises, only puts text
    after the three logs. *)
Lemma appends_only_main : appends_only main_text.
Proof.
  intros st r st'.
  cbv beta iota zeta delta [qbo_attach_demo_text.main auth_qbo_demo.get_qbo_session].
  destruct (negb (path_exists MAPPING_VERIFICATION_LOG_CSV (fs st)));
    [intros [= <- <-]; apply grown_refl|]. revert st r st'.
  change (appends_only
            (bind (on_files _load_prior_successes) (fun prior_successes =>
             bind (on_files (_open_writer QBO_ATTACH_RUNLOG_CSV run_fields)) (fun run_writer =>
             bind (on_files (_open_writer QBO_ATTACH_ERRORS_CSV run_fields)) (fun err_writer =>
             bind (on_files (_open_writer QBO_ATTACH_DUPS_CSV run_fields)) (fun dup_writer =>
             bind (on_files (read_rows MAPPING_VERIFICATION_LOG_CSV)) (fun reader =>
             for_each (process_row_text run_writer err_writer dup_writer)
               (Locals prior_successes 0 0 0 0) reader))))))).
  apply (appends_only_bind (fun _ => True)); [apply appends_only_load | done |].
  intros prior _.
  apply (appends_only_bind (fun w => w_path w = QBO_ATTACH_RUNLOG_CSV));
    [apply appends_only_open_writer; compute_done
    | intros st w st'; apply open_writer_path |].
  intros run_writer Hrun.
  apply (appends_only_bind (fun w => w_path w = QBO_ATTACH_ERRORS_CSV));
    [apply appends_only_open_writer; compute_done
    | intros st w st'; apply open_writer_path |].
  intros err_writer Herr.
  apply (appends_only_bind (fun w => w_path w = QBO_ATTACH_DUPS_CSV));
    [apply appends_only_open_writer; compute_done
    | intros st w st'; apply open_writer_path |].
  intros dup_writer Hdup.
  apply (appends_only_bind (fun _ => True)); [apply appends_only_read_rows | done |].
  intros reader _. apply appends_only_for_each. intros acc row.
  apply appends_only_process_row; rewrite ?Hrun, ?Herr, ?Hdup; compute_done.
Qed.

(** C9, as the code has it.  Whatever the files hold when a run of the
    reconciler starts, and whether the run returns or raises, the text of
    each of the three logs after the run is its text before the run with
    text put after it (a log that did not exist counts as empty): nothing
    that a log held is changed or removed.  When the text before the run is
    complete, that is, empty or ending with a line feed that ends a record,
    the rows that [csv.reader] yields after the run are the rows it yielded
    before, followed by the rows of the text that the run wrote. *)
Theorem reconciler_logs_append_only (st0 st : state World) (res : exn + locals) :
  main_text st0 = (res, st) ->
  forall p : string, p ∈ logs ->
    exists suffix : chars,
      text_at p (fs st) = text_at p (fs st0) ++ suffix /\
      (complete (text_at p (fs st0)) ->
       exists old new : list (list string),
         reader (text_at p (fs st0)) = Some old /\
         reader suffix = Some new /\
         reader (text_at p (fs st)) = Some (old ++ new)).
Proof.
  intros Hmain p Hp.
  destruct (appends_only_main st0 res st Hmain p) as [Hlog _].
  destruct (Hlog Hp) as [suffix Hsuffix]. exists suffix. split; [done|].
  intros Hcomplete. rewrite Hsuffix. by apply reader_app_complete.
Qed.

(** X11. The reconciler writes to its three logs only: after any run,
    whether it returns or raises, every other file (its input, the
    verification log, among them) is as it was. *)
Theorem reconciler_touches_only_logs (st0 st : state World) (res : exn + locals) :
  main_text st0 = (res, st) ->
  forall p : string, p ∉ logs -> fs st !! p = fs st0 !! p.
Proof. intros Hmain p Hp. by destruct (appends_only_main st0 res st Hmain p) as [_ ->]. Qed.

End reconciler_text_facts.

Section reconciler_text_runs.
Import config csv_text fake_qbo_api qbo_attach_demo_text text_spec text_runs.
Context {World : Type}.
Variable _now_iso : World -> string * World.
Variable attach_file :
  option string -> option string -> string -> World -> FakeQboResponse * World.

Abbreviation process_row_t :=
  (qbo_attach_demo_text.process_row _now_iso attach_file run_writer err_writer dup_writer).
Abbreviation main_t := (qbo_attach_demo_text.main _now_iso attach_file).

















End reconciler_text_runs.

(** ** The properties of runs over the text of the files, on the samples *)

(** C9 fails as the specification states it.  The run log of
    [examples_text.unterminated_state] holds a header and one success row,
    and lacks the line ending of its last line (a write that a crash cut
    short).  A run of the reconciler puts its first record after that text:
    the row that was in the log before the run is not a row of the log
    after it, the reader finds in its place a longer row whose outcome cell
    is ["successt0"]. *)
Lemma reconciler_logs_row_mutated :
  let st0 := examples_text.unterminated_state in
  let old_row :=
    [ "t"; "ABC123"; "Bill"; "80ABC123"; "Bill"; "1001"; "invoice_ABC123.txt";
      "/tmp/invoice_ABC123.txt"; "200"; ""; "1-0-000000"; "success" ] in
  exists (loc : qbo_attach_demo_text.locals) (st : qbo_attach_demo_text.state nat)
         (new : list (list string)),
    qbo_attach_demo_text.main examples.clock (examples_text.always 200) st0 = (inr loc, st) /\
    csv_text.reader (csv_text.text_at config.QBO_ATTACH_RUNLOG_CSV (qbo_attach_demo_text.fs st0))
    = Some [ qbo_attach_demo_text.run_fields; old_row ] /\
    csv_text.reader (csv_text.text_at config.QBO_ATTACH_RUNLOG_CSV (qbo_attach_demo_text.fs st))
    = Some new /\
    (old_row ∉ new) /\
    ~ (exists appended : list (list string),
          new = [ qbo_attach_demo_text.run_fields; old_row ] ++ appended).
Proof.
  intros st0 old_row.
  destruct (qbo_attach_demo_text.main examples.clock (examples_text.always 200) st0)
    as [[e|loc] st] eqn:Hmain; [vm_compute in Hmain; discriminate|].
  destruct (csv_text.reader
              (csv_text.text_at config.QBO_ATTACH_RUNLOG_CSV (qbo_attach_demo_text.fs st)))
    as [new|] eqn:Hnew; cycle 1.
  { assert (H : csv_text.reader
                  (csv_text.text_at config.QBO_ATTACH_RUNLOG_CSV
                     (qbo_attach_demo_text.fs
                        (qbo_attach_demo_text.main examples.clock (examples_text.always 200)
                           st0).2)) = None) by (rewrite Hmain; exact Hnew).
    vm_compute in H. discriminate. }
  exists loc, st, new. split; [reflexivity|]. split; [vm_compute; reflexivity|].
  split; [exact Hnew|].
  assert (Hrow : new !! 1 = Some (take 11 old_row
                                   ++ [ "successt0"; "ABC123"; "Bill"; "80ABC123"; "Bill";
                                        "1001"; "invoice_ABC123.txt";
                                        "/tmp/invoice_ABC123.txt"; ""; ""; "";
                                        "skipped_already_uploaded" ])).
  { assert (H : default [] (csv_text.reader
                  (csv_text.text_at config.QBO_ATTACH_RUNLOG_CSV
                     (qbo_attach_demo_text.fs
                        (qbo_attach_demo_text.main examples.clock (examples_text.always 200)
                           st0).2))) = new) by (rewrite Hmain; cbn [snd]; by rewrite Hnew).
    rewrite <- H. vm_compute. reflexivity. }
  split.
  - assert (H : bool_decide (old_row ∈ default [] (csv_text.reader
                  (csv_text.text_at config.QBO_ATTACH_RUNLOG_CSV
                     (qbo_attach_demo_text.fs
                        (qbo_attach_demo_text.main examples.clock (examples_text.always 200)
                           st0).2)))) = false) by (vm_compute; reflexivity).
    rewrite Hmain in H. cbn [snd] in H. rewrite Hnew in H. by apply bool_decide_eq_false_1 in H.
  - intros [appended ->]. cbn in Hrow. discriminate.
Qed.

Lemma reconciler_logs_append_only_witness :
  let st0 := examples_text.complete_state in
  let p := config.QBO_ATTACH_RUNLOG_CSV in
  exists (loc : qbo_attach_demo_text.locals) (st : qbo_attach_demo_text.state nat),
    qbo_attach_demo_text.main examples.clock (examples_text.always 200) st0 = (inr loc, st) /\
    p ∈ text_spec.logs /\
    text_spec.complete (csv_text.text_at p (qbo_attach_demo_text.fs st0)) /\
    exists suffix : csv_text.chars,
      csv_text.text_at p (qbo_attach_demo_text.fs st)
      = csv_text.text_at p (qbo_attach_demo_text.fs st0) ++ suffix /\
      (text_spec.complete (csv_text.text_at p (qbo_attach_demo_text.fs st0)) ->
       exists old new : list (list string),
         csv_text.reader (csv_text.text_at p (qbo_attach_demo_text.fs st0)) = Some old /\
         csv_text.reader suffix = Some new /\
         csv_text.reader (csv_text.text_at p (qbo_attach_demo_text.fs st)) = Some (old ++ new)).
Proof.
  intros st0 p.
  destruct (qbo_attach_demo_text.main examples.clock (examples_text.always 200) st0)
    as [[e|loc] st] eqn:Hmain; [vm_compute in Hmain; discriminate|].
  exists loc, st. split; [reflexivity|].
  assert (Hp : p ∈ text_spec.logs) by (apply list_elem_of_here).
  split; [exact Hp|]. split.
  - split.
    + right. exists (take (length examples_text.ledger - 1) examples_text.ledger).
      vm_compute. reflexivity.
    + eexists. vm_compute. reflexivity.
  - exact (reconciler_logs_append_only examples.clock (examples_text.always 200)
             st0 st (inr loc) Hmain p Hp).
Defined.

Lemma reconciler_touches_only_logs_witness :
  let st0 := examples_text.short_row_state in
  exists (msg : string) (st : qbo_attach_demo_text.state nat),
    qbo_attach_demo_text.main examples.clock (examples_text.always 200) st0
    = (inl (qbo_attach_demo_text.TypeError msg), st) /\
    (config.MAPPING_VERIFICATION_LOG_CSV ∉ text_spec.logs) /\
    qbo_attach_demo_text.fs st !! config.MAPPING_VERIFICATION_LOG_CSV
    = qbo_attach_demo_text.fs st0 !! config.MAPPING_VERIFICATION_LOG_CSV.
Proof.
  intros st0.
  destruct (qbo_attach_demo_text.main examples.clock (examples_text.always 200) st0)
    as [[[msg|msg|msg|msg]|loc] st] eqn:Hmain; try (vm_compute in Hmain; discriminate).
  exists msg, st. split; [reflexivity|].
  assert (Hp : config.MAPPING_VERIFICATION_LOG_CSV ∉ text_spec.logs).
  { compute_done. }
  split; [exact Hp|].
  exact (reconciler_touches_only_logs examples.clock (examples_text.always 200)
           st0 st _ Hmain _ Hp).
Defined.


